(** * A webhook-ingestion service: signature check, validation,
      idempotent storage, listing, statistics and metrics.

    Shallow embedding of [app/main.py], [app/metrics.py], [app/models.py]
    and [app/config.py].  Python [str] values are Rocq strings whose
    characters are the code points U+0000..U+00FF; [bytes] values are
    lists of [byte]; Python integers are [Z]; latencies (floats, in
    milliseconds) are rationals. *)

From Stdlib Require Import ZArith List Bool Lia.
From Stdlib Require Import Strings.String Strings.Ascii Strings.Byte.
From Stdlib Require Import Numbers.DecimalString.
From Stdlib Require Import QArith.
From Stdlib Require Import Sorting.Sorted Sorting.Permutation.
Import ListNotations.

Local Open Scope Z_scope.

(* ================================================================= *)
(** ** [hashlib.sha256] and [hmac.new(...).hexdigest()] *)

Module Sha256.

Definition bytes := list byte.

Definition wrap32 (x : Z) : Z := x mod 2 ^ 32.
Definition add32 (x y : Z) : Z := wrap32 (x + y).
Definition rotr (n x : Z) : Z :=
  Z.lor (Z.shiftr x n) (wrap32 (Z.shiftl x (32 - n))).
Definition not32 (x : Z) : Z := Z.lxor x 0xffffffff.

Definition Ch (x y z : Z) : Z := Z.lxor (Z.land x y) (Z.land (not32 x) z).
Definition Maj (x y z : Z) : Z :=
  Z.lxor (Z.lxor (Z.land x y) (Z.land x z)) (Z.land y z).
Definition bsig0 (x : Z) : Z := Z.lxor (Z.lxor (rotr 2 x) (rotr 13 x)) (rotr 22 x).
Definition bsig1 (x : Z) : Z := Z.lxor (Z.lxor (rotr 6 x) (rotr 11 x)) (rotr 25 x).
Definition ssig0 (x : Z) : Z := Z.lxor (Z.lxor (rotr 7 x) (rotr 18 x)) (Z.shiftr x 3).
Definition ssig1 (x : Z) : Z := Z.lxor (Z.lxor (rotr 17 x) (rotr 19 x)) (Z.shiftr x 10).

(** The constants of FIPS 180-4: the first 32 bits of the fractional
    parts of the cube roots ([K]) and of the square roots ([H0]) of the
    first primes. *)
Definition is_prime (n : Z) : bool :=
  forallb (fun d => negb (n mod d =? 0)) (map Z.of_nat (seq 2 (Z.to_nat n - 2))).

Definition primes_upto (n : nat) : list Z :=
  filter is_prime (map Z.of_nat (seq 2 (n - 1))).

(** The integer cube root, found bit by bit from [2 ^ bits] down. *)
Fixpoint cube_root (bits : nat) (n : Z) (r : Z) : Z :=
  match bits with
  | O => r
  | S b =>
      let c := r + 2 ^ Z.of_nat b in
      cube_root b n (if c * c * c <=? n then c else r)
  end.

Definition K : list Z :=
  Eval vm_compute in
    map (fun p => wrap32 (cube_root 40 (p * 2 ^ 96) 0)) (primes_upto 311).

Definition H0 : list Z :=
  Eval vm_compute in
    map (fun p => wrap32 (Z.sqrt (p * 2 ^ 64))) (primes_upto 19).

Definition byteZ (b : byte) : Z := Z.of_N (Byte.to_N b).
Definition Zbyte (z : Z) : byte :=
  match Byte.of_N (Z.to_N (z mod 256)) with
  | Some b => b
  | None => x00
  end.

(** Big-endian words. *)
Fixpoint words_of_bytes (bs : bytes) : list Z :=
  match bs with
  | a :: b :: c :: d :: rest =>
      (byteZ a * 2 ^ 24 + byteZ b * 2 ^ 16 + byteZ c * 2 ^ 8 + byteZ d)
        :: words_of_bytes rest
  | _ => []
  end.

Definition bytes_of_word (w : Z) : bytes :=
  [ Zbyte (Z.shiftr w 24); Zbyte (Z.shiftr w 16); Zbyte (Z.shiftr w 8); Zbyte w ].

Definition bytes_of_len64 (n : Z) : bytes :=
  bytes_of_word (Z.shiftr n 32) ++ bytes_of_word (wrap32 n).

(** Padding: a [0x80] byte, zeros up to 56 mod 64, the bit length on 8 bytes. *)
Definition pad (msg : bytes) : bytes :=
  let n := Z.of_nat (List.length msg) in
  let zeros := Z.to_nat ((55 - n) mod 64) in
  msg ++ [x80] ++ repeat x00 zeros ++ bytes_of_len64 (8 * n).

(** The message schedule: [w] holds the words so far, newest first. *)
Fixpoint schedule (fuel : nat) (w : list Z) : list Z :=
  match fuel with
  | O => w
  | S fuel' =>
      let nxt :=
        add32 (add32 (ssig1 (nth 1 w 0)) (nth 6 w 0))
              (add32 (ssig0 (nth 14 w 0)) (nth 15 w 0)) in
      schedule fuel' (nxt :: w)
  end.

Record regs := Regs { ra : Z; rb : Z; rc : Z; rd : Z; re : Z; rf : Z; rg : Z; rh : Z }.

Definition round (s : regs) (kw : Z * Z) : regs :=
  let t1 := add32 (add32 (add32 (rh s) (bsig1 (re s))) (add32 (Ch (re s) (rf s) (rg s)) (fst kw))) (snd kw) in
  let t2 := add32 (bsig0 (ra s)) (Maj (ra s) (rb s) (rc s)) in
  Regs (add32 t1 t2) (ra s) (rb s) (rc s) (add32 (rd s) t1) (re s) (rf s) (rg s).

Definition regs_of (h : list Z) : regs :=
  Regs (nth 0 h 0) (nth 1 h 0) (nth 2 h 0) (nth 3 h 0)
       (nth 4 h 0) (nth 5 h 0) (nth 6 h 0) (nth 7 h 0).

Definition compress (h : list Z) (block : list Z) : list Z :=
  let w := rev (schedule 48 (rev block)) in
  let s := fold_left round (combine K w) (regs_of h) in
  [ add32 (nth 0 h 0) (ra s); add32 (nth 1 h 0) (rb s);
    add32 (nth 2 h 0) (rc s); add32 (nth 3 h 0) (rd s);
    add32 (nth 4 h 0) (re s); add32 (nth 5 h 0) (rf s);
    add32 (nth 6 h 0) (rg s); add32 (nth 7 h 0) (rh s) ].

Fixpoint blocks (fuel : nat) (h : list Z) (ws : list Z) : list Z :=
  match fuel with
  | O => h
  | S fuel' =>
      match ws with
      | [] => h
      | _ => blocks fuel' (compress h (firstn 16 ws)) (skipn 16 ws)
      end
  end.

Definition digest (msg : bytes) : bytes :=
  let ws := words_of_bytes (pad msg) in
  flat_map bytes_of_word (blocks (List.length ws) H0 ws).

(** [hmac.new(key, msg, hashlib.sha256).digest()], block size 64. *)
Definition xor_pad (c : Z) (key : bytes) : bytes :=
  map (fun b => Zbyte (Z.lxor (byteZ b) c)) key.

Definition hmac_key (key : bytes) : bytes :=
  let k := if (64 <? Z.of_nat (List.length key)) then digest key else key in
  k ++ repeat x00 (64 - List.length k).

Definition hmac (key msg : bytes) : bytes :=
  let k := hmac_key key in
  digest (xor_pad 0x5c k ++ digest (xor_pad 0x36 k ++ msg)).

(** [hexdigest]: two lowercase hexadecimal digits per byte. *)
Definition hex_digit (n : Z) : ascii :=
  if n <? 10 then ascii_of_N (Z.to_N (48 + n)) else ascii_of_N (Z.to_N (87 + n)).

Fixpoint hexlify (bs : bytes) : string :=
  match bs with
  | [] => EmptyString
  | b :: rest =>
      String (hex_digit (byteZ b / 16)) (String (hex_digit (byteZ b mod 16)) (hexlify rest))
  end.

Definition hmac_hexdigest (key msg : bytes) : string := hexlify (hmac key msg).

End Sha256.

(* ================================================================= *)
(** ** Python strings *)

Module Py.

Local Open Scope string_scope.

Definition code (c : ascii) : N := N_of_ascii c.

(** [str.isascii]. *)
Fixpoint isascii (s : string) : bool :=
  match s with
  | EmptyString => true
  | String c s' => (code c <? 128)%N && isascii s'
  end.

(** [str.isspace] on one character, for the code points below U+0100. *)
Definition isspace (c : ascii) : bool :=
  let n := code c in
  ((9 <=? n) && (n <=? 13) || (28 <=? n) && (n <=? 32)
   || (n =? 133) || (n =? 160))%N.

Fixpoint lstrip (s : string) : string :=
  match s with
  | EmptyString => EmptyString
  | String c s' => if isspace c then lstrip s' else s
  end.

Fixpoint rstrip (s : string) : string :=
  match s with
  | EmptyString => EmptyString
  | String c s' =>
      match rstrip s' with
      | EmptyString => if isspace c then EmptyString else String c EmptyString
      | t => String c t
      end
  end.

(** [str.strip()]. *)
Definition strip (s : string) : string := rstrip (lstrip s).

(** Truthiness of a [str]: the empty string is falsy. *)
Definition truthy (s : string) : bool :=
  match s with EmptyString => false | _ => true end.

(** Truthiness of an [Optional[str]]: [None] and the empty string are falsy. *)
Definition truthy_opt (o : option string) : bool :=
  match o with Some s => truthy s | None => false end.

(** [\d] in a [str] pattern: the decimal digits (below U+0100 these
    are the ASCII ones only). *)
Definition isdigit (c : ascii) : bool :=
  let n := code c in ((48 <=? n) && (n <=? 57))%N.

(** ASCII lower-casing, as SQLite's [lower()] does it. *)
Definition lower_char (c : ascii) : ascii :=
  let n := code c in
  if ((65 <=? n) && (n <=? 90))%N then ascii_of_N (n + 32) else c.

Fixpoint lower (s : string) : string :=
  match s with
  | EmptyString => EmptyString
  | String c s' => String (lower_char c) (lower s')
  end.

(** [str.encode()] (UTF-8) on code points below U+0100. *)
Definition byte_of_N (n : N) : byte :=
  match Byte.of_N n with Some b => b | None => x00 end.

Fixpoint encode (s : string) : list byte :=
  match s with
  | EmptyString => []
  | String c s' =>
      let n := code c in
      if (n <? 128)%N then byte_of_N n :: encode s'
      else byte_of_N (192 + n / 64) :: byte_of_N (128 + n mod 64) :: encode s'
  end.

(** [str(n)] for an [int]: its decimal digits, with a sign when negative. *)
Definition str_of_int (n : Z) : string := NilZero.string_of_int (Z.to_int n).

(** ["\n".join(lines)]. *)
Definition newline : string := String (ascii_of_N 10) EmptyString.

Fixpoint join (sep : string) (l : list string) : string :=
  match l with
  | [] => ""
  | [x] => x
  | x :: ((_ :: _) as rest) => x ++ sep ++ join sep rest
  end.

(** Lexicographic comparison of strings by code point, which is also
    the byte order of their encodings. *)
Definition le (a b : string) : bool := String.leb a b.

Definition lt (a b : string) : bool := String.ltb a b.

End Py.

(* ================================================================= *)
(** ** [re.match] for the patterns of [MessageRequest] *)

Module Re.

Local Open Scope string_scope.

(** A character class: a literal character or [\d]. *)
Inductive cls := Lit (c : ascii) | Digit.

(** The items of a pattern: [^], [$], one character of a class, and
    [c+] for a class [c]. *)
Inductive item := Bol | Eol | One (c : cls) | Plus (c : cls).

Definition pattern := list item.

Definition in_cls (c : cls) (a : ascii) : bool :=
  match c with
  | Lit x => Ascii.eqb a x
  | Digit => Py.isdigit a
  end.

(** Without [re.MULTILINE], [$] matches at the end of the string and
    just before a newline that ends the string. *)
Definition at_end (s : string) : bool :=
  match s with
  | EmptyString => true
  | String c EmptyString => Ascii.eqb c (ascii_of_N 10)
  | _ => false
  end.

(** [matches p at_start s]: pattern [p] matches a prefix of [s];
    [at_start] tells whether [s] is the whole subject string. *)
Fixpoint matches (p : pattern) (at_start : bool) (s : string) : bool :=
  match p with
  | [] => true
  | Bol :: p' => at_start && matches p' at_start s
  | Eol :: p' => at_end s && matches p' at_start s
  | One c :: p' =>
      match s with
      | String a s' => in_cls c a && matches p' false s'
      | EmptyString => false
      end
  | Plus c :: p' =>
      (fix plus (s : string) : bool :=
         match s with
         | String a s' => in_cls c a && (matches p' false s' || plus s')
         | EmptyString => false
         end) s
  end.

(** [re.match(p, v)] as a truth value. *)
Definition re_match (p : pattern) (v : string) : bool := matches p true v.

(** [c{n}] is [n] copies of [c]. *)
Definition times (n : nat) (c : cls) : pattern := repeat (One c) n.

(** [r"^\+\d+$"] *)
Definition e164 : pattern := [Bol; One (Lit "+"); Plus Digit; Eol].

(** [r"^\d{4}-\d{2}-\d{2}T\d{2}:\d{2}:\d{2}Z$"] *)
Definition iso8601_utc : pattern :=
  ([Bol] ++ times 4 Digit ++ [One (Lit "-")] ++ times 2 Digit ++ [One (Lit "-")]
    ++ times 2 Digit ++ [One (Lit "T")] ++ times 2 Digit ++ [One (Lit ":")]
    ++ times 2 Digit ++ [One (Lit ":")] ++ times 2 Digit ++ [One (Lit "Z"); Eol])%list.

End Re.

(* ================================================================= *)
(** ** Parsed JSON and the request model [MessageRequest] *)

(** A value as [json.loads] returns it. *)
#[local] Set Warnings "-register-all".
Inductive json :=
| JNull
| JBool (b : bool)
| JInt (n : Z)
| JFloat (q : Q)
| JStr (s : string)
| JList (l : list json)
| JDict (d : list (string * json)).

(** [d.get(k)] on a dict held as its list of items. *)
Fixpoint dict_get (k : string) (d : list (string * json)) : option json :=
  match d with
  | [] => None
  | (k', v) :: rest => if String.eqb k' k then Some v else dict_get k rest
  end.

Module MessageRequest.

Local Open Scope string_scope.

Record t := Mk {
  message_id : string;
  from_field : string;
  to : string;
  ts : string;
  text : option string
}.

(** One line of a [ValidationError]: the field and what is wrong with it. *)
Definition error := (string * string)%type.

(** A required [str] field, looked up under each of [keys] in turn
    (the alias first, then the field name, as [populate_by_name] allows),
    then passed to its validator. *)
Fixpoint lookup (keys : list string) (d : list (string * json)) : option json :=
  match keys with
  | [] => None
  | k :: ks =>
      match dict_get k d with
      | Some v => Some v
      | None => lookup ks d
      end
  end.

Definition required (name : string) (keys : list string) (d : list (string * json))
           (check : string -> option string) : string + error :=
  match lookup keys d with
  | None => inr (name, "Field required")
  | Some (JStr v) =>
      match check v with
      | None => inl v
      | Some msg => inr (name, msg)
      end
  | Some _ => inr (name, "Input should be a valid string")
  end.

(** The validators; [None] stands for [return v], [Some msg] for
    [raise ValueError(msg)]. *)
Definition message_id_not_empty (v : string) : option string :=
  if negb (Py.truthy v) || negb (Py.truthy (Py.strip v))
  then Some "message_id must not be empty" else None.

Definition from_is_e164 (v : string) : option string :=
  if negb (Re.re_match Re.e164 v)
  then Some "from must be in E.164 format (e.g. +919876543210)" else None.

Definition to_is_e164 (v : string) : option string :=
  if negb (Re.re_match Re.e164 v)
  then Some "to must be in E.164 format (e.g. +14155550100)" else None.

Definition ts_is_iso8601_utc (v : string) : option string :=
  if negb (Re.re_match Re.iso8601_utc v)
  then Some "ts must be ISO-8601 UTC (e.g. 2025-01-15T10:00:00Z)" else None.

Definition text_max_length (v : option string) : option string :=
  match v with
  | Some s =>
      if Py.truthy s && (4096 <? Z.of_nat (String.length s))%Z
      then Some "text must not exceed 4096 characters" else None
  | None => None
  end.

(** The optional [text] field: missing or [null] gives [None]. *)
Definition optional_text (d : list (string * json)) : option string + error :=
  match dict_get "text" d with
  | None => inl None
  | Some JNull =>
      match text_max_length None with
      | None => inl None
      | Some msg => inr ("text", msg)
      end
  | Some (JStr v) =>
      match text_max_length (Some v) with
      | None => inl (Some v)
      | Some msg => inr ("text", msg)
      end
  | Some _ => inr ("text", "Input should be a valid string")
  end.

Definition errors_of {A} (r : A + error) : list error :=
  match r with inl _ => [] | inr e => [e] end.

(** [MessageRequest] built from the items of a dict [d]: every field is
    checked and the errors are collected in field order. *)
Definition validate_fields (d : list (string * json)) : t + list error :=
  let r_id := required "message_id" ["message_id"] d message_id_not_empty in
  let r_from := required "from" ["from"; "from_field"] d from_is_e164 in
  let r_to := required "to" ["to"] d to_is_e164 in
  let r_ts := required "ts" ["ts"] d ts_is_iso8601_utc in
  let r_text := optional_text d in
  match r_id, r_from, r_to, r_ts, r_text with
  | inl i, inl f, inl t0, inl s, inl x => inl (Mk i f t0 s x)
  | _, _, _, _, _ =>
      inr (errors_of r_id ++ errors_of r_from ++ errors_of r_to
             ++ errors_of r_ts ++ errors_of r_text)%list
  end.

(** [data = await request.json()], then [MessageRequest] on the unpacked
    [data], under [try ... except Exception]: [parsed] is [None] when the
    body is not JSON; a value that is not a dict cannot be unpacked. *)
Definition parse (parsed : option json) : t + list error :=
  match parsed with
  | None => inr [("body", "JSONDecodeError")]
  | Some (JDict d) => validate_fields d
  | Some _ => inr [("body", "argument after ** must be a mapping")]
  end.

Definition accepts (parsed : option json) : bool :=
  match parse parsed with inl _ => true | inr _ => false end.

End MessageRequest.

(* ================================================================= *)
(** ** [app/config.py] *)

Module Settings.

Local Open Scope string_scope.

Record t := Mk {
  DATABASE_URL : string;
  WEBHOOK_SECRET : option string;
  LOG_LEVEL : string
}.

(** [os.getenv(name, default)] over an environment held as a list. *)
Fixpoint getenv (environ : list (string * string)) (name : string) : option string :=
  match environ with
  | [] => None
  | (k, v) :: rest => if String.eqb k name then Some v else getenv rest name
  end.

Definition getenv_default (environ : list (string * string)) (name default : string) : string :=
  match getenv environ name with Some v => v | None => default end.

(** [Settings.__init__] *)
Definition init (environ : list (string * string)) : t :=
  Mk (getenv_default environ "DATABASE_URL" "sqlite:///./data/app.db")
     (getenv environ "WEBHOOK_SECRET")
     (getenv_default environ "LOG_LEVEL" "INFO").

End Settings.

(* ================================================================= *)
(** ** [app/models.py]: the [messages] table *)

Module Message.

Record t := Mk {
  message_id : string;      (* primary key *)
  from_msisdn : string;
  to_msisdn : string;
  ts : string;
  text : option string;     (* nullable *)
  created_at : string
}.

Definition table := list t.

Definition has_id (m : string) (r : t) : bool := String.eqb (message_id r) m.

(** The rows of a table holding a given key. *)
Definition rows_with (m : string) (tb : table) : list t := filter (has_id m) tb.

(** The primary-key constraint. *)
Definition unique_ids (tb : table) : Prop := NoDup (map message_id tb).

(** What [db.add(row); db.commit()] does. *)
Inductive commit_result :=
| Committed (tb : table)
| IntegrityError
| OtherError (msg : string).

(** [fault] is an unexpected failure of the session (the store cannot
    be reached, is locked, ...), with its text; the primary key
    rejects a row whose [message_id] is already present. *)
Definition add_commit (fault : option string) (tb : table) (row : t) : commit_result :=
  match fault with
  | Some msg => OtherError msg
  | None =>
      if existsb (has_id (message_id row)) tb then IntegrityError
      else Committed (tb ++ [row])
  end.

End Message.

(* ================================================================= *)
(** ** [app/metrics.py] *)

Module Metrics.

Local Open Scope string_scope.

Record MetricsCollector := Mk {
  http_requests_total : list (string * Z);
  webhook_requests_total : list (string * Z);
  request_latencies : list Q
}.

(** [MetricsCollector.__init__] *)
Definition init : MetricsCollector := Mk [] [] [].

(** [d[key] += 1] on a [defaultdict(int)], which keeps insertion order. *)
Fixpoint incr (key : string) (d : list (string * Z)) : list (string * Z) :=
  match d with
  | [] => [(key, 1%Z)]
  | (k, v) :: rest =>
      if String.eqb k key then (k, (v + 1)%Z) :: rest else (k, v) :: incr key rest
  end.

Definition dq : string := String (ascii_of_N 34) EmptyString.

Definition http_key (path : string) (status : Z) : string :=
  "{" ++ dq ++ "path" ++ dq ++ ":" ++ dq ++ path ++ dq ++ ","
      ++ dq ++ "status" ++ dq ++ ":" ++ Py.str_of_int status ++ "}".

Definition webhook_key (result : string) : string :=
  "{" ++ dq ++ "result" ++ dq ++ ":" ++ dq ++ result ++ dq ++ "}".

Definition record_http_request (path : string) (status : Z)
           (m : MetricsCollector) : MetricsCollector :=
  Mk (incr (http_key path status) (http_requests_total m))
     (webhook_requests_total m) (request_latencies m).

Definition record_webhook_result (result : string)
           (m : MetricsCollector) : MetricsCollector :=
  Mk (http_requests_total m)
     (incr (webhook_key result) (webhook_requests_total m))
     (request_latencies m).

Definition record_latency (latency_ms : Q) (m : MetricsCollector) : MetricsCollector :=
  Mk (http_requests_total m) (webhook_requests_total m)
     (request_latencies m ++ [latency_ms]).

(** [sorted(self.request_latencies)] *)
Fixpoint insert_sorted (x : Q) (l : list Q) : list Q :=
  match l with
  | [] => [x]
  | y :: rest => if Qle_bool x y then x :: l else y :: insert_sorted x rest
  end.

Definition sorted (l : list Q) : list Q := fold_right insert_sorted [] l.

(** [sum(1 for l in latencies if l <= bound)] *)
Definition bucket (bound : Q) (latencies : list Q) : Z :=
  Z.of_nat (List.length (filter (fun l => Qle_bool l bound) latencies)).

Definition len (latencies : list Q) : Z := Z.of_nat (List.length latencies).

Definition counter_lines (name : string) (d : list (string * Z)) : list string :=
  map (fun kc => name ++ fst kc ++ " " ++ Py.str_of_int (snd kc)) d.

Definition histogram_lines (request_latencies : list Q) : list string :=
  match request_latencies with
  | [] => []
  | _ :: _ =>
      let latencies := sorted request_latencies in
      [ "request_latency_ms_count " ++ Py.str_of_int (len latencies);
        "request_latency_ms_bucket{le=" ++ dq ++ "100" ++ dq ++ "} "
          ++ Py.str_of_int (bucket 100 latencies);
        "request_latency_ms_bucket{le=" ++ dq ++ "500" ++ dq ++ "} "
          ++ Py.str_of_int (bucket 500 latencies);
        "request_latency_ms_bucket{le=" ++ dq ++ "+Inf" ++ dq ++ "} "
          ++ Py.str_of_int (len latencies) ]
  end.

(** The four histogram lines for given numbers. *)
Definition histogram_text (count b100 b500 binf : Z) : list string :=
  [ "request_latency_ms_count " ++ Py.str_of_int count;
    "request_latency_ms_bucket{le=" ++ dq ++ "100" ++ dq ++ "} " ++ Py.str_of_int b100;
    "request_latency_ms_bucket{le=" ++ dq ++ "500" ++ dq ++ "} " ++ Py.str_of_int b500;
    "request_latency_ms_bucket{le=" ++ dq ++ "+Inf" ++ dq ++ "} " ++ Py.str_of_int binf ].

Definition export_lines (m : MetricsCollector) : list string :=
  (counter_lines "http_requests_total" (http_requests_total m)
     ++ counter_lines "webhook_requests_total" (webhook_requests_total m)
     ++ histogram_lines (request_latencies m))%list.

Definition export_prometheus (m : MetricsCollector) : string :=
  Py.join Py.newline (export_lines m).

End Metrics.

(* ================================================================= *)
(** ** [app/logging_utils.py] *)

Module Logging.

Local Open Scope string_scope.

(** A log line before [json.dumps]: the items of [log_data]. *)
Definition line := list (string * json).

(** [d[k] = v] on a dict: an existing key keeps its place. *)
Fixpoint dict_set (k : string) (v : json) (d : line) : line :=
  match d with
  | [] => [(k, v)]
  | (k', v') :: rest =>
      if String.eqb k' k then (k', v) :: rest else (k', v') :: dict_set k v rest
  end.

(** [d.update(extra)] *)
Definition dict_update (d extra : line) : line :=
  fold_left (fun acc kv => dict_set (fst kv) (snd kv) acc) extra d.

(** [round(x, 2)]: to the nearest hundredth, ties to even. *)
Definition round2 (x : Q) : Q :=
  let n := (Qnum x * 100)%Z in
  let d := Zpos (Qden x) in
  let q := (n / d)%Z in
  let r := (n mod d)%Z in
  let up := ((d <? 2 * r) || ((d =? 2 * r) && Z.odd q))%Z in
  ((if up then q + 1 else q)%Z # 100).

(** [log_request(request_id, method, path, status, latency_ms, extra=extra)];
    [now] is [datetime.utcnow().isoformat() + "Z"]. *)
Definition log_request (now request_id method path : string) (status : Z)
           (latency_ms : Q) (extra : line) : line :=
  dict_update
    [ ("ts", JStr now); ("level", JStr "INFO"); ("request_id", JStr request_id);
      ("method", JStr method); ("path", JStr path); ("status", JInt status);
      ("latency_ms", JFloat (round2 latency_ms)) ]
    extra.

End Logging.

(* ================================================================= *)
(** ** [app/main.py]: the service state and what a request observes *)

(** The state shared by the handlers: the [messages] table, the
    process-wide [metrics] object and the lines logged so far. *)
Record World := MkWorld {
  db : Message.table;
  metrics : Metrics.MetricsCollector;
  log : list Logging.line
}.

(** What a handler reads from outside while it runs: the request id
    ([uuid.uuid4()]), the elapsed time it measures when it completes
    ([(time.time() - start_time) * 1000]), the clock readings used for
    [created_at] and for the log line, and an unexpected failure of the
    database session, if there is one. *)
Record Env := MkEnv {
  request_id : string;
  latency_ms : Q;
  utcnow_row : string;
  utcnow_log : string;
  db_fault : option string
}.

(** A request to [POST /webhook]: [body] is what [await request.body()]
    returns ([None] when reading raises), [headers] holds the header
    names in lower case with their values decoded as Latin-1, and
    [json_body] is what [await request.json()] returns ([None] when it
    raises). *)
Record Request := MkRequest {
  body : option (list byte);
  headers : list (string * string);
  json_body : option json
}.

(** [request.headers.get(name)]: names compare in lower case, the first
    header of that name wins. *)
Fixpoint headers_get (name : string) (hs : list (string * string)) : option string :=
  match hs with
  | [] => None
  | (k, v) :: rest =>
      if String.eqb k (Py.lower name) then Some v else headers_get name rest
  end.

Inductive exn :=
| AttributeError (msg : string)
| TypeError (msg : string).

(** How a handler ends: with a [JSONResponse], or with an exception that
    nothing in the handler catches. *)
Inductive result :=
| Response (status_code : Z) (content : json)
| Raises (e : exn).

(** [hmac.compare_digest(a, b)] on two [str]: both must be ASCII. *)
Definition compare_digest (a b : string) : bool + exn :=
  if Py.isascii a && Py.isascii b then inl (String.eqb a b)
  else inr (TypeError "comparing strings with non-ASCII characters is not supported"%string).

(** [hmac.new(secret.encode(), raw_body, hashlib.sha256).hexdigest()] *)
Definition expected_signature (secret : option string) (raw_body : list byte) : string + exn :=
  match secret with
  | None => inr (AttributeError "'NoneType' object has no attribute 'encode'"%string)
  | Some k => inl (Sha256.hmac_hexdigest (Py.encode k) raw_body)
  end.

(** [str(e)] for a validation failure: one entry per error. *)
Definition str_of_errors (es : list MessageRequest.error) : string :=
  Py.join Py.newline (map (fun e => String.append (fst e) (String.append ": "%string (snd e))) es).

Module Webhook.

Local Open Scope string_scope.

Definition detail (msg : string) : json := JDict [("detail", JStr msg)].
Definition status_ok : json := JDict [("status", JStr "ok")].

(** The tail shared by the exits that record all three metrics:
    [record_http_request], [record_webhook_result], [record_latency],
    [log_request], then the response. *)
Definition finish (env : Env) (w : World) (tb : Message.table) (status : Z)
           (outcome : string) (extra : Logging.line) (content : json)
  : result * World :=
  let m := Metrics.record_latency (latency_ms env)
             (Metrics.record_webhook_result outcome
                (Metrics.record_http_request "/webhook" status (metrics w))) in
  let l := Logging.log_request (utcnow_log env) (request_id env) "POST" "/webhook"
             status (latency_ms env) extra in
  (Response status content, MkWorld tb m (log w ++ [l])).

Definition invalid_signature (env : Env) (w : World) : result * World :=
  finish env w (db w) 401 "invalid_signature"
         [("result", JStr "invalid_signature")] (detail "invalid signature").

(** Step 4: insert with idempotency. *)
Definition persist (env : Env) (w : World) (msg : MessageRequest.t) : result * World :=
  let new_msg :=
    Message.Mk (MessageRequest.message_id msg) (MessageRequest.from_field msg)
               (MessageRequest.to msg) (MessageRequest.ts msg)
               (MessageRequest.text msg) (utcnow_row env) in
  match Message.add_commit (db_fault env) (db w) new_msg with
  | Message.Committed tb =>
      finish env w tb 200 "created"
             [ ("message_id", JStr (MessageRequest.message_id msg));
               ("dup", JBool false); ("result", JStr "created") ]
             status_ok
  | Message.IntegrityError =>
      (* db.rollback() leaves the table as it was *)
      finish env w (db w) 200 "duplicate"
             [ ("message_id", JStr (MessageRequest.message_id msg));
               ("dup", JBool true); ("result", JStr "duplicate") ]
             status_ok
  | Message.OtherError e =>
      finish env w (db w) 500 "error"
             [ ("result", JStr "error"); ("error", JStr e) ]
             (detail "Internal server error")
  end.

(** Step 3: parse JSON and validate. *)
Definition parse_and_validate (env : Env) (req : Request) (w : World) : result * World :=
  match MessageRequest.parse (json_body req) with
  | inr es =>
      finish env w (db w) 422 "validation_error"
             [ ("result", JStr "validation_error"); ("error", JStr (str_of_errors es)) ]
             (detail (str_of_errors es))
  | inl msg => persist env w msg
  end.

(** Step 2: validate the signature. *)
Definition verify_signature (settings : Settings.t) (env : Env) (req : Request)
           (raw_body : list byte) (w : World) : result * World :=
  match headers_get "X-Signature" (headers req) with
  | None => invalid_signature env w
  | Some x_signature =>
      if negb (Py.truthy x_signature) then invalid_signature env w
      else
        match expected_signature (Settings.WEBHOOK_SECRET settings) raw_body with
        | inr e => (Raises e, w)
        | inl expected =>
            match compare_digest x_signature expected with
            | inr e => (Raises e, w)
            | inl false => invalid_signature env w
            | inl true => parse_and_validate env req w
            end
        end
  end.

(** [webhook(request, db)] *)
Definition webhook (settings : Settings.t) (env : Env) (req : Request) (w : World)
  : result * World :=
  match body req with
  | None =>
      (* step 1 failed: only the HTTP metric and the log line *)
      let m := Metrics.record_http_request "/webhook" 400 (metrics w) in
      let l := Logging.log_request (utcnow_log env) (request_id env) "POST" "/webhook"
                 400 (latency_ms env)
                 [ ("result", JStr "error"); ("reason", JStr "read_body") ] in
      (Response 400 (detail "Could not read request body"),
       MkWorld (db w) m (log w ++ [l]))
  | Some raw_body => verify_signature settings env req raw_body w
  end.

End Webhook.

Module Health.

Local Open Scope string_scope.

(** [health_live] *)
Definition health_live : result := Response 200 (JDict [("status", JStr "live")]).

(** [health_ready]: 503 unless the secret is set and the store answers
    ([db_ok] is the outcome of [db_health_check]). *)
Definition health_ready (settings : Settings.t) (db_ok : bool) : result :=
  if negb (Py.truthy_opt (Settings.WEBHOOK_SECRET settings))
  then Response 503 (JDict [("detail", JStr "WEBHOOK_SECRET not set")])
  else if negb db_ok
  then Response 503 (JDict [("detail", JStr "database not ready")])
  else Response 200 (JDict [("status", JStr "ready")]).

End Health.

(* ================================================================= *)
(** ** The SQL the read endpoints issue *)

Module Sql.

(** [x LIKE pattern]: [%] matches any run of characters, [_] any one
    character, every other character itself.  No escape character is
    in force. *)
Definition percent : ascii := ascii_of_N 37.
Definition underscore : ascii := ascii_of_N 95.

Fixpoint like (p : string) (s : string) : bool :=
  match p with
  | EmptyString => match s with EmptyString => true | _ => false end
  | String c p' =>
      if Ascii.eqb c percent then
        (fix star (s : string) : bool :=
           like p' s || match s with
                        | String _ s' => star s'
                        | EmptyString => false
                        end) s
      else if Ascii.eqb c underscore then
        match s with
        | String _ s' => like p' s'
        | EmptyString => false
        end
      else
        match s with
        | String a s' => Ascii.eqb a c && like p' s'
        | EmptyString => false
        end
  end.

(** [column.ilike(pattern)], rendered as [lower(column) LIKE lower(pattern)];
    a NULL column never satisfies it. *)
Definition ilike (column : option string) (pattern : string) : bool :=
  match column with
  | None => false
  | Some s => like (Py.lower pattern) (Py.lower s)
  end.

(** [ORDER BY ts ASC, message_id ASC]: rows compare by [ts], and by
    [message_id] where the [ts] are equal. *)
Definition key_le (a b : string * string) : bool :=
  match String.compare (fst a) (fst b) with
  | Lt => true
  | Gt => false
  | Eq => Py.le (snd a) (snd b)
  end.

Definition row_key (r : Message.t) : string * string :=
  (Message.ts r, Message.message_id r).

Definition row_le (a b : Message.t) : bool := key_le (row_key a) (row_key b).

Fixpoint insert_row (r : Message.t) (l : list Message.t) : list Message.t :=
  match l with
  | [] => [r]
  | x :: rest => if row_le r x then r :: l else x :: insert_row r rest
  end.

Definition order_by_ts_id (l : list Message.t) : list Message.t :=
  fold_right insert_row [] l.

(** [LIMIT n OFFSET k] *)
Definition limit_offset {A} (n k : Z) (l : list A) : list A :=
  firstn (Z.to_nat n) (skipn (Z.to_nat k) l).

(** [MIN(ts)] and [MAX(ts)]: NULL over no rows. *)
Definition str_min (a b : string) : string := if Py.le a b then a else b.
Definition str_max (a b : string) : string := if Py.le a b then b else a.

Definition min_ts (tb : Message.table) : option string :=
  match tb with
  | [] => None
  | r :: rest => Some (fold_left (fun acc x => str_min acc (Message.ts x)) rest (Message.ts r))
  end.

Definition max_ts (tb : Message.table) : option string :=
  match tb with
  | [] => None
  | r :: rest => Some (fold_left (fun acc x => str_max acc (Message.ts x)) rest (Message.ts r))
  end.

(** [SELECT DISTINCT from_msisdn], in order of first appearance. *)
Fixpoint distinct (l : list string) : list string :=
  match l with
  | [] => []
  | x :: rest => x :: filter (fun y => negb (String.eqb y x)) (distinct rest)
  end.

Definition senders (tb : Message.table) : list string :=
  distinct (map Message.from_msisdn tb).

(** [SELECT from_msisdn, count() ... GROUP BY from_msisdn]: one row
    per sender. *)
Definition count_from (sender : string) (tb : Message.table) : Z :=
  Z.of_nat (List.length (filter (fun r => String.eqb (Message.from_msisdn r) sender) tb)).

Definition group_by_sender (tb : Message.table) : list (string * Z) :=
  map (fun s => (s, count_from s tb)) (senders tb).

(** [ORDER BY count() DESC] names one key only: what it promises is a
    rearrangement of the groups in which no count is followed by a
    larger one.  How groups of equal count are arranged is the
    engine's business. *)
Definition count_ge (a b : string * Z) : Prop := (snd b <= snd a)%Z.

Definition orders_by_count_desc (order : list (string * Z) -> list (string * Z)) : Prop :=
  forall groups,
    Permutation groups (order groups) /\ StronglySorted count_ge (order groups).

End Sql.

(* ================================================================= *)
(** ** [GET /messages] *)

Module Messages.

Local Open Scope string_scope.

Record MessageResponse := MkItem {
  message_id : string;
  from_msisdn : string;
  to_msisdn : string;
  ts : string;
  text : option string
}.

Record MessagesListResponse := MkList {
  data : list MessageResponse;
  total : Z;
  limit : Z;
  offset : Z
}.

(** [MessageResponse.from_orm] *)
Definition from_orm (m : Message.t) : MessageResponse :=
  MkItem (Message.message_id m) (Message.from_msisdn m) (Message.to_msisdn m)
         (Message.ts m) (Message.text m).

Definition resolve_limit (limit : Z) : Z :=
  if ((limit <? 1) || (100 <? limit))%Z then 50%Z else limit.

Definition resolve_offset (offset : Z) : Z :=
  if (offset <? 0)%Z then 0%Z else offset.

(** [if f: query = query.filter(...)]: a filter that is [None] or the
    empty string leaves the query as it is. *)
Definition apply_filter (f : option string) (keep : string -> Message.t -> bool)
           (rows : list Message.t) : list Message.t :=
  match f with
  | Some v => if Py.truthy v then filter (keep v) rows else rows
  | None => rows
  end.

Definition from_matches (v : string) (r : Message.t) : bool :=
  String.eqb (Message.from_msisdn r) v.

Definition since_matches (v : string) (r : Message.t) : bool :=
  Py.le v (Message.ts r).

Definition q_matches (v : string) (r : Message.t) : bool :=
  Sql.ilike (Message.text r) (String (Sql.percent) (v ++ String Sql.percent EmptyString)).

Definition filtered (from_ since q : option string) (tb : Message.table) : list Message.t :=
  apply_filter q q_matches
    (apply_filter since since_matches
       (apply_filter from_ from_matches tb)).

(** [get_messages(limit, offset, from_, since, q, db)] *)
Definition get_messages (env : Env) (limit offset : Z) (from_ since q : option string)
           (w : World) : MessagesListResponse * World :=
  let limit := resolve_limit limit in
  let offset := resolve_offset offset in
  let query := filtered from_ since q (db w) in
  let total := Z.of_nat (List.length query) in
  let messages := Sql.limit_offset limit offset (Sql.order_by_ts_id query) in
  let m := Metrics.record_latency (latency_ms env)
             (Metrics.record_http_request "/messages" 200 (metrics w)) in
  let l := Logging.log_request (utcnow_log env) (request_id env) "GET" "/messages"
             200 (latency_ms env)
             [ ("limit", JInt limit); ("offset", JInt offset); ("total", JInt total) ] in
  (MkList (map from_orm messages) total limit offset,
   MkWorld (db w) m (log w ++ [l])%list).

End Messages.

(* ================================================================= *)
(** ** [GET /stats] *)

Module Stats.

Local Open Scope string_scope.

Record SenderStat := MkSender {
  from_msisdn : string;
  count : Z
}.

Record StatsResponse := MkStats {
  total_messages : Z;
  senders_count : Z;
  messages_per_sender : list SenderStat;
  first_message_ts : option string;
  last_message_ts : option string
}.

Section Engine.

(** How the database arranges the grouped rows for
    [ORDER BY count() DESC]. *)
Variable order : list (string * Z) -> list (string * Z).

(** [group_by(from_msisdn).order_by(func.count().desc()).limit(10).all()] *)
Definition top_senders (tb : Message.table) : list (string * Z) :=
  firstn 10 (order (Sql.group_by_sender tb)).

(** [get_stats(db)] *)
Definition get_stats (env : Env) (w : World) : StatsResponse * World :=
  let total_messages := Z.of_nat (List.length (db w)) in
  let senders_count := Z.of_nat (List.length (Sql.senders (db w))) in
  let messages_per_sender :=
    map (fun s => MkSender (fst s) (snd s)) (top_senders (db w)) in
  let first_message_ts := Sql.min_ts (db w) in
  let last_message_ts := Sql.max_ts (db w) in
  let m := Metrics.record_latency (latency_ms env)
             (Metrics.record_http_request "/stats" 200 (metrics w)) in
  let l := Logging.log_request (utcnow_log env) (request_id env) "GET" "/stats"
             200 (latency_ms env) [] in
  (MkStats total_messages senders_count messages_per_sender
           first_message_ts last_message_ts,
   MkWorld (db w) m (log w ++ [l])%list).

End Engine.

(** Two engines that honour [ORDER BY count() DESC]: insertion sorts
    that place a group before, respectively after, the groups of the
    same count already placed. *)
Fixpoint insert_by (first : string * Z -> string * Z -> bool)
         (g : string * Z) (l : list (string * Z)) : list (string * Z) :=
  match l with
  | [] => [g]
  | x :: rest => if first g x then g :: l else x :: insert_by first g rest
  end.

Definition order_with (first : string * Z -> string * Z -> bool)
           (groups : list (string * Z)) : list (string * Z) :=
  fold_right (insert_by first) [] groups.

Definition order_a : list (string * Z) -> list (string * Z) :=
  order_with (fun g x => (snd x <=? snd g)%Z).

Definition order_b : list (string * Z) -> list (string * Z) :=
  order_with (fun g x => (snd x <? snd g)%Z).

End Stats.

(* ================================================================= *)
(** ** [GET /metrics] *)

Module MetricsEndpoint.

Local Open Scope string_scope.

(** [get_metrics()]: the text is rendered before this request is counted. *)
Definition get_metrics (env : Env) (w : World) : string * World :=
  let body := Metrics.export_prometheus (metrics w) in
  let m := Metrics.record_latency (latency_ms env)
             (Metrics.record_http_request "/metrics" 200 (metrics w)) in
  let l := Logging.log_request (utcnow_log env) (request_id env) "GET" "/metrics"
             200 (latency_ms env) [] in
  (body, MkWorld (db w) m (log w ++ [l])%list).

End MetricsEndpoint.

(* ================================================================= *)
(** ** Predicates used to state the properties *)

(** The sort key of a listed item. *)
Definition item_key (i : Messages.MessageResponse) : string * string :=
  (Messages.ts i, Messages.message_id i).

(** [needle] occurs in [hay]. *)
Definition contains (needle hay : string) : Prop :=
  exists a b, hay = (a ++ needle ++ b)%string.

(** No character of [s] is a LIKE wildcard. *)
Fixpoint no_wildcard (s : string) : bool :=
  match s with
  | EmptyString => true
  | String c s' =>
      negb (Ascii.eqb c Sql.percent) && negb (Ascii.eqb c Sql.underscore)
      && no_wildcard s'
  end.

(** What each filter asks of a row, when it is set to [v]. *)
Definition from_is (v : string) (r : Message.t) : Prop := Message.from_msisdn r = v.

Definition ts_since (v : string) (r : Message.t) : Prop := Py.le v (Message.ts r) = true.

Definition text_has (v : string) (r : Message.t) : Prop :=
  exists t, Message.text r = Some t /\ contains (Py.lower v) (Py.lower t).

Definition asks (f : option string) (cond : string -> Message.t -> Prop)
           (r : Message.t) : Prop :=
  match f with
  | Some v => v = EmptyString \/ cond v r
  | None => True
  end.

(** What [apply_filter] keeps, as a test on rows. *)
Definition kept (f : option string) (keep : string -> Message.t -> bool)
           (r : Message.t) : bool :=
  match f with
  | Some v => if Py.truthy v then keep v r else true
  | None => true
  end.

(** Every character of [s] is a decimal digit. *)
Fixpoint all_digits (s : string) : bool :=
  match s with
  | EmptyString => true
  | String c s' => Py.isdigit c && all_digits s'
  end.

(** [a] stands before [b] in [l]. *)
Definition before {A} (a b : A) (l : list A) : Prop :=
  exists l1 l2 l3, l = (l1 ++ a :: l2 ++ b :: l3)%list.

(** The text field is acceptable when it is missing, [null], or a string
    of at most 4096 characters. *)
Definition text_acceptable (d : list (string * json)) (x : option string) : Prop :=
  (dict_get "text" d = None /\ x = None)
  \/ (dict_get "text" d = Some JNull /\ x = None)
  \/ (exists s, dict_get "text" d = Some (JStr s) /\ x = Some s
                /\ (String.length s <= 4096)%nat).

(* ================================================================= *)
(** ** Predicates used to state further properties *)

(** The row step 4 of the handler builds from a validated request. *)
Definition row_of (msg : MessageRequest.t) (created_at : string) : Message.t :=
  Message.Mk (MessageRequest.message_id msg) (MessageRequest.from_field msg)
             (MessageRequest.to msg) (MessageRequest.ts msg)
             (MessageRequest.text msg) created_at.

(** A row each field of which would pass its validator. *)
Definition valid_row (r : Message.t) : Prop :=
  Py.strip (Message.message_id r) <> EmptyString
  /\ Re.re_match Re.e164 (Message.from_msisdn r) = true
  /\ Re.re_match Re.e164 (Message.to_msisdn r) = true
  /\ Re.re_match Re.iso8601_utc (Message.ts r) = true
  /\ (forall t, Message.text r = Some t -> (String.length t <= 4096)%nat).

(** [d[key]] read from a counter dict; a key never incremented counts 0. *)
Fixpoint counter_of (key : string) (d : list (string * Z)) : Z :=
  match d with
  | [] => 0%Z
  | (k, v) :: rest => if String.eqb k key then v else counter_of key rest
  end.


(** The digits [0-9a-f]. *)
Definition is_lower_hex (c : ascii) : bool :=
  let n := Py.code c in
  ((48 <=? n) && (n <=? 57) || (97 <=? n) && (n <=? 102))%N.

Fixpoint all_lower_hex (s : string) : bool :=
  match s with
  | EmptyString => true
  | String c s' => is_lower_hex c && all_lower_hex s'
  end.

(** The characters of a string. *)
Definition chars (s : string) : list ascii := list_ascii_of_string s.

(** The sum of a list of integers, and of the counts of a
    [messages_per_sender] list. *)
Definition zsum (l : list Z) : Z := fold_right Z.add 0%Z l.

Definition sum_counts (l : list Stats.SenderStat) : Z := zsum (map Stats.count l).



(** [v] follows the classes [cs] character by character and stops
    there, or before one closing newline. *)
Fixpoint fits (cs : list Re.cls) (v : string) : bool :=
  match cs with
  | [] => Re.at_end v
  | c :: cs' =>
      match v with
      | String a v' => Re.in_cls c a && fits cs' v'
      | EmptyString => false
      end
  end.

(** The twenty character classes of the timestamp pattern. *)
Definition iso_classes : list Re.cls :=
  (repeat Re.Digit 4 ++ [Re.Lit "-"] ++ repeat Re.Digit 2 ++ [Re.Lit "-"]
     ++ repeat Re.Digit 2 ++ [Re.Lit "T"] ++ repeat Re.Digit 2 ++ [Re.Lit ":"]
     ++ repeat Re.Digit 2 ++ [Re.Lit ":"] ++ repeat Re.Digit 2 ++ [Re.Lit "Z"])%list.

(* ================================================================= *)
(** ** Sample data: the scenario of one message delivered twice *)

Module Sample.

Local Open Scope string_scope.

Definition settings : Settings.t :=
  Settings.init [("WEBHOOK_SECRET", "testsecret")].

Definition quoted (s : string) : string := Metrics.dq ++ s ++ Metrics.dq.

(** The body text of the scenario, as sent. *)
Definition body_m1 : list byte :=
  list_byte_of_string
    ("{" ++ quoted "message_id" ++ ":" ++ quoted "m1" ++ ","
         ++ quoted "from" ++ ":" ++ quoted "+1000000001" ++ ","
         ++ quoted "to" ++ ":" ++ quoted "+1000000002" ++ ","
         ++ quoted "ts" ++ ":" ++ quoted "2025-01-15T10:00:00Z" ++ "}").

(** The same body, parsed. *)
Definition json_m1 : json :=
  JDict [ ("message_id", JStr "m1"); ("from", JStr "+1000000001");
          ("to", JStr "+1000000002"); ("ts", JStr "2025-01-15T10:00:00Z") ].

Definition msg_m1 : MessageRequest.t :=
  MessageRequest.Mk "m1" "+1000000001" "+1000000002" "2025-01-15T10:00:00Z" None.

Definition signed (secret : string) (raw : list byte) (parsed : option json) : Request :=
  MkRequest (Some raw)
            [ ("content-type", "application/json");
              ("x-signature", Sha256.hmac_hexdigest (Py.encode secret) raw) ]
            parsed.

Definition post_m1 : Request := signed "testsecret" body_m1 (Some json_m1).

Definition env1 : Env := MkEnv "req-1" (5 # 2) "2025-01-15T10:00:01Z" "2025-01-15T10:00:01Z" None.
Definition env2 : Env := MkEnv "req-2" (7 # 4) "2025-01-15T10:00:02Z" "2025-01-15T10:00:02Z" None.

Definition empty_world : World := MkWorld [] Metrics.init [].

Definition row (id from ts : string) (text : option string) : Message.t :=
  Message.Mk id from "+1000000002" ts text "2025-01-15T10:00:01Z".


End Sample.

(* ================================================================= *)
(** ** The definitions at work on small inputs *)

Example sha256_abc :
  Sha256.hexlify (Sha256.digest (list_byte_of_string "abc"))
  = "ba7816bf8f01cfea414140de5dae2223b00361a396177a9cb410ff61f20015ad"%string.
Proof. vm_compute. reflexivity. Qed.

Example sha256_constants :
  List.length Sha256.K = 64%nat /\ nth 0 Sha256.K 0 = 0x428a2f98
  /\ nth 63 Sha256.K 0 = 0xc67178f2
  /\ List.length Sha256.H0 = 8%nat /\ nth 0 Sha256.H0 0 = 0x6a09e667
  /\ nth 7 Sha256.H0 0 = 0x5be0cd19.
Proof. repeat split. Qed.

Example hmac_sha256_fox :
  Sha256.hmac_hexdigest (list_byte_of_string "key")
    (list_byte_of_string "The quick brown fox jumps over the lazy dog")
  = "f7bc83f430538424b13298e6aa6fb143ef4d59a14946175997479dbc2d1a3cd8"%string.
Proof. vm_compute. reflexivity. Qed.

Example str_of_int_200 : Py.str_of_int 200 = "200"%string.
Proof. reflexivity. Qed.

Example str_of_int_0 : Py.str_of_int 0 = "0"%string.
Proof. reflexivity. Qed.

Example str_of_int_neg : Py.str_of_int (-45) = "-45"%string.
Proof. reflexivity. Qed.

Example strip_spaces : Py.strip "  a b  " = "a b"%string.
Proof. reflexivity. Qed.

Example join_lines : Py.join "," ["a"; "b"; "c"]%string = "a,b,c"%string.
Proof. reflexivity. Qed.

Example e164_ok : Re.re_match Re.e164 "+919876543210" = true.
Proof. reflexivity. Qed.

Example e164_no_plus : Re.re_match Re.e164 "919876543210" = false.
Proof. reflexivity. Qed.

Example e164_letters : Re.re_match Re.e164 "+abc" = false.
Proof. reflexivity. Qed.

Example e164_bare_plus : Re.re_match Re.e164 "+" = false.
Proof. reflexivity. Qed.

Example ts_ok : Re.re_match Re.iso8601_utc "2025-01-15T10:00:00Z" = true.
Proof. reflexivity. Qed.

Example ts_space : Re.re_match Re.iso8601_utc "2025-01-15 10:00:00" = false.
Proof. reflexivity. Qed.

Example export_one_request :
  Metrics.export_lines
    (Metrics.record_latency (7 # 2)
       (Metrics.record_webhook_result "created"
          (Metrics.record_http_request "/webhook" 200 Metrics.init)))
  = [ "http_requests_total{" ++ Sample.quoted "path" ++ ":" ++ Sample.quoted "/webhook"
        ++ "," ++ Sample.quoted "status" ++ ":200} 1";
      "webhook_requests_total{" ++ Sample.quoted "result" ++ ":"
        ++ Sample.quoted "created" ++ "} 1";
      "request_latency_ms_count 1";
      "request_latency_ms_bucket{le=" ++ Sample.quoted "100" ++ "} 1";
      "request_latency_ms_bucket{le=" ++ Sample.quoted "500" ++ "} 1";
      "request_latency_ms_bucket{le=" ++ Sample.quoted "+Inf" ++ "} 1" ]%string.
Proof. vm_compute. reflexivity. Qed.

Example hmac_sha256_long_key :
  Sha256.hmac_hexdigest (repeat "k"%byte 100) (repeat "x"%byte 200)
  = "e326f00ce14194bb85e2683fe9b1a78851753f77479303f94c2c3cd1998bdda3"%string.
Proof. vm_compute. reflexivity. Qed.

Example hmac_sha256_latin1_secret :
  Sha256.hmac_hexdigest (Py.encode (String "s" (String (ascii_of_N 233) EmptyString))) []
  = "2af9e7d92db4624f33111671871586ad0af32fc4ef8c0de01e16306e176669e8"%string.
Proof. vm_compute. reflexivity. Qed.

Example sample_signature :
  headers_get "X-Signature" (headers Sample.post_m1)
  = Some "6363e93ddc1d8261cb9f144c72ca02dc6f681fedf4312ff5f779b5da2fdcf11d"%string.
Proof. vm_compute. reflexivity. Qed.

Example sample_parses : MessageRequest.parse (Some Sample.json_m1) = inl Sample.msg_m1.
Proof. vm_compute. reflexivity. Qed.

Example like_wildcards :
  Sql.like "%b_d%" "abcde" = true /\ Sql.like "%b_d%" "abde" = false.
Proof. split; reflexivity. Qed.

(* ================================================================= *)
(** ** Facts about the digest text *)

Section DigestFacts.

Lemma compress_length h block : List.length (Sha256.compress h block) = 8%nat.
Proof. reflexivity. Qed.

Lemma blocks_length fuel : forall h ws,
  List.length h = 8%nat -> List.length (Sha256.blocks fuel h ws) = 8%nat.
Proof.
  induction fuel as [|fuel IH]; intros h ws Hh; simpl; [exact Hh|].
  destruct ws as [|w ws']; [exact Hh|].
  apply IH. apply compress_length.
Qed.

Lemma digest_nonempty msg : Sha256.digest msg <> [].
Proof.
  unfold Sha256.digest.
  pose proof (blocks_length
                (List.length (Sha256.words_of_bytes (Sha256.pad msg)))
                Sha256.H0 (Sha256.words_of_bytes (Sha256.pad msg)) eq_refl) as H.
  destruct (Sha256.blocks _ _ _) as [|x l]; [discriminate H|].
  simpl. discriminate.
Qed.

Lemma hex_pair_isascii (b : byte) (s : string) :
  Py.isascii
    (String (Sha256.hex_digit (Sha256.byteZ b / 16))
            (String (Sha256.hex_digit (Sha256.byteZ b mod 16)) s))
  = Py.isascii s.
Proof. destruct b; reflexivity. Qed.

Lemma hexlify_isascii bs : Py.isascii (Sha256.hexlify bs) = true.
Proof.
  induction bs as [|b bs IH]; [reflexivity|].
  cbn [Sha256.hexlify]. rewrite hex_pair_isascii. exact IH.
Qed.

Lemma hexlify_truthy bs : bs <> [] -> Py.truthy (Sha256.hexlify bs) = true.
Proof. destruct bs; [congruence | reflexivity]. Qed.

Lemma hexdigest_isascii key msg : Py.isascii (Sha256.hmac_hexdigest key msg) = true.
Proof. apply hexlify_isascii. Qed.

Lemma hexdigest_truthy key msg : Py.truthy (Sha256.hmac_hexdigest key msg) = true.
Proof. apply hexlify_truthy, digest_nonempty. Qed.

End DigestFacts.

(* ================================================================= *)
(** ** Pagination *)








(* ================================================================= *)
(** ** What each exit of the webhook handler records *)

Lemma finish_metrics env w tb status outcome extra content :
  metrics (snd (Webhook.finish env w tb status outcome extra content))
  = Metrics.record_latency (latency_ms env)
      (Metrics.record_webhook_result outcome
         (Metrics.record_http_request "/webhook" status (metrics w))).
Proof. reflexivity. Qed.

Lemma finish_result env w tb status outcome extra content :
  fst (Webhook.finish env w tb status outcome extra content) = Response status content.
Proof. reflexivity. Qed.

Lemma finish_db env w tb status outcome extra content :
  db (snd (Webhook.finish env w tb status outcome extra content)) = tb.
Proof. reflexivity. Qed.

(** The pairs of status and outcome the handler can finish with. *)
Lemma persist_finishes env w msg :
  exists tb status outcome extra content,
    Webhook.persist env w msg = Webhook.finish env w tb status outcome extra content
    /\ In (status, outcome)
          [(200%Z, "created"%string); (200%Z, "duplicate"%string); (500%Z, "error"%string)].
Proof.
  unfold Webhook.persist.
  destruct (Message.add_commit _ _ _) as [tb| |e];
    do 5 eexists; (split; [reflexivity|]); simpl; auto.
Qed.

Lemma parse_and_validate_finishes env req w :
  exists tb status outcome extra content,
    Webhook.parse_and_validate env req w
    = Webhook.finish env w tb status outcome extra content
    /\ In (status, outcome)
          [(422%Z, "validation_error"%string); (200%Z, "created"%string);
           (200%Z, "duplicate"%string); (500%Z, "error"%string)].
Proof.
  unfold Webhook.parse_and_validate.
  destruct (MessageRequest.parse (json_body req)) as [msg|es].
  - destruct (persist_finishes env w msg) as (tb & st & o & ex & c & E & Hin).
    exists tb, st, o, ex, c. split; [exact E|].
    simpl in Hin |- *. intuition.
  - do 5 eexists. split; [reflexivity|]. simpl; auto.
Qed.

(** With a readable body the handler either lets an exception escape,
    leaving the state as it was, or finishes through one of the five
    exits that record all three metrics. *)
Lemma webhook_readable_exits settings env req w raw :
  body req = Some raw ->
  (exists e, Webhook.webhook settings env req w = (Raises e, w))
  \/ (exists tb status outcome extra content,
        Webhook.webhook settings env req w
        = Webhook.finish env w tb status outcome extra content
        /\ In (status, outcome)
              [(401%Z, "invalid_signature"%string); (422%Z, "validation_error"%string);
               (200%Z, "created"%string); (200%Z, "duplicate"%string);
               (500%Z, "error"%string)]).
Proof.
  intros Hb. unfold Webhook.webhook. rewrite Hb. unfold Webhook.verify_signature.
  assert (Hinv : exists tb status outcome extra content,
             Webhook.invalid_signature env w
             = Webhook.finish env w tb status outcome extra content
             /\ In (status, outcome)
                   [(401%Z, "invalid_signature"%string); (422%Z, "validation_error"%string);
                    (200%Z, "created"%string); (200%Z, "duplicate"%string);
                    (500%Z, "error"%string)]).
  { do 5 eexists. split; [reflexivity|]. simpl; auto. }
  destruct (headers_get _ _) as [sig|]; [|right; exact Hinv].
  destruct (negb (Py.truthy sig)); [right; exact Hinv|].
  destruct (expected_signature _ _) as [expected|e]; [|left; eauto].
  destruct (compare_digest sig expected) as [[|]|e]; [| right; exact Hinv | left; eauto].
  right. destruct (parse_and_validate_finishes env req w)
    as (tb & st & o & ex & c & E & Hin).
  exists tb, st, o, ex, c. split; [exact E|].
  simpl in Hin |- *. intuition.
Qed.

(** Every exit taken after the body was read records the HTTP status,
    the webhook outcome and the latency, once each. *)
Lemma webhook_exit_records_all settings env req w raw status content :
  body req = Some raw ->
  fst (Webhook.webhook settings env req w) = Response status content ->
  exists outcome,
    metrics (snd (Webhook.webhook settings env req w))
    = Metrics.record_latency (latency_ms env)
        (Metrics.record_webhook_result outcome
           (Metrics.record_http_request "/webhook" status (metrics w))).
Proof.
  intros Hb Hr.
  destruct (webhook_readable_exits settings env req w raw Hb)
    as [(e & E) | (tb & st & o & ex & c & E & _)].
  - rewrite E in Hr. discriminate Hr.
  - rewrite E in Hr |- *. rewrite finish_result in Hr. inversion Hr; subst.
    exists o. apply finish_metrics.
Qed.

(** C8. The exit taken when the body cannot be read answers 400 and
    counts the HTTP status once, but it records neither a webhook
    outcome nor a latency: the list of observed latencies is left as it
    was, where the claim has this exit record one. *)
Theorem read_body_failure_records_no_latency
        (settings : Settings.t) (env : Env) (req : Request) (w : World) :
  body req = None ->
  let out := Webhook.webhook settings env req w in
  fst out = Response 400 (Webhook.detail "Could not read request body")
  /\ Metrics.http_requests_total (metrics (snd out))
     = Metrics.incr (Metrics.http_key "/webhook" 400)
                    (Metrics.http_requests_total (metrics w))
  /\ Metrics.webhook_requests_total (metrics (snd out))
     = Metrics.webhook_requests_total (metrics w)
  /\ Metrics.request_latencies (metrics (snd out))
     = Metrics.request_latencies (metrics w)
  /\ db (snd out) = db w.
Proof.
  intros Hb. unfold Webhook.webhook. rewrite Hb. cbn. repeat split.
Qed.

Lemma read_body_failure_witness :
  let req := MkRequest None [("x-signature", "00")]%string None in
  let w := MkWorld [] Metrics.init [] in
  let out := Webhook.webhook (Settings.init []) (MkEnv "r1" (5 # 2) "t0" "t1" None) req w in
  fst out = Response 400 (Webhook.detail "Could not read request body")
  /\ Metrics.request_latencies (metrics (snd out)) = [].
Proof.
  intros req w out.
  destruct (read_body_failure_records_no_latency
              (Settings.init []) (MkEnv "r1" (5 # 2) "t0" "t1" None) req w eq_refl)
    as (Hr & _ & _ & Hl & _).
  split; [exact Hr | exact Hl].
Defined.

(* ================================================================= *)
(** ** Signature verification *)

Lemma compare_digest_ascii a b :
  Py.isascii a = true -> Py.isascii b = true ->
  compare_digest a b = inl (String.eqb a b).
Proof. intros Ha Hb. unfold compare_digest. rewrite Ha, Hb. reflexivity. Qed.

Lemma compare_digest_non_ascii a b :
  Py.isascii a = false ->
  compare_digest a b
  = inr (TypeError "comparing strings with non-ASCII characters is not supported").
Proof. intros Ha. unfold compare_digest. rewrite Ha. reflexivity. Qed.

(** No header, or an empty one: 401, nothing stored. *)
Lemma signature_missing settings env req w raw :
  body req = Some raw ->
  headers_get "X-Signature" (headers req) = None
  \/ headers_get "X-Signature" (headers req) = Some EmptyString ->
  Webhook.webhook settings env req w = Webhook.invalid_signature env w.
Proof.
  intros Hb [H|H]; unfold Webhook.webhook, Webhook.verify_signature;
    rewrite Hb, H; reflexivity.
Qed.

(** An ASCII header that is not the expected digest: 401, nothing stored. *)
Lemma signature_mismatch settings env req w raw secret sig :
  body req = Some raw ->
  Settings.WEBHOOK_SECRET settings = Some secret ->
  headers_get "X-Signature" (headers req) = Some sig ->
  Py.isascii sig = true ->
  sig <> Sha256.hmac_hexdigest (Py.encode secret) raw ->
  Webhook.webhook settings env req w = Webhook.invalid_signature env w.
Proof.
  intros Hb Hs Hh Ha Hne. unfold Webhook.webhook, Webhook.verify_signature.
  rewrite Hb, Hh. destruct (negb (Py.truthy sig)); [reflexivity|].
  rewrite Hs. cbn [expected_signature].
  rewrite (compare_digest_ascii _ _ Ha (hexdigest_isascii _ _)).
  apply String.eqb_neq in Hne. rewrite Hne. reflexivity.
Qed.

(** The expected digest in the header: the request goes on to validation. *)
Lemma signature_accepted settings env req w raw secret :
  body req = Some raw ->
  Settings.WEBHOOK_SECRET settings = Some secret ->
  headers_get "X-Signature" (headers req)
  = Some (Sha256.hmac_hexdigest (Py.encode secret) raw) ->
  Webhook.webhook settings env req w = Webhook.parse_and_validate env req w.
Proof.
  intros Hb Hs Hh. unfold Webhook.webhook, Webhook.verify_signature.
  rewrite Hb, Hh, hexdigest_truthy. cbn [negb].
  rewrite Hs. cbn [expected_signature].
  rewrite (compare_digest_ascii _ _ (hexdigest_isascii _ _) (hexdigest_isascii _ _)).
  rewrite String.eqb_refl. reflexivity.
Qed.

Lemma invalid_signature_is_401 env w :
  fst (Webhook.invalid_signature env w) = Response 401 (Webhook.detail "invalid signature")
  /\ db (snd (Webhook.invalid_signature env w)) = db w.
Proof. split; reflexivity. Qed.

(** A header holding a character outside ASCII makes [compare_digest]
    raise; the handler has no [except] around it. *)
Lemma signature_non_ascii settings env req w raw secret sig :
  body req = Some raw ->
  Settings.WEBHOOK_SECRET settings = Some secret ->
  headers_get "X-Signature" (headers req) = Some sig ->
  Py.isascii sig = false ->
  Webhook.webhook settings env req w
  = (Raises (TypeError "comparing strings with non-ASCII characters is not supported"), w).
Proof.
  intros Hb Hs Hh Ha. unfold Webhook.webhook, Webhook.verify_signature.
  rewrite Hb, Hh.
  assert (Ht : Py.truthy sig = true) by (destruct sig; [discriminate Ha | reflexivity]).
  rewrite Ht. cbn [negb]. rewrite Hs. cbn [expected_signature].
  rewrite (compare_digest_non_ascii _ _ Ha). reflexivity.
Qed.

(** C2. A readable request whose [X-Signature] value is the single
    character U+00E9 differs from the expected HMAC digest of its body,
    yet the handler does not answer 401: [hmac.compare_digest] raises
    [TypeError] and the exception leaves the handler.  (No row is
    stored and nothing is recorded.) *)
Theorem non_ascii_signature_escapes (env : Env) (w : World) :
  let settings := Settings.Mk "sqlite:///./data/app.db" (Some "testsecret"%string) "INFO" in
  let req := MkRequest (Some []) [("x-signature", String (ascii_of_N 233) EmptyString)]%string
                       None in
  String (ascii_of_N 233) EmptyString
    <> Sha256.hmac_hexdigest (Py.encode "testsecret") []
  /\ Webhook.webhook settings env req w
     = (Raises (TypeError "comparing strings with non-ASCII characters is not supported"), w)
  /\ forall content,
       fst (Webhook.webhook settings env req w) <> Response 401 content.
Proof.
  intros settings req.
  assert (E : Webhook.webhook settings env req w
              = (Raises (TypeError "comparing strings with non-ASCII characters is not supported"), w)).
  { apply (signature_non_ascii settings env req w [] "testsecret"
             (String (ascii_of_N 233) EmptyString)); reflexivity. }
  split; [|split].
  - intros H. pose proof (hexdigest_isascii (Py.encode "testsecret") []) as Ha.
    rewrite <- H in Ha. discriminate Ha.
  - exact E.
  - intros content. rewrite E. discriminate.
Qed.

(* ================================================================= *)
(** ** A missing secret *)

(** C10. With [WEBHOOK_SECRET] unset, every request with a readable body
    and a non-empty [X-Signature] header makes the handler raise while
    it computes the expected HMAC ([None] has no [encode]): no 401, no
    row stored, nothing recorded; the readiness endpoint is where the
    missing secret is reported, with 503. *)
Theorem missing_secret_raises (settings : Settings.t) (env : Env) (req : Request)
        (w : World) (raw : list byte) (sig : string) (db_ok : bool) :
  Settings.WEBHOOK_SECRET settings = None ->
  body req = Some raw ->
  headers_get "X-Signature" (headers req) = Some sig ->
  sig <> EmptyString ->
  Webhook.webhook settings env req w
  = (Raises (AttributeError "'NoneType' object has no attribute 'encode'"), w)
  /\ (forall content, fst (Webhook.webhook settings env req w) <> Response 401 content)
  /\ db (snd (Webhook.webhook settings env req w)) = db w
  /\ Health.health_ready settings db_ok
     = Response 503 (JDict [("detail"%string, JStr "WEBHOOK_SECRET not set")]).
Proof.
  intros Hs Hb Hh Hne.
  assert (E : Webhook.webhook settings env req w
              = (Raises (AttributeError "'NoneType' object has no attribute 'encode'"), w)).
  { unfold Webhook.webhook, Webhook.verify_signature. rewrite Hb, Hh.
    destruct sig as [|c sig']; [congruence|]. cbn [Py.truthy negb].
    rewrite Hs. reflexivity. }
  rewrite E. repeat split.
  - intros content. discriminate.
  - unfold Health.health_ready. rewrite Hs. reflexivity.
Qed.

Lemma missing_secret_raises_witness :
  let settings := Settings.init [] in
  let req := MkRequest (Some []) [("x-signature", "abc")]%string None in
  let w := MkWorld [] Metrics.init [] in
  let env := MkEnv "r1" (1 # 1) "t0" "t1" None in
  Webhook.webhook settings env req w
  = (Raises (AttributeError "'NoneType' object has no attribute 'encode'"), w).
Proof.
  intros settings req w env.
  apply (missing_secret_raises settings env req w [] "abc" true);
    [reflexivity | reflexivity | reflexivity | discriminate].
Defined.

(** C10, as stated, fails for a header that is present but empty: the
    handler answers 401 before it looks at the secret. *)
Lemma empty_signature_without_secret_is_401 :
  let settings := Settings.init [] in
  let req := MkRequest (Some []) [("x-signature", "")]%string None in
  let w := MkWorld [] Metrics.init [] in
  let env := MkEnv "r1" (1 # 1) "t0" "t1" None in
  Settings.WEBHOOK_SECRET settings = None
  /\ body req = Some []
  /\ headers_get "X-Signature" (headers req) = Some EmptyString
  /\ fst (Webhook.webhook settings env req w)
     = Response 401 (Webhook.detail "invalid signature")
  /\ ~ (exists e, fst (Webhook.webhook settings env req w) = Raises e).
Proof.
  cbn zeta. repeat split. intros [e He]. discriminate He.
Qed.

(* ================================================================= *)
(** ** Idempotent insertion *)

Lemma has_id_true m r : Message.has_id m r = true <-> Message.message_id r = m.
Proof. unfold Message.has_id. apply String.eqb_eq. Qed.

Lemma rows_with_absent m tb :
  ~ In m (map Message.message_id tb) -> Message.rows_with m tb = [].
Proof.
  induction tb as [|r tb IH]; intros Hn; [reflexivity|].
  unfold Message.rows_with in *. cbn [filter].
  destruct (Message.has_id m r) eqn:E.
  - apply has_id_true in E. exfalso. apply Hn. left. exact E.
  - apply IH. intros Hin. apply Hn. right. exact Hin.
Qed.

Lemma rows_with_unique m tb :
  Message.unique_ids tb ->
  In m (map Message.message_id tb) ->
  List.length (Message.rows_with m tb) = 1%nat.
Proof.
  unfold Message.unique_ids.
  induction tb as [|r tb IH]; intros Hu Hin; [destruct Hin|].
  cbn [map] in Hu. inversion Hu as [|x l Hnot Hu']; subst.
  unfold Message.rows_with in *. cbn [filter].
  destruct (Message.has_id m r) eqn:E.
  - apply has_id_true in E. subst m.
    fold (Message.rows_with (Message.message_id r) tb).
    rewrite (rows_with_absent _ _ Hnot). reflexivity.
  - destruct Hin as [Hin|Hin].
    + apply has_id_true in Hin. congruence.
    + apply IH; assumption.
Qed.

Lemma existsb_has_id m tb :
  existsb (Message.has_id m) tb = true <-> In m (map Message.message_id tb).
Proof.
  rewrite existsb_exists, in_map_iff. split.
  - intros (r & Hin & H). apply has_id_true in H. eauto.
  - intros (r & H & Hin). exists r. split; [exact Hin|]. apply has_id_true. exact H.
Qed.

(** A commit that succeeds keeps the primary key unique and adds the row
    at the end; one that does not leaves no trace. *)
Lemma add_commit_created tb row :
  ~ In (Message.message_id row) (map Message.message_id tb) ->
  Message.add_commit None tb row = Message.Committed (tb ++ [row]).
Proof.
  intros Hn. unfold Message.add_commit.
  destruct (existsb _ tb) eqn:E; [|reflexivity].
  apply existsb_has_id in E. contradiction.
Qed.

Lemma add_commit_duplicate tb row :
  In (Message.message_id row) (map Message.message_id tb) ->
  Message.add_commit None tb row = Message.IntegrityError.
Proof.
  intros Hin. unfold Message.add_commit.
  apply existsb_has_id in Hin. rewrite Hin. reflexivity.
Qed.

Lemma unique_ids_snoc tb row :
  Message.unique_ids tb ->
  ~ In (Message.message_id row) (map Message.message_id tb) ->
  Message.unique_ids (tb ++ [row]).
Proof.
  unfold Message.unique_ids. intros Hu Hn. rewrite map_app. cbn [map].
  apply NoDup_rev in Hu. rewrite <- (rev_involutive (_ ++ _)).
  apply NoDup_rev. rewrite rev_app_distr. cbn [rev app].
  constructor; [|exact Hu]. rewrite <- in_rev. exact Hn.
Qed.

(** The handler never breaks the primary key. *)
Lemma webhook_keeps_unique_ids settings env req w :
  Message.unique_ids (db w) ->
  Message.unique_ids (db (snd (Webhook.webhook settings env req w))).
Proof.
  intros Hu. unfold Webhook.webhook.
  destruct (body req) as [raw|]; [|exact Hu].
  unfold Webhook.verify_signature.
  destruct (headers_get _ _) as [sig|]; [|exact Hu].
  destruct (negb (Py.truthy sig)); [exact Hu|].
  destruct (expected_signature _ _) as [expected|e]; [|exact Hu].
  destruct (compare_digest sig expected) as [[|]|e]; [|exact Hu|exact Hu].
  unfold Webhook.parse_and_validate.
  destruct (MessageRequest.parse _) as [msg|es]; [|exact Hu].
  unfold Webhook.persist, Message.add_commit.
  destruct (db_fault env); [exact Hu|].
  destruct (existsb _ (db w)) eqn:E; [exact Hu|].
  rewrite finish_db. apply unique_ids_snoc; [exact Hu|].
  intros Hin. apply existsb_has_id in Hin. rewrite Hin in E. discriminate E.
Qed.



(* ================================================================= *)
(** ** The metrics text *)

Lemma insert_sorted_length x l :
  List.length (Metrics.insert_sorted x l) = S (List.length l).
Proof.
  induction l as [|y l IH]; [reflexivity|]. cbn [Metrics.insert_sorted].
  destruct (Qle_bool x y); cbn [List.length]; [reflexivity | now rewrite IH].
Qed.

Lemma sorted_length l : List.length (Metrics.sorted l) = List.length l.
Proof.
  induction l as [|x l IH]; [reflexivity|].
  cbn [Metrics.sorted fold_right]. fold (Metrics.sorted l).
  rewrite insert_sorted_length, IH. reflexivity.
Qed.

Lemma insert_sorted_filter (f : Q -> bool) x l :
  List.length (filter f (Metrics.insert_sorted x l))
  = List.length (filter f (x :: l)).
Proof.
  induction l as [|y l IH]; [reflexivity|]. cbn [Metrics.insert_sorted].
  destruct (Qle_bool x y); [reflexivity|].
  cbn [filter] in IH |- *.
  destruct (f y), (f x); cbn [List.length] in IH |- *; rewrite IH; reflexivity.
Qed.

Lemma sorted_filter (f : Q -> bool) l :
  List.length (filter f (Metrics.sorted l)) = List.length (filter f l).
Proof.
  induction l as [|x l IH]; [reflexivity|].
  cbn [Metrics.sorted fold_right]. fold (Metrics.sorted l).
  rewrite insert_sorted_filter. cbn [filter].
  destruct (f x); cbn [List.length]; rewrite IH; reflexivity.
Qed.

Lemma bucket_sorted bound l : Metrics.bucket bound (Metrics.sorted l) = Metrics.bucket bound l.
Proof. unfold Metrics.bucket. rewrite sorted_filter. reflexivity. Qed.

Lemma len_sorted l : Metrics.len (Metrics.sorted l) = Metrics.len l.
Proof. unfold Metrics.len. rewrite sorted_length. reflexivity. Qed.

Lemma filter_length_le {A} (f : A -> bool) l :
  (List.length (filter f l) <= List.length l)%nat.
Proof.
  induction l as [|x l IH]; [apply le_n|]. cbn [filter].
  destruct (f x); cbn [List.length]; lia.
Qed.

Lemma filter_length_mono {A} (f g : A -> bool) l :
  (forall x, f x = true -> g x = true) ->
  (List.length (filter f l) <= List.length (filter g l))%nat.
Proof.
  intros H. induction l as [|x l IH]; [apply le_n|]. cbn [filter].
  destruct (f x) eqn:Ef.
  - rewrite (H x Ef). cbn [List.length]. lia.
  - destruct (g x); cbn [List.length]; lia.
Qed.

Lemma bucket_mono (a b : Q) l :
  (a <= b)%Q -> (Metrics.bucket a l <= Metrics.bucket b l)%Z.
Proof.
  intros Hab. unfold Metrics.bucket. apply Nat2Z.inj_le.
  apply filter_length_mono. intros x Hx.
  apply Qle_bool_iff in Hx. apply Qle_bool_iff.
  apply (Qle_trans _ a); assumption.
Qed.

Lemma bucket_le_len b l : (Metrics.bucket b l <= Metrics.len l)%Z.
Proof.
  unfold Metrics.bucket, Metrics.len. apply Nat2Z.inj_le. apply filter_length_le.
Qed.

(** C9. Once a latency has been observed, the metrics text is one
    [name{labels} value] line per counter followed by the histogram:
    the number of observations, then the cumulative buckets for 100,
    500 and +Inf, each counting the observations at or below its bound,
    so that bucket(100) <= bucket(500) <= bucket(+Inf) = count.  While
    no latency has been observed the text holds the counter lines only. *)
Theorem export_renders_counters_and_histogram (m : Metrics.MetricsCollector) :
  let counters :=
    (map (fun kc => ("http_requests_total" ++ fst kc ++ " " ++ Py.str_of_int (snd kc))%string)
         (Metrics.http_requests_total m)
     ++ map (fun kc => ("webhook_requests_total" ++ fst kc ++ " " ++ Py.str_of_int (snd kc))%string)
         (Metrics.webhook_requests_total m))%list in
  let obs := Metrics.request_latencies m in
  let at_most (bound : Q) :=
    Z.of_nat (List.length (filter (fun l => Qle_bool l bound) obs)) in
  let count := Z.of_nat (List.length obs) in
  Metrics.export_prometheus m = Py.join Py.newline (Metrics.export_lines m)
  /\ (obs <> [] ->
      Metrics.export_lines m
      = (counters ++ Metrics.histogram_text count (at_most 100%Q) (at_most 500%Q) count)%list)
  /\ (obs = [] -> Metrics.export_lines m = counters)
  /\ (at_most 100%Q <= at_most 500%Q <= count)%Z.
Proof.
  cbn zeta. split; [reflexivity|]. split; [|split].
  - intros Hne. unfold Metrics.export_lines, Metrics.histogram_lines.
    destruct (Metrics.request_latencies m) as [|x l] eqn:E; [congruence|].
    rewrite !bucket_sorted, !len_sorted. rewrite app_assoc. reflexivity.
  - intros He. unfold Metrics.export_lines. rewrite He. cbn [Metrics.histogram_lines].
    rewrite app_nil_r. reflexivity.
  - split.
    + apply (bucket_mono 100 500). discriminate.
    + apply (bucket_le_len 500).
Qed.

Lemma export_histogram_witness :
  let m := Metrics.record_latency (750 # 1)
             (Metrics.record_latency (250 # 1)
                (Metrics.record_latency (5 # 2)
                   (Metrics.record_http_request "/stats" 200 Metrics.init))) in
  Metrics.export_lines m
  = ( [("http_requests_total" ++ Metrics.http_key "/stats" 200 ++ " 1")%string]
      ++ Metrics.histogram_text 3 1 2 3)%list.
Proof.
  intros m.
  destruct (export_renders_counters_and_histogram m) as (_ & Hne & _).
  rewrite Hne; [reflexivity | discriminate].
Defined.

(** C9, as stated for every collector state, fails for the collector as
    it is created: no histogram line is rendered. *)
Lemma export_of_fresh_collector_has_no_histogram :
  Metrics.export_prometheus Metrics.init = EmptyString
  /\ ~ (exists count b100 b500 binf,
          Metrics.export_lines Metrics.init
          = (Metrics.counter_lines "http_requests_total"
               (Metrics.http_requests_total Metrics.init)
             ++ Metrics.counter_lines "webhook_requests_total"
               (Metrics.webhook_requests_total Metrics.init)
             ++ Metrics.histogram_text count b100 b500 binf)%list).
Proof.
  split; [reflexivity|]. intros (c & b1 & b5 & bi & H). discriminate H.
Qed.

(* ================================================================= *)
(** ** Payload validation *)

Lemma truthy_false s : Py.truthy s = false <-> s = EmptyString.
Proof. destruct s; split; intros H; try reflexivity; discriminate H. Qed.

Lemma truthy_true s : Py.truthy s = true <-> s <> EmptyString.
Proof. destruct s; split; intros H; try reflexivity; try discriminate; congruence. Qed.

Lemma message_id_not_empty_ok v :
  MessageRequest.message_id_not_empty v = None <-> Py.strip v <> EmptyString.
Proof.
  unfold MessageRequest.message_id_not_empty.
  destruct v as [|c v']; [cbn; split; [discriminate | congruence]|].
  cbn [Py.truthy negb orb].
  destruct (Py.truthy (Py.strip (String c v'))) eqn:E; cbn [negb].
  - apply truthy_true in E. split; [intros _; exact E | reflexivity].
  - apply truthy_false in E. split; [discriminate | congruence].
Qed.

Lemma regex_check_ok p v (msg : string) :
  (if negb (Re.re_match p v) then Some msg else None) = None
  <-> Re.re_match p v = true.
Proof. destruct (Re.re_match p v); cbn; split; congruence. Qed.

Lemma text_max_length_ok s :
  MessageRequest.text_max_length (Some s) = None
  <-> (String.length s <= 4096)%nat.
Proof.
  unfold MessageRequest.text_max_length.
  destruct (Z.ltb_spec 4096 (Z.of_nat (String.length s))) as [H|H].
  - destruct s as [|c s']; [cbn in H; lia|]. cbn [Py.truthy andb].
    split; [discriminate | lia].
  - rewrite andb_false_r. split; [lia | reflexivity].
Qed.

Lemma required_ok name keys d check v :
  MessageRequest.required name keys d check = inl v
  <-> MessageRequest.lookup keys d = Some (JStr v) /\ check v = None.
Proof.
  unfold MessageRequest.required.
  destruct (MessageRequest.lookup keys d) as [[| | | |s| |]|];
    try (split; [discriminate | intros [H _]; discriminate H]).
  destruct (check s) eqn:E.
  - split; [discriminate|]. intros [H1 H2]. inversion H1; subst. congruence.
  - split.
    + intros H. inversion H; subst. auto.
    + intros [H1 _]. inversion H1; subst. reflexivity.
Qed.

Lemma lookup_single k d : MessageRequest.lookup [k] d = dict_get k d.
Proof. cbn. destruct (dict_get k d); reflexivity. Qed.

Lemma optional_text_ok d x :
  MessageRequest.optional_text d = inl x <-> text_acceptable d x.
Proof.
  unfold MessageRequest.optional_text, text_acceptable.
  destruct (dict_get "text" d) as [[| | | |s| |]|].
  - cbn. split.
    + intros H. inversion H. right. left. auto.
    + intros [[H _]|[[_ H]|(s & H & _)]]; try discriminate H. subst. reflexivity.
  - split; [discriminate|]. intros [[H _]|[[H _]|(s & H & _)]]; discriminate H.
  - split; [discriminate|]. intros [[H _]|[[H _]|(s & H & _)]]; discriminate H.
  - split; [discriminate|]. intros [[H _]|[[H _]|(s & H & _)]]; discriminate H.
  - destruct (MessageRequest.text_max_length (Some s)) eqn:E.
    + split; [discriminate|].
      intros [[H _]|[[H _]|(s' & H & _ & Hl)]]; try discriminate H.
      inversion H; subst. apply text_max_length_ok in Hl. congruence.
    + apply text_max_length_ok in E. split.
      * intros H. inversion H; subst. right. right. exists s. auto.
      * intros [[H _]|[[H _]|(s' & H & Hx & _)]]; try discriminate H.
        inversion H; subst. reflexivity.
  - split; [discriminate|]. intros [[H _]|[[H _]|(s & H & _)]]; discriminate H.
  - split; [discriminate|]. intros [[H _]|[[H _]|(s & H & _)]]; discriminate H.
  - split.
    + intros H. inversion H. left. auto.
    + intros [[_ H]|[[H _]|(s & H & _)]]; try discriminate H. subst. reflexivity.
Qed.

(** When the model is built, and with which fields. *)
Lemma validate_fields_ok d m :
  MessageRequest.validate_fields d = inl m
  <-> dict_get "message_id" d = Some (JStr (MessageRequest.message_id m))
      /\ Py.strip (MessageRequest.message_id m) <> EmptyString
      /\ MessageRequest.lookup ["from"; "from_field"]%string d
         = Some (JStr (MessageRequest.from_field m))
      /\ Re.re_match Re.e164 (MessageRequest.from_field m) = true
      /\ dict_get "to" d = Some (JStr (MessageRequest.to m))
      /\ Re.re_match Re.e164 (MessageRequest.to m) = true
      /\ dict_get "ts" d = Some (JStr (MessageRequest.ts m))
      /\ Re.re_match Re.iso8601_utc (MessageRequest.ts m) = true
      /\ text_acceptable d (MessageRequest.text m).
Proof.
  unfold MessageRequest.validate_fields.
  rewrite <- message_id_not_empty_ok.
  rewrite <- (regex_check_ok Re.e164 (MessageRequest.from_field m)
                "from must be in E.164 format (e.g. +919876543210)").
  rewrite <- (regex_check_ok Re.e164 (MessageRequest.to m)
                "to must be in E.164 format (e.g. +14155550100)").
  rewrite <- (regex_check_ok Re.iso8601_utc (MessageRequest.ts m)
                "ts must be ISO-8601 UTC (e.g. 2025-01-15T10:00:00Z)").
  rewrite <- optional_text_ok.
  rewrite <- !lookup_single.
  fold (MessageRequest.from_is_e164 (MessageRequest.from_field m)).
  fold (MessageRequest.to_is_e164 (MessageRequest.to m)).
  fold (MessageRequest.ts_is_iso8601_utc (MessageRequest.ts m)).
  pose proof (required_ok "message_id" ["message_id"%string] d
                MessageRequest.message_id_not_empty) as R1.
  pose proof (required_ok "from" ["from"; "from_field"]%string d
                MessageRequest.from_is_e164) as R2.
  pose proof (required_ok "to" ["to"%string] d MessageRequest.to_is_e164) as R3.
  pose proof (required_ok "ts" ["ts"%string] d MessageRequest.ts_is_iso8601_utc) as R4.
  destruct (MessageRequest.required "message_id" _ d _) as [i|e1] eqn:E1;
  destruct (MessageRequest.required "from" _ d _) as [f|e2] eqn:E2;
  destruct (MessageRequest.required "to" _ d _) as [t0|e3] eqn:E3;
  destruct (MessageRequest.required "ts" _ d _) as [s|e4] eqn:E4;
  destruct (MessageRequest.optional_text d) as [x|e5] eqn:E5;
  destruct m as [mi mf mt ms mx]; cbn [MessageRequest.message_id MessageRequest.from_field
    MessageRequest.to MessageRequest.ts MessageRequest.text];
  (split;
   [ intros H; try discriminate H; inversion H; subst;
     repeat split; try (apply R1; reflexivity); try (apply R2; reflexivity);
     try (apply R3; reflexivity); try (apply R4; reflexivity)
   | intros (A1 & A2 & B1 & B2 & C1 & C2 & D1 & D2 & T);
     pose proof (proj2 (R1 mi) (conj A1 A2)) as Q1;
     pose proof (proj2 (R2 mf) (conj B1 B2)) as Q2;
     pose proof (proj2 (R3 mt) (conj C1 C2)) as Q3;
     pose proof (proj2 (R4 ms) (conj D1 D2)) as Q4;
     try discriminate Q1; try discriminate Q2; try discriminate Q3;
     try discriminate Q4; try discriminate T;
     congruence ]).
Qed.

Lemma accepts_iff parsed :
  MessageRequest.accepts parsed = true
  <-> exists d id from to ts,
        parsed = Some (JDict d)
        /\ dict_get "message_id" d = Some (JStr id) /\ Py.strip id <> EmptyString
        /\ MessageRequest.lookup ["from"; "from_field"]%string d = Some (JStr from)
        /\ Re.re_match Re.e164 from = true
        /\ dict_get "to" d = Some (JStr to) /\ Re.re_match Re.e164 to = true
        /\ dict_get "ts" d = Some (JStr ts) /\ Re.re_match Re.iso8601_utc ts = true
        /\ (dict_get "text" d = None \/ dict_get "text" d = Some JNull
            \/ exists s, dict_get "text" d = Some (JStr s)
                         /\ (String.length s <= 4096)%nat).
Proof.
  unfold MessageRequest.accepts, MessageRequest.parse. split.
  - destruct parsed as [[| | | | | |d]|]; try discriminate.
    destruct (MessageRequest.validate_fields d) as [m|es] eqn:E; [|discriminate].
    intros _. apply validate_fields_ok in E.
    destruct E as (A1 & A2 & B1 & B2 & C1 & C2 & D1 & D2 & T).
    exists d, (MessageRequest.message_id m), (MessageRequest.from_field m),
      (MessageRequest.to m), (MessageRequest.ts m).
    repeat (split; [assumption|]). split; [reflexivity|].
    repeat (split; [assumption|]).
    destruct T as [[T _]|[[T _]|(s & T & _ & L)]]; eauto.
  - intros (d & id & from & to & ts & -> & A1 & A2 & B1 & B2 & C1 & C2 & D1 & D2 & T).
    assert (exists x, text_acceptable d x) as [x Hx].
    { destruct T as [T|[T|(s & T & L)]].
      - exists None. left. auto.
      - exists None. right. left. auto.
      - exists (Some s). right. right. exists s. auto. }
    rewrite (proj2 (validate_fields_ok d (MessageRequest.Mk id from to ts x))).
    + reflexivity.
    + cbn. repeat (split; [assumption|]). assumption.
Qed.

Lemma rejected_payload_is_422 env req w :
  MessageRequest.accepts (json_body req) = false ->
  exists msg,
    fst (Webhook.parse_and_validate env req w) = Response 422 (Webhook.detail msg)
    /\ db (snd (Webhook.parse_and_validate env req w)) = db w.
Proof.
  unfold MessageRequest.accepts, Webhook.parse_and_validate.
  destruct (MessageRequest.parse (json_body req)) as [m|es]; [discriminate|].
  intros _. exists (str_of_errors es). split; reflexivity.
Qed.

(** C3. Validation builds the message exactly when the body is a JSON
    object whose [message_id] is a string that is not empty once
    stripped, whose [from] and [to] are strings matching [^\+\d+$],
    whose [ts] is a string matching the timestamp pattern, and whose
    [text] is missing, null or a string of at most 4096 characters.  A
    correctly signed request that fails this (malformed JSON included)
    is answered 422 and stores nothing; a text of 4097 characters is
    rejected and one of 4096 accepted. *)
Theorem validation_accepts_exactly :
  (forall parsed,
      MessageRequest.accepts parsed = true
      <-> exists d id from to ts,
            parsed = Some (JDict d)
            /\ dict_get "message_id" d = Some (JStr id) /\ Py.strip id <> EmptyString
            /\ MessageRequest.lookup ["from"; "from_field"]%string d = Some (JStr from)
            /\ Re.re_match Re.e164 from = true
            /\ dict_get "to" d = Some (JStr to) /\ Re.re_match Re.e164 to = true
            /\ dict_get "ts" d = Some (JStr ts) /\ Re.re_match Re.iso8601_utc ts = true
            /\ (dict_get "text" d = None \/ dict_get "text" d = Some JNull
                \/ exists s, dict_get "text" d = Some (JStr s)
                             /\ (String.length s <= 4096)%nat))
  /\ MessageRequest.accepts None = false
  /\ (forall settings env req w raw secret,
         body req = Some raw ->
         Settings.WEBHOOK_SECRET settings = Some secret ->
         headers_get "X-Signature" (headers req)
         = Some (Sha256.hmac_hexdigest (Py.encode secret) raw) ->
         MessageRequest.accepts (json_body req) = false ->
         exists msg,
           fst (Webhook.webhook settings env req w) = Response 422 (Webhook.detail msg)
           /\ db (snd (Webhook.webhook settings env req w)) = db w)
  /\ (forall s : string,
         let payload :=
           Some (JDict [ ("message_id", JStr "m1"); ("from", JStr "+1000000001");
                         ("to", JStr "+1000000002"); ("ts", JStr "2025-01-15T10:00:00Z");
                         ("text", JStr s) ]%string) in
         (String.length s = 4097%nat -> MessageRequest.accepts payload = false)
         /\ (String.length s = 4096%nat -> MessageRequest.accepts payload = true)).
Proof.
  split; [exact accepts_iff|]. split; [reflexivity|]. split.
  - intros settings env req w raw secret Hb Hs Hh Hrej.
    rewrite (signature_accepted settings env req w raw secret Hb Hs Hh).
    apply rejected_payload_is_422. exact Hrej.
  - intros s payload. split; intros Hlen.
    + destruct (MessageRequest.accepts payload) eqn:E; [|reflexivity].
      apply accepts_iff in E.
      destruct E as (d & id & from & to & ts & Hp & _ & _ & _ & _ & _ & _ & _ & _ & T).
      subst payload. inversion Hp; subst d. cbn in T.
      destruct T as [T|[T|(s' & T & L)]]; try discriminate T.
      inversion T; subst. lia.
    + apply accepts_iff.
      exists [ ("message_id", JStr "m1"); ("from", JStr "+1000000001");
               ("to", JStr "+1000000002"); ("ts", JStr "2025-01-15T10:00:00Z");
               ("text", JStr s) ]%string,
        "m1"%string, "+1000000001"%string, "+1000000002"%string,
        "2025-01-15T10:00:00Z"%string.
      split; [reflexivity|].
      split; [reflexivity|]. split; [discriminate|].
      split; [reflexivity|]. split; [reflexivity|].
      split; [reflexivity|]. split; [reflexivity|].
      split; [reflexivity|]. split; [reflexivity|].
      right. right. exists s. split; [reflexivity | lia].
Qed.

Lemma validation_witness :
  let long := String.concat EmptyString (repeat "abcdefgh"%string 512) in
  String.length long = 4096%nat
  /\ MessageRequest.accepts
       (Some (JDict [ ("message_id", JStr "m1"); ("from", JStr "+1000000001");
                      ("to", JStr "+1000000002"); ("ts", JStr "2025-01-15T10:00:00Z");
                      ("text", JStr long) ]%string)) = true
  /\ MessageRequest.accepts
       (Some (JDict [ ("message_id", JStr "m1"); ("from", JStr "+1000000001");
                      ("to", JStr "+1000000002"); ("ts", JStr "2025-01-15T10:00:00Z");
                      ("text", JStr (String "x" long)) ]%string)) = false
  /\ exists msg,
       fst (Webhook.webhook Sample.settings Sample.env1
              (Sample.signed "testsecret" Sample.body_m1 None) Sample.empty_world)
       = Response 422 (Webhook.detail msg).
Proof.
  intros long.
  assert (Hlen : String.length long = 4096%nat) by (vm_compute; reflexivity).
  destruct validation_accepts_exactly as (_ & Hnone & H422 & Hbound).
  split; [exact Hlen|]. split; [|split].
  - apply (proj2 (Hbound long)). exact Hlen.
  - apply (proj1 (Hbound (String "x" long))). cbn [String.length]. rewrite Hlen. reflexivity.
  - destruct (H422 Sample.settings Sample.env1
                (Sample.signed "testsecret" Sample.body_m1 None) Sample.empty_world
                Sample.body_m1 "testsecret"%string) as (msg & Hr & _);
      try reflexivity.
    exists msg. exact Hr.
Defined.

(* ================================================================= *)
(** ** The order of strings and of rows *)

Lemma ascii_compare_refl c : Ascii.compare c c = Eq.
Proof. unfold Ascii.compare. apply N.compare_refl. Qed.

Lemma ascii_compare_lt_trans a b c :
  Ascii.compare a b = Lt -> Ascii.compare b c = Lt -> Ascii.compare a c = Lt.
Proof.
  unfold Ascii.compare. rewrite !N.compare_lt_iff. apply N.lt_trans.
Qed.

Lemma str_compare_refl s : String.compare s s = Eq.
Proof.
  induction s as [|c s IH]; [reflexivity|]. cbn. rewrite ascii_compare_refl. exact IH.
Qed.

Lemma str_compare_lt_trans : forall a b c,
  String.compare a b = Lt -> String.compare b c = Lt -> String.compare a c = Lt.
Proof.
  induction a as [|x a IH]; intros [|y b] [|z c]; cbn; try congruence.
  destruct (Ascii.compare x y) eqn:Exy; try discriminate;
    destruct (Ascii.compare y z) eqn:Eyz; try discriminate; intros H1 H2.
  - apply Ascii.compare_eq_iff in Exy, Eyz. subst.
    rewrite ascii_compare_refl. eapply IH; eassumption.
  - apply Ascii.compare_eq_iff in Exy. subst. rewrite Eyz. reflexivity.
  - apply Ascii.compare_eq_iff in Eyz. subst. rewrite Exy. reflexivity.
  - rewrite (ascii_compare_lt_trans x y z Exy Eyz). reflexivity.
Qed.

Lemma str_compare_gt_lt a b : String.compare a b = Gt <-> String.compare b a = Lt.
Proof.
  rewrite (String.compare_antisym b a).
  destruct (String.compare a b); cbn; split; congruence.
Qed.

Lemma le_refl s : Py.le s s = true.
Proof. unfold Py.le, String.leb. rewrite str_compare_refl. reflexivity. Qed.

Lemma le_cases a b :
  Py.le a b = true <-> String.compare a b = Lt \/ a = b.
Proof.
  unfold Py.le, String.leb. destruct (String.compare a b) eqn:E; split; intros H; auto.
  - right. apply String.compare_eq_iff. exact E.
  - discriminate H.
  - destruct H as [H|H]; [discriminate H|]. subst. rewrite str_compare_refl in E.
    discriminate E.
Qed.

Lemma le_trans a b c : Py.le a b = true -> Py.le b c = true -> Py.le a c = true.
Proof.
  rewrite !le_cases. intros [H1|H1] [H2|H2]; subst; auto.
  left. eapply str_compare_lt_trans; eassumption.
Qed.

Lemma le_total a b : Py.le a b = true \/ Py.le b a = true.
Proof. apply String.leb_total. Qed.

Lemma le_antisym a b : Py.le a b = true -> Py.le b a = true -> a = b.
Proof. apply String.leb_antisym. Qed.

Lemma lt_not_le a b : Py.lt a b = true <-> Py.le b a = false.
Proof.
  unfold Py.lt, Py.le, String.ltb, String.leb.
  rewrite (String.compare_antisym b a).
  destruct (String.compare a b); cbn; split; congruence.
Qed.

Lemma key_le_refl k : Sql.key_le k k = true.
Proof. unfold Sql.key_le. rewrite str_compare_refl. apply le_refl. Qed.

Lemma key_le_total a b : Sql.key_le a b = true \/ Sql.key_le b a = true.
Proof.
  unfold Sql.key_le. rewrite (String.compare_antisym (fst b) (fst a)).
  destruct (String.compare (fst a) (fst b)); cbn; auto. apply le_total.
Qed.

Lemma key_le_trans a b c :
  Sql.key_le a b = true -> Sql.key_le b c = true -> Sql.key_le a c = true.
Proof.
  unfold Sql.key_le.
  destruct (String.compare (fst a) (fst b)) eqn:Eab; try discriminate;
    destruct (String.compare (fst b) (fst c)) eqn:Ebc; try discriminate; intros H1 H2.
  - apply String.compare_eq_iff in Eab, Ebc. rewrite Eab, Ebc, str_compare_refl.
    eapply le_trans; eassumption.
  - apply String.compare_eq_iff in Eab. rewrite Eab, Ebc. reflexivity.
  - apply String.compare_eq_iff in Ebc. rewrite <- Ebc, Eab. reflexivity.
  - rewrite (str_compare_lt_trans _ _ _ Eab Ebc). reflexivity.
Qed.

Lemma key_le_antisym a b :
  Sql.key_le a b = true -> Sql.key_le b a = true -> a = b.
Proof.
  unfold Sql.key_le. rewrite (String.compare_antisym (fst b) (fst a)).
  destruct (String.compare (fst a) (fst b)) eqn:E; cbn; try discriminate.
  intros H1 H2. apply String.compare_eq_iff in E.
  pose proof (le_antisym _ _ H1 H2) as E2.
  destruct a, b; cbn in *; congruence.
Qed.

(** Equal [ts]: the order is that of the [message_id]. *)
Lemma key_le_same_ts t i j : Sql.key_le (t, i) (t, j) = Py.le i j.
Proof. unfold Sql.key_le. cbn. rewrite str_compare_refl. reflexivity. Qed.

(* ================================================================= *)
(** ** The listing is sorted *)

Lemma row_le_total a b : Sql.row_le a b = true \/ Sql.row_le b a = true.
Proof. apply key_le_total. Qed.

Lemma row_le_trans a b c :
  Sql.row_le a b = true -> Sql.row_le b c = true -> Sql.row_le a c = true.
Proof. apply key_le_trans. Qed.

Lemma insert_row_perm r l : Permutation (r :: l) (Sql.insert_row r l).
Proof.
  induction l as [|x l IH]; cbn [Sql.insert_row]; [apply Permutation_refl|].
  destruct (Sql.row_le r x); [apply Permutation_refl|].
  eapply perm_trans; [apply perm_swap|]. apply perm_skip. exact IH.
Qed.

Lemma order_by_perm l : Permutation l (Sql.order_by_ts_id l).
Proof.
  induction l as [|r l IH]; [apply perm_nil|].
  cbn [Sql.order_by_ts_id fold_right]. fold (Sql.order_by_ts_id l).
  eapply perm_trans; [apply perm_skip, IH | apply insert_row_perm].
Qed.

Lemma insert_row_sorted r l :
  StronglySorted (fun a b => Sql.row_le a b = true) l ->
  StronglySorted (fun a b => Sql.row_le a b = true) (Sql.insert_row r l).
Proof.
  induction l as [|x l IH]; intros Hs; cbn [Sql.insert_row].
  - constructor; constructor.
  - inversion Hs as [|y l' Hs' Hall]; subst.
    destruct (Sql.row_le r x) eqn:E.
    + constructor; [exact Hs|]. constructor; [exact E|].
      eapply Forall_impl; [|exact Hall]. intros z Hz. cbn beta in Hz |- *.
      eapply row_le_trans; eassumption.
    + constructor; [apply IH; exact Hs'|].
      apply (Permutation_Forall (insert_row_perm r l)).
      constructor; [|exact Hall].
      destruct (row_le_total r x) as [H|H]; [congruence | exact H].
Qed.

Lemma order_by_sorted l :
  StronglySorted (fun a b => Sql.row_le a b = true) (Sql.order_by_ts_id l).
Proof.
  induction l as [|r l IH]; [constructor|].
  cbn [Sql.order_by_ts_id fold_right]. apply insert_row_sorted. exact IH.
Qed.

Section SortedSlices.

Context {A : Type} (R : A -> A -> Prop).

Lemma StronglySorted_skipn n : forall l,
  StronglySorted R l -> StronglySorted R (skipn n l).
Proof.
  induction n as [|n IH]; intros l Hs; [exact Hs|].
  destruct l as [|x l]; [constructor|]. cbn [skipn].
  apply IH. inversion Hs; assumption.
Qed.

Lemma StronglySorted_firstn n : forall l,
  StronglySorted R l -> StronglySorted R (firstn n l).
Proof.
  induction n as [|n IH]; intros l Hs; [constructor|].
  destruct l as [|x l]; [constructor|]. cbn [firstn].
  inversion Hs as [|y l' Hs' Hall]; subst.
  constructor; [apply IH; exact Hs'|].
  rewrite Forall_forall in Hall |- *. intros z Hz. apply Hall.
  eapply (In_nth_error) in Hz. destruct Hz as [k Hk].
  apply nth_error_In with (n := k).
  rewrite nth_error_firstn in Hk. destruct (Nat.ltb k n); [exact Hk | discriminate Hk].
Qed.

Lemma StronglySorted_map {B} (f : B -> A) l :
  StronglySorted (fun a b => R (f a) (f b)) l -> StronglySorted R (map f l).
Proof.
  induction 1 as [|x l Hs IH Hall]; cbn [map]; constructor; [exact IH|].
  rewrite Forall_map. exact Hall.
Qed.

(** In a sorted list, an element that may not follow another one
    stands before it. *)
Lemma sorted_before l a b :
  (forall x, R x x) ->
  StronglySorted R l -> In a l -> In b l -> ~ R b a -> before a b l.
Proof.
  intros Hrefl Hs. induction Hs as [|x l Hs IH Hall]; intros Ha Hb Hn; [destruct Ha|].
  destruct Ha as [Ha|Ha].
  - subst x. destruct Hb as [Hb|Hb].
    + subst b. exfalso. apply Hn, Hrefl.
    + apply in_split in Hb. destruct Hb as (l2 & l3 & ->).
      exists [], l2, l3. reflexivity.
  - destruct Hb as [Hb|Hb].
    + subst x. exfalso. apply Hn. rewrite Forall_forall in Hall. apply Hall, Ha.
    + destruct (IH Ha Hb Hn) as (l1 & l2 & l3 & ->).
      exists (x :: l1), l2, l3. reflexivity.
Qed.

End SortedSlices.

Lemma item_key_from_orm r : item_key (Messages.from_orm r) = Sql.row_key r.
Proof. reflexivity. Qed.

Lemma page_sorted n k l :
  StronglySorted (fun a b => Sql.key_le (item_key a) (item_key b) = true)
    (map Messages.from_orm (Sql.limit_offset n k (Sql.order_by_ts_id l))).
Proof.
  apply (StronglySorted_map
           (fun a b => Sql.key_le (item_key a) (item_key b) = true)).
  unfold Sql.limit_offset.
  apply StronglySorted_firstn, StronglySorted_skipn.
  exact (order_by_sorted l).
Qed.

(** C6. The items of every listing are sorted by [ts] ascending, then
    [message_id] ascending: of two items with the same [ts], the one
    with the smaller [message_id] stands first; the order on the keys
    [(ts, message_id)] is total, transitive and antisymmetric. *)
Theorem listing_is_sorted (env : Env) (limit offset : Z)
        (from_ since q : option string) (w : World) :
  let items := Messages.data (fst (Messages.get_messages env limit offset from_ since q w)) in
  StronglySorted (fun a b => Sql.key_le (item_key a) (item_key b) = true) items
  /\ (forall a b,
         In a items -> In b items ->
         Messages.ts a = Messages.ts b ->
         Py.lt (Messages.message_id a) (Messages.message_id b) = true ->
         before a b items)
  /\ (forall k1 k2, Sql.key_le k1 k2 = true \/ Sql.key_le k2 k1 = true)
  /\ (forall k1 k2 k3,
         Sql.key_le k1 k2 = true -> Sql.key_le k2 k3 = true -> Sql.key_le k1 k3 = true)
  /\ (forall k1 k2, Sql.key_le k1 k2 = true -> Sql.key_le k2 k1 = true -> k1 = k2).
Proof.
  cbn zeta. unfold Messages.get_messages. cbn [fst Messages.data].
  split; [apply page_sorted|]. split; [|split; [|split]].
  - intros a b Ha Hb Hts Hlt.
    apply (sorted_before (fun a b => Sql.key_le (item_key a) (item_key b) = true));
      try assumption.
    + intros x. apply key_le_refl.
    + apply page_sorted.
    + unfold item_key. rewrite Hts, key_le_same_ts.
      apply lt_not_le in Hlt. rewrite Hlt. discriminate.
  - exact key_le_total.
  - exact key_le_trans.
  - exact key_le_antisym.
Qed.

Lemma listing_is_sorted_witness :
  let tb := [ Sample.row "m3" "+1000000001" "2025-01-15T10:00:00Z" None;
              Sample.row "m2" "+1000000003" "2025-01-15T09:00:00Z" (Some "hi"%string);
              Sample.row "m1" "+1000000001" "2025-01-15T10:00:00Z" None ] in
  let w := MkWorld tb Metrics.init [] in
  let items := Messages.data (fst (Messages.get_messages Sample.env1 50 0 None None None w)) in
  map Messages.message_id items = ["m2"; "m1"; "m3"]%string
  /\ before (Messages.from_orm (Sample.row "m1" "+1000000001" "2025-01-15T10:00:00Z" None))
            (Messages.from_orm (Sample.row "m3" "+1000000001" "2025-01-15T10:00:00Z" None))
            items.
Proof.
  intros tb w items. split; [reflexivity|].
  destruct (listing_is_sorted Sample.env1 50 0 None None None w) as (_ & Hties & _).
  apply Hties.
  - right. left. reflexivity.
  - right. right. left. reflexivity.
  - reflexivity.
  - reflexivity.
Defined.

(* ================================================================= *)
(** ** Statistics *)

Lemma distinct_in x l : In x (Sql.distinct l) <-> In x l.
Proof.
  induction l as [|y l IH]; [reflexivity|]. cbn [Sql.distinct]. split.
  - intros [H|H]; [left; exact H|].
    apply filter_In in H. right. apply IH. apply H.
  - intros [H|H]; [left; exact H|].
    destruct (String.eqb x y) eqn:E.
    + apply String.eqb_eq in E. left. congruence.
    + right. apply filter_In. split; [apply IH; exact H|]. rewrite E. reflexivity.
Qed.

Lemma NoDup_filter {A} (f : A -> bool) l : NoDup l -> NoDup (filter f l).
Proof.
  induction 1 as [|x l Hn Hd IH]; [constructor|]. cbn [filter].
  destruct (f x); [|exact IH]. constructor; [|exact IH].
  intros H. apply filter_In in H. apply Hn, H.
Qed.

Lemma distinct_NoDup l : NoDup (Sql.distinct l).
Proof.
  induction l as [|y l IH]; [constructor|]. cbn [Sql.distinct].
  constructor; [|apply NoDup_filter, IH].
  intros H. apply filter_In in H. destruct H as [_ H].
  rewrite String.eqb_refl in H. discriminate H.
Qed.

Lemma senders_spec tb s :
  In s (Sql.senders tb) <-> exists r, In r tb /\ Message.from_msisdn r = s.
Proof.
  unfold Sql.senders. rewrite distinct_in, in_map_iff. split.
  - intros (r & H & Hin). eauto.
  - intros (r & Hin & H). eauto.
Qed.

Lemma group_by_sender_in tb g :
  In g (Sql.group_by_sender tb)
  <-> In (fst g) (Sql.senders tb) /\ snd g = Sql.count_from (fst g) tb.
Proof.
  unfold Sql.group_by_sender. rewrite in_map_iff. split.
  - intros (s & <- & Hin). cbn. auto.
  - intros [Hin Hc]. exists (fst g). split; [|exact Hin].
    destruct g as [s c]. cbn in *. congruence.
Qed.

Lemma group_by_sender_keys tb : map fst (Sql.group_by_sender tb) = Sql.senders tb.
Proof.
  unfold Sql.group_by_sender. rewrite map_map. cbn. apply map_id.
Qed.





Section SampleEngines.

Variable first : string * Z -> string * Z -> bool.
Hypothesis first_true : forall g x, first g x = true -> (snd x <= snd g)%Z.
Hypothesis first_false : forall g x, first g x = false -> (snd g <= snd x)%Z.

Lemma insert_by_perm g l : Permutation (g :: l) (Stats.insert_by first g l).
Proof.
  induction l as [|x l IH]; cbn [Stats.insert_by]; [apply Permutation_refl|].
  destruct (first g x); [apply Permutation_refl|].
  eapply perm_trans; [apply perm_swap | apply perm_skip, IH].
Qed.

Lemma insert_by_sorted g l :
  StronglySorted Sql.count_ge l -> StronglySorted Sql.count_ge (Stats.insert_by first g l).
Proof.
  induction l as [|x l IH]; intros Hs; cbn [Stats.insert_by].
  - constructor; constructor.
  - inversion Hs as [|y l' Hs' Hall]; subst.
    destruct (first g x) eqn:E.
    + constructor; [exact Hs|]. apply first_true in E.
      constructor; [exact E|].
      eapply Forall_impl; [|exact Hall]. unfold Sql.count_ge. intros z Hz. lia.
    + constructor; [apply IH, Hs'|].
      apply (Permutation_Forall (insert_by_perm g l)).
      constructor; [apply first_false, E | exact Hall].
Qed.

Lemma order_with_contract : Sql.orders_by_count_desc (Stats.order_with first).
Proof.
  intros groups. induction groups as [|g l [IHp IHs]].
  - split; [apply perm_nil | constructor].
  - cbn [Stats.order_with fold_right]. fold (Stats.order_with first l). split.
    + eapply perm_trans; [apply perm_skip, IHp | apply insert_by_perm].
    + apply insert_by_sorted, IHs.
Qed.

End SampleEngines.


Lemma order_b_contract : Sql.orders_by_count_desc Stats.order_b.
Proof.
  apply order_with_contract; intros g x H.
  - apply Z.ltb_lt in H. lia.
  - apply Z.ltb_ge in H. exact H.
Qed.

Section AnyEngine.

Variable order : list (string * Z) -> list (string * Z).
Hypothesis order_ok : Sql.orders_by_count_desc order.






End AnyEngine.




(* ================================================================= *)
(** ** LIKE patterns *)

Lemma append_nil_r s : (s ++ "")%string = s.
Proof. induction s as [|c s IH]; [reflexivity|]. cbn. now rewrite IH. Qed.

Lemma append_assoc a b c : ((a ++ b) ++ c)%string = (a ++ (b ++ c))%string.
Proof. induction a as [|x a IH]; [reflexivity|]. cbn. now rewrite IH. Qed.

(** [%] at the head of a pattern: the rest matches some suffix. *)
Lemma like_percent p s :
  Sql.like (String Sql.percent p) s = true
  <-> exists a b, s = (a ++ b)%string /\ Sql.like p b = true.
Proof.
  cbn [Sql.like]. rewrite Ascii.eqb_refl.
  induction s as [|c s IH].
  - rewrite orb_false_r. split.
    + intros H. exists EmptyString, EmptyString. auto.
    + intros (a & b & E & H). destruct a; [|discriminate E]. cbn in E. subst b. exact H.
  - rewrite orb_true_iff, IH. split.
    + intros [H|(a & b & -> & H)].
      * exists EmptyString, (String c s). auto.
      * exists (String c a), b. auto.
    + intros (a & b & E & H). destruct a as [|x a].
      * cbn in E. subst b. left. exact H.
      * cbn in E. inversion E; subst. right. eauto.
Qed.

(** A character that is no wildcard stands for itself. *)
Lemma like_literal c p s :
  Ascii.eqb c Sql.percent = false -> Ascii.eqb c Sql.underscore = false ->
  Sql.like (String c p) s = true
  <-> exists s', s = String c s' /\ Sql.like p s' = true.
Proof.
  intros H1 H2. cbn [Sql.like]. rewrite H1, H2. destruct s as [|a s].
  - split; [discriminate | intros (s' & E & _); discriminate E].
  - rewrite andb_true_iff, Ascii.eqb_eq. split.
    + intros [-> H]. eauto.
    + intros (s' & E & H). inversion E; subst. auto.
Qed.

Lemma like_prefix q : forall p s,
  no_wildcard q = true ->
  Sql.like (q ++ p) s = true
  <-> exists b, s = (q ++ b)%string /\ Sql.like p b = true.
Proof.
  induction q as [|c q IH]; intros p s Hq.
  - cbn [String.append]. split; [eauto | intros (b & -> & H); exact H].
  - cbn [no_wildcard] in Hq. apply andb_true_iff in Hq. destruct Hq as [Hc Hq].
    apply andb_true_iff in Hc. destruct Hc as [H1 H2].
    apply negb_true_iff in H1, H2.
    cbn [String.append]. rewrite (like_literal c _ s H1 H2). split.
    + intros (s' & -> & H). apply (IH p s' Hq) in H. destruct H as (b & -> & H). eauto.
    + intros (b & -> & H). eexists. split; [reflexivity|].
      apply (IH p _ Hq). eauto.
Qed.

Lemma like_only_percent s : Sql.like (String Sql.percent EmptyString) s = true.
Proof.
  apply like_percent. exists s, EmptyString. split; [now rewrite append_nil_r | reflexivity].
Qed.

(** [%q%] with no wildcard in [q]: [q] occurs in the text. *)
Lemma like_contains q s :
  no_wildcard q = true ->
  Sql.like (String Sql.percent (q ++ String Sql.percent EmptyString)) s = true
  <-> contains q s.
Proof.
  intros Hq. rewrite like_percent. unfold contains. split.
  - intros (a & b & -> & H). apply (like_prefix q _ b Hq) in H.
    destruct H as (c & -> & _). eauto.
  - intros (a & b & ->). exists a, (q ++ b)%string. split; [reflexivity|].
    apply (like_prefix q _ _ Hq). exists b. split; [reflexivity | apply like_only_percent].
Qed.

Lemma lower_app a b : Py.lower (a ++ b) = (Py.lower a ++ Py.lower b)%string.
Proof. induction a as [|c a IH]; [reflexivity|]. cbn. now rewrite IH. Qed.

Lemma lower_char_no_wildcard c :
  negb (Ascii.eqb c Sql.percent) && negb (Ascii.eqb c Sql.underscore) = true ->
  negb (Ascii.eqb (Py.lower_char c) Sql.percent)
  && negb (Ascii.eqb (Py.lower_char c) Sql.underscore) = true.
Proof.
  destruct c as [[|] [|] [|] [|] [|] [|] [|] [|]]; intros H; vm_compute in H |- *;
    try reflexivity; discriminate H.
Qed.

Lemma lower_no_wildcard q : no_wildcard q = true -> no_wildcard (Py.lower q) = true.
Proof.
  induction q as [|c q IH]; [reflexivity|]. cbn [no_wildcard Py.lower].
  rewrite !andb_true_iff. intros [[H1 H2] H3].
  rewrite <- andb_true_iff. split; [|apply IH, H3].
  apply lower_char_no_wildcard. rewrite H1, H2. reflexivity.
Qed.

(** The text filter, for a search string without wildcards. *)
Lemma q_matches_spec v r :
  no_wildcard v = true ->
  Messages.q_matches v r = true <-> text_has v r.
Proof.
  intros Hv. unfold Messages.q_matches, Sql.ilike, text_has.
  destruct (Message.text r) as [t|].
  - change (String Sql.percent (v ++ String Sql.percent EmptyString))
      with (String Sql.percent EmptyString ++ (v ++ String Sql.percent EmptyString))%string.
    rewrite !lower_app.
    change (Py.lower (String Sql.percent EmptyString)) with (String Sql.percent EmptyString).
    cbn [String.append].
    rewrite (like_contains (Py.lower v) (Py.lower t) (lower_no_wildcard v Hv)).
    split.
    + intros H. exists t. auto.
    + intros (t' & E & H). inversion E; subst. exact H.
  - split; [discriminate | intros (t & E & _); discriminate E].
Qed.

(* ================================================================= *)
(** ** Filters *)

Lemma filter_all {A} (l : list A) : filter (fun _ => true) l = l.
Proof. induction l as [|x l IH]; [reflexivity|]. cbn. now rewrite IH. Qed.

Lemma filter_filter {A} (f g : A -> bool) l :
  filter g (filter f l) = filter (fun x => f x && g x) l.
Proof.
  induction l as [|x l IH]; [reflexivity|]. cbn [filter].
  destruct (f x); cbn [filter andb]; [destruct (g x)|]; now rewrite IH.
Qed.

Lemma apply_filter_is_filter f keep rows :
  Messages.apply_filter f keep rows = filter (kept f keep) rows.
Proof.
  unfold Messages.apply_filter, kept. destruct f as [v|]; [|now rewrite filter_all].
  destruct (Py.truthy v); [reflexivity | now rewrite filter_all].
Qed.

Lemma kept_asks f keep cond r :
  (forall v, f = Some v -> (keep v r = true <-> cond v r)) ->
  kept f keep r = true <-> asks f cond r.
Proof.
  intros H. unfold kept, asks. destruct f as [v|]; [|tauto].
  specialize (H v eq_refl). destruct v as [|c v']; cbn [Py.truthy].
  - split; auto.
  - rewrite H. split; [auto | intros [E|E]; [discriminate E | exact E]].
Qed.

(** C5. With every search string free of the LIKE wildcards [%] and [_]:
    a filter that is absent or empty selects everything; otherwise
    [from_] selects the rows whose [from_msisdn] equals it, [since]
    those whose [ts] is at or after it in string order, [q] those whose
    text is present and contains [q] once both are lower-cased; the
    filters given combine by AND; [total] is the number of rows selected,
    counted before limit and offset cut the page out of them. *)
Theorem filters_compose (env : Env) (limit offset : Z)
        (from_ since q : option string) (w : World) :
  (forall v, q = Some v -> no_wildcard v = true) ->
  let r := fst (Messages.get_messages env limit offset from_ since q w) in
  let selected := Messages.filtered from_ since q (db w) in
  (exists keep : Message.t -> bool,
      selected = filter keep (db w)
      /\ forall x, keep x = true
                   <-> asks from_ from_is x /\ asks since ts_since x /\ asks q text_has x)
  /\ (forall x, In x selected
                <-> In x (db w)
                    /\ asks from_ from_is x /\ asks since ts_since x /\ asks q text_has x)
  /\ Messages.total r = Z.of_nat (List.length selected)
  /\ Messages.data r
     = map Messages.from_orm
         (Sql.limit_offset (Messages.limit r) (Messages.offset r)
            (Sql.order_by_ts_id selected)).
Proof.
  intros Hq. cbn zeta.
  set (keep := fun x => kept from_ Messages.from_matches x
                        && (kept since Messages.since_matches x
                            && kept q Messages.q_matches x)).
  assert (Hsel : Messages.filtered from_ since q (db w) = filter keep (db w)).
  { unfold Messages.filtered. rewrite !apply_filter_is_filter, !filter_filter. reflexivity. }
  assert (Hkeep : forall x, keep x = true
                            <-> asks from_ from_is x /\ asks since ts_since x
                                /\ asks q text_has x).
  { intros x. unfold keep. rewrite !andb_true_iff.
    rewrite (kept_asks from_ Messages.from_matches from_is x).
    2:{ intros v _. unfold Messages.from_matches, from_is. apply String.eqb_eq. }
    rewrite (kept_asks since Messages.since_matches ts_since x).
    2:{ intros v _. unfold Messages.since_matches, ts_since. reflexivity. }
    rewrite (kept_asks q Messages.q_matches text_has x).
    2:{ intros v Hv. apply q_matches_spec, Hq, Hv. }
    tauto. }
  split; [exists keep; split; assumption|]. split; [|split; reflexivity].
  intros x. rewrite Hsel, filter_In, Hkeep. reflexivity.
Qed.

Lemma filters_compose_witness :
  let tb := [ Sample.row "m1" "+1000000001" "2025-01-15T10:00:00Z" (Some "Hello World"%string);
              Sample.row "m2" "+1000000003" "2025-01-15T11:00:00Z" (Some "hello again"%string);
              Sample.row "m3" "+1000000001" "2025-01-14T08:00:00Z" (Some "HELLO early"%string);
              Sample.row "m4" "+1000000001" "2025-01-16T08:00:00Z" None;
              Sample.row "m5" "+1000000001" "2025-01-16T09:00:00Z" (Some "shELLOw"%string) ] in
  let w := MkWorld tb Metrics.init [] in
  let r := fst (Messages.get_messages Sample.env1 1 0 (Some "+1000000001"%string)
                  (Some "2025-01-15T00:00:00Z"%string) (Some "hello"%string) w) in
  Messages.total r = 2%Z
  /\ map Messages.message_id (Messages.data r) = ["m1"%string]
  /\ In (Sample.row "m5" "+1000000001" "2025-01-16T09:00:00Z" (Some "shELLOw"%string))
        (Messages.filtered (Some "+1000000001"%string) (Some "2025-01-15T00:00:00Z"%string)
           (Some "hello"%string) tb).
Proof.
  intros tb w r.
  destruct (filters_compose Sample.env1 1 0 (Some "+1000000001"%string)
              (Some "2025-01-15T00:00:00Z"%string) (Some "hello"%string) w)
    as (_ & Hin & Htot & _).
  - intros v Hv. inversion Hv. reflexivity.
  - split; [reflexivity|]. split; [reflexivity|].
    apply Hin. split; [cbn; tauto|].
    split; [right; reflexivity|]. split; [right; reflexivity|].
    right. exists "shELLOw"%string. split; [reflexivity|].
    exists "s"%string, "w"%string. reflexivity.
Defined.

(** C5, as stated, has a given [from_] select the rows whose
    [from_msisdn] equals it.  Given as the empty string it selects
    every row, though no row has an empty [from_msisdn]. *)
Lemma empty_from_filter_selects_everything :
  let tb := [ Sample.row "m1" "+1000000001" "2025-01-15T10:00:00Z" None ] in
  let w := MkWorld tb Metrics.init [] in
  let r := fst (Messages.get_messages Sample.env1 50 0 (Some EmptyString) None None w) in
  Messages.total r = 1%Z
  /\ filter (fun x => String.eqb (Message.from_msisdn x) EmptyString) tb = []
  /\ ~ (forall x, In x (Messages.filtered (Some EmptyString) None None tb)
                  <-> In x tb /\ Message.from_msisdn x = EmptyString).
Proof.
  cbn zeta. split; [reflexivity|]. split; [reflexivity|].
  intros H.
  destruct (proj1 (H (Sample.row "m1" "+1000000001" "2025-01-15T10:00:00Z" None)))
    as [_ E]; [left; reflexivity | discriminate E].
Qed.

(** A wildcard in [q] is not escaped: [_] finds a text that holds no
    underscore. *)
Lemma underscore_in_q_matches_any_character :
  let tb := [ Sample.row "m1" "+1000000001" "2025-01-15T10:00:00Z" (Some "abc"%string) ] in
  Messages.filtered None None (Some "_"%string) tb = tb
  /\ ~ contains "_" "abc".
Proof.
  split; [reflexivity|].
  intros (a & b & E).
  destruct a as [|x [|y [|z [|u a]]]]; cbn in E; try discriminate E;
    inversion E.
Qed.

(* ================================================================= *)
(** ** What the patterns match *)

Lemma at_end_spec s : Re.at_end s = true <-> s = EmptyString \/ s = Py.newline.
Proof.
  destruct s as [|c [|d s]]; cbn.
  - split; auto.
  - rewrite Ascii.eqb_eq. unfold Py.newline. split.
    + intros ->. right. reflexivity.
    + intros [H|H]; [discriminate H | inversion H; reflexivity].
  - split; [discriminate | intros [H|H]; [discriminate H | inversion H]].
Qed.

(** [\d+$]: a non-empty run of digits up to the end of the string, or
    up to a newline that ends it. *)
Lemma digits_to_end s :
  Re.matches [Re.Plus Re.Digit; Re.Eol] false s = true
  <-> exists ds rest,
        s = (ds ++ rest)%string /\ ds <> EmptyString
        /\ all_digits ds = true /\ Re.at_end rest = true.
Proof.
  cbn [Re.matches Re.in_cls]. induction s as [|a s IH].
  - split; [discriminate|]. intros (ds & rest & E & Hne & _).
    destruct ds; [congruence | discriminate E].
  - rewrite andb_true_iff, orb_true_iff, andb_true_r, IH. split.
    + intros [Ha [He|(ds & rest & -> & Hne & Hd & He)]].
      * exists (String a EmptyString), s. cbn. rewrite Ha. repeat split; [discriminate | exact He].
      * exists (String a ds), rest. cbn. rewrite Ha, Hd. repeat split; [discriminate | exact He].
    + intros (ds & rest & E & Hne & Hd & He).
      destruct ds as [|c ds]; [congruence|]. cbn in E. inversion E; subst.
      cbn in Hd. apply andb_true_iff in Hd. destruct Hd as [Hc Hd].
      split; [exact Hc|]. destruct ds as [|c' ds'].
      * left. exact He.
      * right. exists (String c' ds'), rest. repeat split; [discriminate | exact Hd | exact He].
Qed.

(** [^\+\d+$] matches a plus sign followed by one or more digits, and
    the same followed by one newline. *)
Lemma e164_spec v :
  Re.re_match Re.e164 v = true
  <-> exists ds,
        ds <> EmptyString /\ all_digits ds = true
        /\ (v = String "+" ds \/ v = String "+" (ds ++ Py.newline)).
Proof.
  unfold Re.re_match, Re.e164.
  change (Re.matches [Re.Bol; Re.One (Re.Lit "+"); Re.Plus Re.Digit; Re.Eol] true v)
    with (match v with
          | String a s' =>
              Re.in_cls (Re.Lit "+") a && Re.matches [Re.Plus Re.Digit; Re.Eol] false s'
          | EmptyString => false
          end).
  destruct v as [|a s].
  - split; [discriminate|]. intros (ds & _ & _ & [H|H]); discriminate H.
  - cbn [Re.in_cls]. rewrite andb_true_iff, Ascii.eqb_eq, digits_to_end. split.
    + intros [-> (ds & rest & -> & Hne & Hd & He)]. exists ds.
      split; [exact Hne|]. split; [exact Hd|].
      apply at_end_spec in He. destruct He as [->| ->]; [left | right; reflexivity].
      now rewrite append_nil_r.
    + intros (ds & Hne & Hd & [H|H]); inversion H; subst; (split; [reflexivity|]).
      * exists ds, EmptyString. rewrite append_nil_r. auto.
      * exists ds, Py.newline. auto.
Qed.

(** The timestamp pattern fixes the length: 20 characters, or 21 with a
    closing newline. *)
Lemma iso8601_utc_length v :
  Re.re_match Re.iso8601_utc v = true ->
  String.length v = 20%nat
  \/ (String.length v = 21%nat /\ String.get 20 v = Some (ascii_of_N 10)).
Proof.
  unfold Re.re_match, Re.iso8601_utc, Re.times. cbn [repeat app].
  cbn [Re.matches andb].
  repeat (destruct v as [|? v]; [discriminate|];
          match goal with
          | |- Re.in_cls ?c ?a && _ = true -> _ =>
              destruct (Re.in_cls c a); [cbn [andb]|discriminate]
          end).
  rewrite andb_true_r. intros H. apply at_end_spec in H.
  destruct H as [->| ->]; [left | right]; cbn; auto.
Qed.

Example e164_trailing_newline :
  Re.re_match Re.e164 (String "+" (String "1" Py.newline)) = true.
Proof. reflexivity. Qed.

(* ================================================================= *)
(** ** The listing order leaves the database no choice *)

Lemma key_injective (l : list Message.t) a b :
  NoDup (map Sql.row_key l) -> In a l -> In b l -> Sql.row_key a = Sql.row_key b -> a = b.
Proof.
  induction l as [|x l IH]; intros Hn Ha Hb E; [destruct Ha|].
  cbn [map] in Hn. inversion Hn as [|k ks Hnot Hn']; subst.
  destruct Ha as [->|Ha], Hb as [->|Hb]; auto.
  - exfalso. apply Hnot. rewrite E. apply in_map, Hb.
  - exfalso. apply Hnot. rewrite <- E. apply in_map, Ha.
Qed.

Lemma unique_ids_unique_keys (l : list Message.t) :
  NoDup (map Message.message_id l) -> NoDup (map Sql.row_key l).
Proof.
  induction l as [|x l IH]; intros Hn; [constructor|].
  cbn [map] in Hn |- *. inversion Hn as [|k ks Hnot Hn']; subst.
  constructor; [|apply IH, Hn'].
  intros H. apply in_map_iff in H. destruct H as (y & E & Hy).
  apply Hnot. apply in_map_iff. exists y. split; [|exact Hy].
  unfold Sql.row_key in E. congruence.
Qed.

(** Two sorted arrangements of the same rows are the same list, when no
    two rows share a key. *)
Lemma sorted_arrangement_unique : forall l1 l2 : list Message.t,
  NoDup (map Sql.row_key l1) ->
  Permutation l1 l2 ->
  StronglySorted (fun a b => Sql.row_le a b = true) l1 ->
  StronglySorted (fun a b => Sql.row_le a b = true) l2 ->
  l1 = l2.
Proof.
  induction l1 as [|x1 t1 IH]; intros l2 Hn Hp Hs1 Hs2.
  - apply Permutation_nil in Hp. congruence.
  - destruct l2 as [|x2 t2]; [apply Permutation_sym, Permutation_nil in Hp; discriminate Hp|].
    inversion Hs1 as [|? ? Hs1' Hall1]; subst.
    inversion Hs2 as [|? ? Hs2' Hall2]; subst.
    rewrite Forall_forall in Hall1, Hall2.
    assert (Hx : x1 = x2).
    { assert (H12 : Sql.row_le x1 x2 = true).
      { assert (Hin : In x2 (x1 :: t1))
          by (apply (Permutation_in x2 (Permutation_sym Hp)); left; reflexivity).
        destruct Hin as [->|Hin]; [apply key_le_refl | apply Hall1, Hin]. }
      assert (H21 : Sql.row_le x2 x1 = true).
      { assert (Hin : In x1 (x2 :: t2))
          by (apply (Permutation_in x1 Hp); left; reflexivity).
        destruct Hin as [->|Hin]; [apply key_le_refl | apply Hall2, Hin]. }
      apply (key_injective (x1 :: t1)); [exact Hn | left; reflexivity | |].
      - apply (Permutation_in x2 (Permutation_sym Hp)). left. reflexivity.
      - apply key_le_antisym; assumption. }
    subst x2. f_equal. apply IH; try assumption.
    + cbn [map] in Hn. inversion Hn; assumption.
    + eapply Permutation_cons_inv. exact Hp.
Qed.

(** X17. Whatever the database returns for [ORDER BY ts, message_id] over
    rows with distinct [message_id] is the list [order_by_ts_id] computes. *)
Lemma order_by_is_forced (rows answer : list Message.t) :
  NoDup (map Message.message_id rows) ->
  Permutation rows answer ->
  StronglySorted (fun a b => Sql.row_le a b = true) answer ->
  answer = Sql.order_by_ts_id rows.
Proof.
  intros Hn Hp Hs.
  apply sorted_arrangement_unique; [| |exact Hs|apply order_by_sorted].
  - apply unique_ids_unique_keys.
    apply (Permutation_NoDup (Permutation_map Message.message_id Hp)). exact Hn.
  - eapply perm_trans; [apply Permutation_sym, Hp | apply order_by_perm].
Qed.

(* ================================================================= *)
(** ** One message delivered twice *)

Lemma first_delivery_creates settings env req w raw secret msg :
  db_fault env = None ->
  body req = Some raw ->
  Settings.WEBHOOK_SECRET settings = Some secret ->
  headers_get "X-Signature" (headers req)
  = Some (Sha256.hmac_hexdigest (Py.encode secret) raw) ->
  MessageRequest.parse (json_body req) = inl msg ->
  ~ In (MessageRequest.message_id msg) (map Message.message_id (db w)) ->
  let out := Webhook.webhook settings env req w in
  fst out = Response 200 Webhook.status_ok
  /\ db (snd out)
     = (db w ++ [Message.Mk (MessageRequest.message_id msg) (MessageRequest.from_field msg)
                   (MessageRequest.to msg) (MessageRequest.ts msg)
                   (MessageRequest.text msg) (utcnow_row env)])%list
  /\ metrics (snd out)
     = Metrics.record_latency (latency_ms env)
         (Metrics.record_webhook_result "created"
            (Metrics.record_http_request "/webhook" 200 (metrics w))).
Proof.
  intros Hf Hb Hs Hh Hp Hn. cbn zeta.
  rewrite (signature_accepted settings env req w raw secret Hb Hs Hh).
  unfold Webhook.parse_and_validate. rewrite Hp.
  unfold Webhook.persist. rewrite Hf.
  rewrite add_commit_created by exact Hn.
  repeat split.
Qed.

(** X3. The same signed payload twice: two answers 200, the first counted as
    created and the second as duplicate, and one row for its id. *)
Lemma two_deliveries_one_row settings env1 env2 req w raw secret msg :
  Message.unique_ids (db w) ->
  db_fault env1 = None -> db_fault env2 = None ->
  body req = Some raw ->
  Settings.WEBHOOK_SECRET settings = Some secret ->
  headers_get "X-Signature" (headers req)
  = Some (Sha256.hmac_hexdigest (Py.encode secret) raw) ->
  MessageRequest.parse (json_body req) = inl msg ->
  ~ In (MessageRequest.message_id msg) (map Message.message_id (db w)) ->
  let out1 := Webhook.webhook settings env1 req w in
  let out2 := Webhook.webhook settings env2 req (snd out1) in
  fst out1 = Response 200 Webhook.status_ok
  /\ fst out2 = Response 200 Webhook.status_ok
  /\ db (snd out2) = db (snd out1)
  /\ List.length (db (snd out2)) = S (List.length (db w))
  /\ List.length (Message.rows_with (MessageRequest.message_id msg) (db (snd out2))) = 1%nat
  /\ Metrics.webhook_requests_total (metrics (snd out2))
     = Metrics.incr (Metrics.webhook_key "duplicate")
         (Metrics.incr (Metrics.webhook_key "created")
            (Metrics.webhook_requests_total (metrics w))).
Proof.
  intros Hu Hf1 Hf2 Hb Hs Hh Hp Hn. cbn zeta.
  destruct (first_delivery_creates settings env1 req w raw secret msg
              Hf1 Hb Hs Hh Hp Hn) as (Hr1 & Hdb1 & Hm1).
  assert (Hin : In (MessageRequest.message_id msg)
                   (map Message.message_id (db (snd (Webhook.webhook settings env1 req w))))).
  { rewrite Hdb1, map_app. apply in_or_app. right. left. reflexivity. }
  assert (Hu1 : Message.unique_ids (db (snd (Webhook.webhook settings env1 req w))))
    by (apply webhook_keeps_unique_ids, Hu).
  pose proof (signature_accepted settings env2 req
                (snd (Webhook.webhook settings env1 req w)) raw secret Hb Hs Hh) as E2.
  unfold Webhook.parse_and_validate in E2. rewrite Hp in E2.
  unfold Webhook.persist in E2. rewrite Hf2 in E2.
  rewrite add_commit_duplicate in E2 by exact Hin.
  rewrite E2. cbn [fst snd Webhook.finish db metrics].
  split; [exact Hr1|]. split; [reflexivity|]. split; [reflexivity|].
  split; [rewrite Hdb1, length_app; cbn; lia|].
  split; [apply rows_with_unique; assumption|].
  rewrite Hm1. reflexivity.
Qed.

(* ================================================================= *)
(** ** Further properties of the webhook handler *)

(** What the handler can do to the table: nothing, or append the row of
    the validated request, whose id was not there, and answer 200. *)
Lemma webhook_db_cases settings env req w :
  db (snd (Webhook.webhook settings env req w)) = db w
  \/ exists msg,
       MessageRequest.parse (json_body req) = inl msg
       /\ ~ In (MessageRequest.message_id msg) (map Message.message_id (db w))
       /\ db (snd (Webhook.webhook settings env req w))
          = (db w ++ [row_of msg (utcnow_row env)])%list
       /\ Webhook.webhook settings env req w
          = Webhook.finish env w (db w ++ [row_of msg (utcnow_row env)])%list 200 "created"
              [ ("message_id", JStr (MessageRequest.message_id msg));
                ("dup", JBool false); ("result", JStr "created") ]%string
              Webhook.status_ok.
Proof.
  unfold Webhook.webhook.
  destruct (body req) as [raw|]; [|left; reflexivity].
  unfold Webhook.verify_signature.
  destruct (headers_get _ _) as [sig|]; [|left; reflexivity].
  destruct (negb (Py.truthy sig)); [left; reflexivity|].
  destruct (expected_signature _ _) as [expected|e]; [|left; reflexivity].
  destruct (compare_digest sig expected) as [[|]|e]; [|left; reflexivity|left; reflexivity].
  unfold Webhook.parse_and_validate.
  destruct (MessageRequest.parse _) as [msg|es] eqn:Hp; [|left; reflexivity].
  unfold Webhook.persist, Message.add_commit.
  destruct (db_fault env); [left; reflexivity|].
  destruct (existsb _ (db w)) eqn:E; [left; reflexivity|].
  right. exists msg. split; [reflexivity|]. split; [|split; reflexivity].
  intros Hin. apply existsb_has_id in Hin.
  cbn [Message.message_id] in E. rewrite Hin in E. discriminate E.
Qed.



Lemma two_deliveries_witness :
  let out1 := Webhook.webhook Sample.settings Sample.env1 Sample.post_m1 Sample.empty_world in
  let out2 := Webhook.webhook Sample.settings Sample.env2 Sample.post_m1 (snd out1) in
  fst out1 = Response 200 Webhook.status_ok
  /\ fst out2 = Response 200 Webhook.status_ok
  /\ List.length (db (snd out2)) = 1%nat.
Proof.
  intros out1 out2.
  destruct (two_deliveries_one_row Sample.settings Sample.env1 Sample.env2 Sample.post_m1
              Sample.empty_world Sample.body_m1 "testsecret" Sample.msg_m1)
    as (H1 & H2 & _ & Hlen & _).
  - constructor.
  - reflexivity.
  - reflexivity.
  - reflexivity.
  - reflexivity.
  - reflexivity.
  - vm_compute. reflexivity.
  - intros [].
  - split; [exact H1|]. split; [exact H2 | exact Hlen].
Defined.

Lemma rows_with_app m a b :
  Message.rows_with m (a ++ b) = (Message.rows_with m a ++ Message.rows_with m b)%list.
Proof. unfold Message.rows_with. apply filter_app. Qed.

(** X2. The first delivery of a valid, correctly signed payload is
    answered 200 and appends one row at the end of the table: the five
    payload fields as they were sent (nothing is trimmed or rewritten)
    and the handler's clock reading as [created_at]; that row is the
    only one with its id, and the delivery is counted and logged as
    created, with [dup] false. *)
Theorem first_delivery_stores_the_payload
        (settings : Settings.t) (env : Env) (req : Request) (w : World)
        (raw : list byte) (secret : string) (msg : MessageRequest.t) :
  db_fault env = None ->
  body req = Some raw ->
  Settings.WEBHOOK_SECRET settings = Some secret ->
  headers_get "X-Signature" (headers req)
  = Some (Sha256.hmac_hexdigest (Py.encode secret) raw) ->
  MessageRequest.parse (json_body req) = inl msg ->
  ~ In (MessageRequest.message_id msg) (map Message.message_id (db w)) ->
  let out := Webhook.webhook settings env req w in
  let stored :=
    Message.Mk (MessageRequest.message_id msg) (MessageRequest.from_field msg)
               (MessageRequest.to msg) (MessageRequest.ts msg)
               (MessageRequest.text msg) (utcnow_row env) in
  fst out = Response 200 Webhook.status_ok
  /\ db (snd out) = (db w ++ [stored])%list
  /\ Message.rows_with (MessageRequest.message_id msg) (db (snd out)) = [stored]
  /\ Metrics.webhook_requests_total (metrics (snd out))
     = Metrics.incr (Metrics.webhook_key "created")
                    (Metrics.webhook_requests_total (metrics w))
  /\ exists line,
       log (snd out) = (log w ++ [line])%list
       /\ dict_get "dup" line = Some (JBool false)
       /\ dict_get "result" line = Some (JStr "created")
       /\ dict_get "message_id" line = Some (JStr (MessageRequest.message_id msg)).
Proof.
  intros Hf Hb Hs Hh Hp Hn. cbn zeta.
  rewrite (signature_accepted settings env req w raw secret Hb Hs Hh).
  unfold Webhook.parse_and_validate. rewrite Hp.
  unfold Webhook.persist. rewrite Hf.
  rewrite add_commit_created by exact Hn.
  cbn [fst snd Webhook.finish db metrics log].
  split; [reflexivity|]. split; [reflexivity|]. split; [|split; [reflexivity|]].
  - rewrite rows_with_app, (rows_with_absent _ _ Hn).
    unfold Message.rows_with, Message.has_id. cbn. rewrite String.eqb_refl. reflexivity.
  - eexists. split; [reflexivity|]. repeat split.
Qed.

Lemma first_delivery_witness :
  let out := Webhook.webhook Sample.settings Sample.env1 Sample.post_m1 Sample.empty_world in
  db (snd out)
  = [Message.Mk "m1" "+1000000001" "+1000000002" "2025-01-15T10:00:00Z" None
       "2025-01-15T10:00:01Z"].
Proof.
  intros out.
  destruct (first_delivery_stores_the_payload Sample.settings Sample.env1 Sample.post_m1
              Sample.empty_world Sample.body_m1 "testsecret" Sample.msg_m1)
    as (_ & Hdb & _);
    [reflexivity | reflexivity | reflexivity | reflexivity | reflexivity | intros [] |].
  exact Hdb.
Defined.

(** X4. The table only ever grows at its end: a webhook call leaves it
    as it was or appends exactly one row whose id was not present, and
    it appends only when it answers 200; a primary key that holds
    before the call holds after it.  The three read endpoints leave the
    table as it was. *)
Theorem table_is_append_only
        (settings : Settings.t) (env : Env) (req : Request) (w : World)
        (order : list (string * Z) -> list (string * Z))
        (limit offset : Z) (from_ since q : option string) :
  let out := Webhook.webhook settings env req w in
  (db (snd out) = db w
   \/ exists row,
        db (snd out) = (db w ++ [row])%list
        /\ ~ In (Message.message_id row) (map Message.message_id (db w))
        /\ fst out = Response 200 Webhook.status_ok)
  /\ (Message.unique_ids (db w) -> Message.unique_ids (db (snd out)))
  /\ db (snd (Messages.get_messages env limit offset from_ since q w)) = db w
  /\ db (snd (Stats.get_stats order env w)) = db w
  /\ db (snd (MetricsEndpoint.get_metrics env w)) = db w.
Proof.
  cbn zeta. split; [|split; [apply webhook_keeps_unique_ids | repeat split]].
  destruct (webhook_db_cases settings env req w) as [H|(msg & _ & Hn & Hdb & E)].
  - left. exact H.
  - right. exists (row_of msg (utcnow_row env)).
    split; [exact Hdb|]. split; [exact Hn|]. rewrite E. reflexivity.
Qed.

Lemma parse_gives_valid_row parsed msg created_at :
  MessageRequest.parse parsed = inl msg -> valid_row (row_of msg created_at).
Proof.
  unfold MessageRequest.parse.
  destruct parsed as [[| | | | | |d]|]; try discriminate.
  intros H. apply validate_fields_ok in H.
  destruct H as (_ & A2 & _ & B2 & _ & C2 & _ & D2 & T).
  unfold valid_row, row_of. cbn.
  repeat (split; [assumption|]).
  intros t Ht. destruct T as [[_ T]|[[_ T]|(s & _ & T & L)]]; congruence.
Qed.

(** X5. No partly valid row is ever stored: if every row of the table
    has a non-blank [message_id], [from_msisdn] and [to_msisdn] that
    match the phone pattern, a [ts] that matches the timestamp pattern
    and a text of at most 4096 characters when it has one, the same
    holds after any webhook call. *)
Theorem stored_rows_stay_valid
        (settings : Settings.t) (env : Env) (req : Request) (w : World) :
  Forall valid_row (db w) ->
  Forall valid_row (db (snd (Webhook.webhook settings env req w))).
Proof.
  intros Hv.
  destruct (webhook_db_cases settings env req w) as [H|(msg & Hp & _ & Hdb & _)].
  - rewrite H. exact Hv.
  - rewrite Hdb. apply Forall_app. split; [exact Hv|].
    constructor; [|constructor]. eapply parse_gives_valid_row. exact Hp.
Qed.

Lemma stored_rows_stay_valid_witness :
  Forall valid_row
    (db (snd (Webhook.webhook Sample.settings Sample.env1 Sample.post_m1 Sample.empty_world)))
  /\ db (snd (Webhook.webhook Sample.settings Sample.env1 Sample.post_m1 Sample.empty_world))
     <> [].
Proof.
  split.
  - apply stored_rows_stay_valid. constructor.
  - vm_compute. discriminate.
Defined.

(* ================================================================= *)
(** ** Further properties of the signature check *)

Lemma flat_map_length4 (l : list Z) :
  List.length (flat_map Sha256.bytes_of_word l) = (4 * List.length l)%nat.
Proof.
  induction l as [|x l IH]; [reflexivity|].
  cbn [flat_map]. rewrite length_app, IH. cbn [Sha256.bytes_of_word List.length]. lia.
Qed.

Lemma digest_length msg : List.length (Sha256.digest msg) = 32%nat.
Proof.
  unfold Sha256.digest. rewrite flat_map_length4.
  rewrite (blocks_length _ Sha256.H0 _ eq_refl). reflexivity.
Qed.

Lemma hexlify_length bs : String.length (Sha256.hexlify bs) = (2 * List.length bs)%nat.
Proof.
  induction bs as [|b bs IH]; [reflexivity|].
  cbn [Sha256.hexlify String.length List.length]. rewrite IH. lia.
Qed.

Lemma hex_pair_lower (b : byte) (s : string) :
  all_lower_hex
    (String (Sha256.hex_digit (Sha256.byteZ b / 16))
            (String (Sha256.hex_digit (Sha256.byteZ b mod 16)) s))
  = all_lower_hex s.
Proof. destruct b; reflexivity. Qed.

Lemma hexlify_lower bs : all_lower_hex (Sha256.hexlify bs) = true.
Proof.
  induction bs as [|b bs IH]; [reflexivity|].
  cbn [Sha256.hexlify]. rewrite hex_pair_lower. exact IH.
Qed.

Lemma hexdigest_shape key msg :
  String.length (Sha256.hmac_hexdigest key msg) = 64%nat
  /\ all_lower_hex (Sha256.hmac_hexdigest key msg) = true.
Proof.
  unfold Sha256.hmac_hexdigest. split; [|apply hexlify_lower].
  rewrite hexlify_length. unfold Sha256.hmac. rewrite digest_length. reflexivity.
Qed.



(** X7. The handler goes past the signature check only for the exact
    digest text: whenever a request with a readable body and a signature
    header is answered with a status other than 401 under a configured
    secret, the header is the expected digest, which is 64 characters
    long and made of the digits 0-9 and a-f only (an upper-case or
    shortened digest never passes). *)
Theorem accepted_signature_is_the_lowercase_digest
        (settings : Settings.t) (env : Env) (req : Request) (w : World)
        (raw : list byte) (secret sig : string) (status : Z) (content : json) :
  body req = Some raw ->
  Settings.WEBHOOK_SECRET settings = Some secret ->
  headers_get "X-Signature" (headers req) = Some sig ->
  fst (Webhook.webhook settings env req w) = Response status content ->
  status <> 401%Z ->
  sig = Sha256.hmac_hexdigest (Py.encode secret) raw
  /\ String.length sig = 64%nat
  /\ all_lower_hex sig = true.
Proof.
  intros Hb Hs Hh Hr Hst.
  assert (E : sig = Sha256.hmac_hexdigest (Py.encode secret) raw).
  { destruct (Py.isascii sig) eqn:Ha.
    - destruct (string_dec sig (Sha256.hmac_hexdigest (Py.encode secret) raw))
        as [E|Hne]; [exact E|].
      rewrite (signature_mismatch settings env req w raw secret sig Hb Hs Hh Ha Hne) in Hr.
      cbn in Hr. inversion Hr. congruence.
    - rewrite (signature_non_ascii settings env req w raw secret sig Hb Hs Hh Ha) in Hr.
      discriminate Hr. }
  split; [exact E|]. rewrite E. apply hexdigest_shape.
Qed.

Lemma accepted_signature_witness :
  String.length (Sha256.hmac_hexdigest (Py.encode "testsecret") Sample.body_m1) = 64%nat.
Proof.
  destruct (accepted_signature_is_the_lowercase_digest
              Sample.settings Sample.env1 Sample.post_m1 Sample.empty_world
              Sample.body_m1 "testsecret"
              (Sha256.hmac_hexdigest (Py.encode "testsecret") Sample.body_m1)
              200 Webhook.status_ok)
    as (_ & L & _);
    [reflexivity | reflexivity | reflexivity | vm_compute; reflexivity | discriminate | exact L].
Defined.

(* ================================================================= *)
(** ** Readiness *)

(** X8. The readiness probe answers 200 exactly when the secret is set
    to a non-empty string and the store answers; a missing or empty
    secret gives 503 [WEBHOOK_SECRET not set] whatever the store says,
    and otherwise a store that does not answer gives 503
    [database not ready]. *)
Theorem readiness_reports (settings : Settings.t) (db_ok : bool) :
  (Health.health_ready settings db_ok = Response 200 (JDict [("status"%string, JStr "ready")])
   <-> (exists s, Settings.WEBHOOK_SECRET settings = Some s /\ s <> EmptyString)
       /\ db_ok = true)
  /\ (Settings.WEBHOOK_SECRET settings = None
      \/ Settings.WEBHOOK_SECRET settings = Some EmptyString ->
      Health.health_ready settings db_ok
      = Response 503 (JDict [("detail"%string, JStr "WEBHOOK_SECRET not set")]))
  /\ ((exists s, Settings.WEBHOOK_SECRET settings = Some s /\ s <> EmptyString) ->
      db_ok = false ->
      Health.health_ready settings db_ok
      = Response 503 (JDict [("detail"%string, JStr "database not ready")])).
Proof.
  unfold Health.health_ready.
  destruct (Settings.WEBHOOK_SECRET settings) as [[|c s]|]; cbn [Py.truthy_opt Py.truthy negb].
  - split; [split|split].
    + discriminate.
    + intros [(s & E & Hne) _]. inversion E. congruence.
    + reflexivity.
    + intros (s & E & Hne). inversion E. congruence.
  - split; [split|split].
    + destruct db_ok; cbn; [|discriminate]. intros _. split; [|reflexivity].
      eexists. split; [reflexivity | discriminate].
    + intros [_ ->]. reflexivity.
    + intros [H|H]; discriminate H.
    + intros _ ->. reflexivity.
  - split; [split|split].
    + discriminate.
    + intros [(s & E & _) _]. discriminate E.
    + reflexivity.
    + intros (s & E & _). discriminate E.
Qed.

(** X9. A secret set to the empty string is reported as not set by the
    readiness probe, yet the webhook verifies signatures with it: a
    request signed with the empty key goes on to validation and is
    neither answered 401 nor does it raise. *)
Theorem empty_secret_is_not_ready_but_verifies
        (settings : Settings.t) (env : Env) (req : Request) (w : World)
        (raw : list byte) (db_ok : bool) :
  Settings.WEBHOOK_SECRET settings = Some EmptyString ->
  body req = Some raw ->
  headers_get "X-Signature" (headers req) = Some (Sha256.hmac_hexdigest [] raw) ->
  Health.health_ready settings db_ok
  = Response 503 (JDict [("detail"%string, JStr "WEBHOOK_SECRET not set")])
  /\ Webhook.webhook settings env req w = Webhook.parse_and_validate env req w
  /\ exists status content,
       fst (Webhook.webhook settings env req w) = Response status content
       /\ status <> 401%Z.
Proof.
  intros Hs Hb Hh. split; [|split].
  - unfold Health.health_ready. rewrite Hs. reflexivity.
  - apply (signature_accepted settings env req w raw EmptyString Hb Hs Hh).
  - rewrite (signature_accepted settings env req w raw EmptyString Hb Hs Hh).
    destruct (parse_and_validate_finishes env req w) as (tb & st & o & ex & c & E & Hin).
    exists st, c. rewrite E. split; [reflexivity|].
    cbn in Hin. destruct Hin as [H|[H|[H|[H|[]]]]]; inversion H; discriminate.
Qed.

Lemma empty_secret_witness :
  let settings := Settings.init [("WEBHOOK_SECRET", "")]%string in
  let req := Sample.signed "" Sample.body_m1 (Some Sample.json_m1) in
  Health.health_ready settings true
  = Response 503 (JDict [("detail"%string, JStr "WEBHOOK_SECRET not set")])
  /\ fst (Webhook.webhook settings Sample.env1 req Sample.empty_world)
     = Response 200 Webhook.status_ok.
Proof.
  intros settings req.
  destruct (empty_secret_is_not_ready_but_verifies settings Sample.env1 req
              Sample.empty_world Sample.body_m1 true)
    as (H503 & E & _); [reflexivity | reflexivity | reflexivity |].
  split; [exact H503|]. rewrite E. vm_compute. reflexivity.
Defined.

Example hmac_sha256_empty_key :
  Sha256.hmac_hexdigest [] []
  = "b613679a0814d9ec772f95d778c35fc5ff1697c493715653c6c712144292c5ad"%string.
Proof. vm_compute. reflexivity. Qed.

(* ================================================================= *)
(** ** Further properties of the validators *)

(** X10. The [from] and [to] validators accept exactly a plus sign
    followed by one or more decimal digits, and the same text followed by
    a single newline (which [$] lets through); they reject everything
    else, the bare plus sign and the empty string included. *)
Theorem phone_validators_accept (v : string) :
  let well_formed :=
    exists ds, ds <> EmptyString /\ all_digits ds = true
               /\ (v = String "+" ds \/ v = String "+" (ds ++ Py.newline)) in
  (MessageRequest.from_is_e164 v = None <-> well_formed)
  /\ (MessageRequest.to_is_e164 v = None <-> well_formed)
  /\ MessageRequest.from_is_e164 "+" <> None
  /\ MessageRequest.from_is_e164 EmptyString <> None.
Proof.
  cbn zeta. unfold MessageRequest.from_is_e164, MessageRequest.to_is_e164.
  rewrite !regex_check_ok, e164_spec.
  split; [reflexivity|]. split; [reflexivity|]. split; discriminate.
Qed.

Lemma rstrip_empty s :
  Py.rstrip s = EmptyString <-> Forall (fun c => Py.isspace c = true) (chars s).
Proof.
  unfold chars. induction s as [|c s IH]; cbn [Py.rstrip list_ascii_of_string].
  - split; [constructor | reflexivity].
  - destruct (Py.rstrip s) as [|d t] eqn:E.
    + destruct (Py.isspace c) eqn:Ec.
      * split; [intros _; constructor; [exact Ec | apply IH; reflexivity] | reflexivity].
      * split; [discriminate|]. intros H. inversion H; congruence.
    + split; [discriminate|]. intros H. inversion H as [|? ? _ Hs]; subst.
      apply IH in Hs. discriminate Hs.
Qed.

Lemma lstrip_empty s :
  Py.lstrip s = EmptyString <-> Forall (fun c => Py.isspace c = true) (chars s).
Proof.
  unfold chars. induction s as [|c s IH]; cbn [Py.lstrip list_ascii_of_string].
  - split; [constructor | reflexivity].
  - destruct (Py.isspace c) eqn:Ec.
    + rewrite IH. split; [intros H; constructor; assumption | intros H; inversion H; assumption].
    + split; [discriminate|]. intros H. inversion H; congruence.
Qed.

Lemma lstrip_head s c t : Py.lstrip s = String c t -> Py.isspace c = false.
Proof.
  induction s as [|d s IH]; cbn [Py.lstrip]; [discriminate|].
  destruct (Py.isspace d) eqn:Ed; [exact IH|]. intros H. inversion H; subst. exact Ed.
Qed.

Lemma strip_empty s :
  Py.strip s = EmptyString <-> Forall (fun c => Py.isspace c = true) (chars s).
Proof.
  unfold Py.strip. rewrite rstrip_empty. split.
  - intros H. destruct (Py.lstrip s) as [|c t] eqn:E.
    + apply lstrip_empty. exact E.
    + inversion H as [|? ? Hc _]; subst. apply lstrip_head in E. congruence.
  - intros H. apply lstrip_empty in H. rewrite H. constructor.
Qed.

(** X11. The [message_id] validator accepts exactly the strings that
    hold at least one character that is not white space; the empty
    string and strings of blanks, tabs or line breaks only are rejected. *)
Theorem message_id_validator_accepts (v : string) :
  (MessageRequest.message_id_not_empty v = None
   <-> exists c, In c (chars v) /\ Py.isspace c = false)
  /\ (Forall (fun c => Py.isspace c = true) (chars v) ->
      MessageRequest.message_id_not_empty v = Some "message_id must not be empty"%string).
Proof.
  split.
  - rewrite message_id_not_empty_ok. split.
    + intros Hne.
      assert (Hn : ~ Forall (fun c => Py.isspace c = true) (chars v))
        by (intros H; apply Hne, strip_empty, H).
      clear Hne. induction (chars v) as [|c l IH].
      * exfalso. apply Hn. constructor.
      * destruct (Py.isspace c) eqn:Ec.
        -- destruct IH as (d & Hd & Hs).
           ++ intros H. apply Hn. constructor; assumption.
           ++ exists d. split; [right; exact Hd | exact Hs].
        -- exists c. split; [left; reflexivity | exact Ec].
    + intros (c & Hin & Hc) E. apply strip_empty in E.
      rewrite Forall_forall in E. specialize (E c Hin). congruence.
  - intros H. apply strip_empty in H.
    destruct (MessageRequest.message_id_not_empty v) as [m|] eqn:E.
    + unfold MessageRequest.message_id_not_empty in E.
      destruct (_ || _); [symmetry; exact E | discriminate E].
    + apply message_id_not_empty_ok in E. contradiction.
Qed.

Lemma message_id_validator_witness :
  MessageRequest.message_id_not_empty "   "
  = Some "message_id must not be empty"%string.
Proof.
  apply (proj2 (message_id_validator_accepts "   ")).
  repeat constructor.
Defined.

Lemma matches_ones cs : forall b v,
  Re.matches (map Re.One cs ++ [Re.Eol]) b v = fits cs v.
Proof.
  induction cs as [|c cs IH]; intros b v; cbn [map app Re.matches fits].
  - apply andb_true_r.
  - destruct v as [|a v]; [reflexivity|]. rewrite IH. reflexivity.
Qed.

Lemma iso8601_fits v : Re.re_match Re.iso8601_utc v = fits iso_classes v.
Proof.
  unfold Re.re_match.
  change Re.iso8601_utc with (Re.Bol :: (map Re.One iso_classes ++ [Re.Eol])).
  cbn [Re.matches andb]. apply matches_ones.
Qed.

Lemma fits_length cs : forall v,
  fits cs v = true ->
  String.length v = List.length cs
  \/ exists v0, v = (v0 ++ Py.newline)%string /\ String.length v0 = List.length cs
                /\ fits cs v0 = true.
Proof.
  induction cs as [|c cs IH]; intros v H; cbn [fits] in H.
  - apply at_end_spec in H. destruct H as [->| ->]; [left; reflexivity|].
    right. exists EmptyString. repeat split.
  - destruct v as [|a v]; [discriminate H|].
    apply andb_true_iff in H. destruct H as [Ha H].
    destruct (IH v H) as [L|(v0 & -> & L & F)].
    + left. cbn. now rewrite L.
    + right. exists (String a v0). cbn. rewrite L, Ha, F. repeat split.
Qed.

Lemma fits_digits_app n : forall cs v,
  fits (repeat Re.Digit n ++ cs) v = true
  <-> exists ds rest,
        v = (ds ++ rest)%string /\ String.length ds = n
        /\ all_digits ds = true /\ fits cs rest = true.
Proof.
  induction n as [|n IH]; intros cs v; cbn [repeat app].
  - split.
    + intros H. exists EmptyString, v. repeat split. exact H.
    + intros (ds & rest & -> & L & _ & H). destruct ds; [exact H | discriminate L].
  - cbn [fits]. destruct v as [|a v].
    + split; [discriminate|]. intros (ds & rest & E & L & _).
      destruct ds; [discriminate L | discriminate E].
    + cbn [Re.in_cls]. rewrite andb_true_iff, IH. split.
      * intros [Ha (ds & rest & -> & L & D & H)].
        exists (String a ds), rest. cbn. rewrite L, Ha, D. repeat split. exact H.
      * intros (ds & rest & E & L & D & H).
        destruct ds as [|x ds]; [discriminate L|].
        cbn in E, L, D. inversion E; subst. apply andb_true_iff in D.
        destruct D as [Dx D]. split; [exact Dx|].
        exists ds, rest. repeat split; try assumption. now inversion L.
Qed.

Lemma fits_lit_app l cs v :
  fits (Re.Lit l :: cs) v = true
  <-> exists rest, v = String l rest /\ fits cs rest = true.
Proof.
  cbn [fits]. destruct v as [|a v].
  - split; [discriminate | intros (rest & E & _); discriminate E].
  - cbn [Re.in_cls]. rewrite andb_true_iff, Ascii.eqb_eq. split.
    + intros [-> H]. eauto.
    + intros (rest & E & H). inversion E; subst. auto.
Qed.

(** X12. The [ts] validator checks the shape of the text and nothing
    else: it accepts exactly four digits, a hyphen, two digits, a hyphen,
    two digits, [T], two digits, a colon, two digits, a colon, two
    digits and [Z], optionally followed by one newline.  The digits
    are not checked against the calendar or the clock. *)
Theorem ts_validator_accepts (v : string) :
  MessageRequest.ts_is_iso8601_utc v = None
  <-> exists y mo d h mi se tail,
        v = (y ++ "-" ++ mo ++ "-" ++ d ++ "T" ++ h ++ ":" ++ mi ++ ":" ++ se
               ++ "Z" ++ tail)%string
        /\ String.length y = 4%nat /\ String.length mo = 2%nat
        /\ String.length d = 2%nat /\ String.length h = 2%nat
        /\ String.length mi = 2%nat /\ String.length se = 2%nat
        /\ all_digits y = true /\ all_digits mo = true /\ all_digits d = true
        /\ all_digits h = true /\ all_digits mi = true /\ all_digits se = true
        /\ (tail = EmptyString \/ tail = Py.newline).
Proof.
  unfold MessageRequest.ts_is_iso8601_utc.
  rewrite regex_check_ok, iso8601_fits. unfold iso_classes. split.
  - intros H.
    apply fits_digits_app in H. destruct H as (y & r & -> & Ly & Dy & H).
    cbn [app] in H. apply fits_lit_app in H. destruct H as (r1 & -> & H).
    apply fits_digits_app in H. destruct H as (mo & r & -> & Lmo & Dmo & H).
    cbn [app] in H. apply fits_lit_app in H. destruct H as (r2 & -> & H).
    apply fits_digits_app in H. destruct H as (d & r & -> & Ld & Dd & H).
    cbn [app] in H. apply fits_lit_app in H. destruct H as (r3 & -> & H).
    apply fits_digits_app in H. destruct H as (h & r & -> & Lh & Dh & H).
    cbn [app] in H. apply fits_lit_app in H. destruct H as (r4 & -> & H).
    apply fits_digits_app in H. destruct H as (mi & r & -> & Lmi & Dmi & H).
    cbn [app] in H. apply fits_lit_app in H. destruct H as (r5 & -> & H).
    apply fits_digits_app in H. destruct H as (se & r & -> & Lse & Dse & H).
    cbn [app] in H. apply fits_lit_app in H. destruct H as (tail & -> & H).
    cbn [fits] in H. apply at_end_spec in H.
    exists y, mo, d, h, mi, se, tail. repeat (split; [first [reflexivity | assumption]|]).
    exact H.
  - intros (y & mo & d & h & mi & se & tail & -> & Ly & Lmo & Ld & Lh & Lmi & Lse
            & Dy & Dmo & Dd & Dh & Dmi & Dse & Ht).
    apply fits_digits_app. exists y. eexists. repeat (split; [first [reflexivity | assumption]|]).
    cbn [app]. apply fits_lit_app. eexists. split; [reflexivity|].
    apply fits_digits_app. exists mo. eexists. repeat (split; [first [reflexivity | assumption]|]).
    cbn [app]. apply fits_lit_app. eexists. split; [reflexivity|].
    apply fits_digits_app. exists d. eexists. repeat (split; [first [reflexivity | assumption]|]).
    cbn [app]. apply fits_lit_app. eexists. split; [reflexivity|].
    apply fits_digits_app. exists h. eexists. repeat (split; [first [reflexivity | assumption]|]).
    cbn [app]. apply fits_lit_app. eexists. split; [reflexivity|].
    apply fits_digits_app. exists mi. eexists. repeat (split; [first [reflexivity | assumption]|]).
    cbn [app]. apply fits_lit_app. eexists. split; [reflexivity|].
    apply fits_digits_app. exists se. eexists. repeat (split; [first [reflexivity | assumption]|]).
    cbn [app]. apply fits_lit_app. eexists. split; [reflexivity|].
    cbn [fits]. apply at_end_spec. exact Ht.
Qed.

Example ts_not_a_date : MessageRequest.ts_is_iso8601_utc "9999-99-99T99:99:99Z" = None.
Proof. reflexivity. Qed.






(* ================================================================= *)
(** ** Further properties of the listing *)









Lemma NoDup_map_filter {A B} (f : A -> B) (p : A -> bool) l :
  NoDup (map f l) -> NoDup (map f (filter p l)).
Proof.
  induction l as [|x l IH]; intros H; [constructor|].
  cbn [map] in H. inversion H as [|? ? Hn Hd]; subst. cbn [filter].
  destruct (p x); [|apply IH, Hd]. cbn [map]. constructor; [|apply IH, Hd].
  intros Hin. apply Hn. apply in_map_iff in Hin. destruct Hin as (y & E & Hy).
  apply filter_In in Hy. apply in_map_iff. exists y. tauto.
Qed.

Lemma NoDup_firstn {A} n : forall l : list A, NoDup l -> NoDup (firstn n l).
Proof.
  intros l H. rewrite <- (firstn_skipn n l) in H. apply NoDup_app_remove_r in H. exact H.
Qed.

Lemma NoDup_skipn {A} n : forall l : list A, NoDup l -> NoDup (skipn n l).
Proof.
  intros l H. rewrite <- (firstn_skipn n l) in H. apply NoDup_app_remove_l in H. exact H.
Qed.

Lemma filtered_is_filter from_ since q tb :
  exists keep, Messages.filtered from_ since q tb = filter keep tb.
Proof.
  unfold Messages.filtered. rewrite !apply_filter_is_filter, !filter_filter. eauto.
Qed.

(** X16. With the primary key in force, no message appears twice in a
    page, and every item of a page is a stored row with its
    [created_at] left out. *)
Theorem page_items_are_distinct_stored_rows
        (env : Env) (limit offset : Z) (from_ since q : option string) (w : World) :
  Message.unique_ids (db w) ->
  let r := fst (Messages.get_messages env limit offset from_ since q w) in
  NoDup (map Messages.message_id (Messages.data r))
  /\ forall i, In i (Messages.data r) ->
       exists row, In row (db w) /\ i = Messages.from_orm row.
Proof.
  intros Hu. cbn zeta. unfold Messages.get_messages. cbn [fst Messages.data].
  destruct (filtered_is_filter from_ since q (db w)) as [keep E]. rewrite E.
  split.
  - rewrite map_map. cbn [Messages.from_orm Messages.message_id].
    unfold Sql.limit_offset. rewrite <- firstn_map, <- skipn_map.
    apply NoDup_firstn, NoDup_skipn.
    apply (Permutation_NoDup
             (Permutation_map Message.message_id (order_by_perm (filter keep (db w))))).
    apply NoDup_map_filter. exact Hu.
  - intros i Hi. apply in_map_iff in Hi. destruct Hi as (row & <- & Hin).
    exists row. split; [|reflexivity].
    unfold Sql.limit_offset in Hin.
    assert (H1 : In row (skipn (Z.to_nat (Messages.resolve_offset offset))
                           (Sql.order_by_ts_id (filter keep (db w))))).
    { rewrite <- (firstn_skipn (Z.to_nat (Messages.resolve_limit limit)) (skipn _ _)).
      apply in_or_app. left. exact Hin. }
    assert (H2 : In row (Sql.order_by_ts_id (filter keep (db w)))).
    { rewrite <- (firstn_skipn (Z.to_nat (Messages.resolve_offset offset))
                    (Sql.order_by_ts_id _)).
      apply in_or_app. right. exact H1. }
    apply (Permutation_in row (Permutation_sym (order_by_perm _))) in H2.
    apply filter_In in H2. apply H2.
Qed.

Lemma page_items_witness :
  let tb := [ Sample.row "m3" "+1000000001" "2025-01-15T10:00:00Z" None;
              Sample.row "m2" "+1000000003" "2025-01-15T09:00:00Z" None ] in
  let r := fst (Messages.get_messages Sample.env1 50 0 None None None
                  (MkWorld tb Metrics.init [])) in
  NoDup (map Messages.message_id (Messages.data r))
  /\ List.length (Messages.data r) = 2%nat.
Proof.
  intros tb r.
  destruct (page_items_are_distinct_stored_rows Sample.env1 50 0 None None None
              (MkWorld tb Metrics.init [])) as [Hn _].
  - unfold Message.unique_ids. cbn.
    constructor; [intros [H|[]]; discriminate H|]. constructor; [intros []|constructor].
  - split; [exact Hn | reflexivity].
Defined.

Lemma order_by_is_forced_witness :
  let rows := [ Sample.row "m3" "+1000000001" "2025-01-15T10:00:00Z" None;
                Sample.row "m2" "+1000000003" "2025-01-15T09:00:00Z" None ] in
  [ Sample.row "m2" "+1000000003" "2025-01-15T09:00:00Z" None;
    Sample.row "m3" "+1000000001" "2025-01-15T10:00:00Z" None ]
  = Sql.order_by_ts_id rows.
Proof.
  intros rows. apply order_by_is_forced.
  - cbn. constructor; [intros [H|[]]; discriminate H|]. constructor; [intros []|constructor].
  - apply perm_swap.
  - repeat constructor.
Defined.

(* ================================================================= *)
(** ** Further properties of the text filter *)

Lemma like_app_self q : forall p s,
  Sql.like p s = true -> Sql.like (q ++ p) (q ++ s) = true.
Proof.
  induction q as [|c q IH]; intros p s H; [exact H|].
  cbn [String.append].
  destruct (Ascii.eqb c Sql.percent) eqn:E1.
  - apply Ascii.eqb_eq in E1. subst c. apply like_percent.
    exists (String Sql.percent EmptyString), (q ++ s)%string. split; [reflexivity|].
    apply IH, H.
  - destruct (Ascii.eqb c Sql.underscore) eqn:E2.
    + cbn [Sql.like]. rewrite E1, E2. apply IH, H.
    + apply (like_literal c _ _ E1 E2). eexists. split; [reflexivity|]. apply IH, H.
Qed.

Lemma like_finds_literal q s :
  contains q s ->
  Sql.like (String Sql.percent (q ++ String Sql.percent EmptyString)) s = true.
Proof.
  intros (a & b & ->). apply like_percent. exists a, (q ++ b)%string.
  split; [reflexivity|]. apply like_app_self, like_only_percent.
Qed.

(** X18. Whatever characters the search string [q] holds, wildcards
    included, the text filter keeps every selected row whose text
    contains [q] (both lower-cased), and a row without text never passes
    a non-empty [q]. *)
Theorem text_filter_keeps_literal_matches
        (from_ since : option string) (v : string) (tb : Message.table) (r : Message.t) :
  v <> EmptyString ->
  (In r (Messages.filtered from_ since None tb) -> text_has v r ->
   In r (Messages.filtered from_ since (Some v) tb))
  /\ (In r (Messages.filtered from_ since (Some v) tb) ->
      In r (Messages.filtered from_ since None tb)
      /\ exists t, Message.text r = Some t).
Proof.
  intros Hv. unfold Messages.filtered.
  cbn [Messages.apply_filter]. apply truthy_true in Hv. rewrite Hv.
  split.
  - intros Hin (t & Ht & Hc). apply filter_In. split; [exact Hin|].
    unfold Messages.q_matches, Sql.ilike. rewrite Ht.
    change (String Sql.percent (v ++ String Sql.percent EmptyString))
      with (String Sql.percent EmptyString ++ (v ++ String Sql.percent EmptyString))%string.
    rewrite !lower_app.
    change (Py.lower (String Sql.percent EmptyString)) with (String Sql.percent EmptyString).
    cbn [String.append]. apply like_finds_literal, Hc.
  - intros Hin. apply filter_In in Hin. destruct Hin as [Hin Hq].
    split; [exact Hin|]. unfold Messages.q_matches, Sql.ilike in Hq.
    destruct (Message.text r) as [t|]; [eauto | discriminate Hq].
Qed.

Lemma text_filter_witness :
  let r := Sample.row "m1" "+1000000001" "2025-01-15T10:00:00Z" (Some "50% OFF today"%string) in
  In r (Messages.filtered None None (Some "50% off"%string) [r]).
Proof.
  intros r.
  apply (proj1 (text_filter_keeps_literal_matches None None "50% off" [r] r
                  ltac:(discriminate))).
  - left. reflexivity.
  - exists "50% OFF today"%string. split; [reflexivity|].
    exists EmptyString, " today"%string. reflexivity.
Defined.

(* ================================================================= *)
(** ** Delivery, then listing and statistics *)

Lemma apply_filter_keeps f keep rows r :
  In r rows -> (forall v, f = Some v -> keep v r = true) ->
  In r (Messages.apply_filter f keep rows).
Proof.
  intros Hin Hk. unfold Messages.apply_filter. destruct f as [v|]; [|exact Hin].
  destruct (Py.truthy v); [|exact Hin]. apply filter_In. split; [exact Hin|].
  apply Hk. reflexivity.
Qed.

(** X19. A message the webhook has just created is found again: right
    after its first delivery, a listing filtered on its own sender and
    since its own [ts] selects its row, the total of that listing is at
    least 1, and [total_messages] has grown by one. *)
Theorem created_message_is_listed
        (settings : Settings.t) (env env' : Env) (req : Request) (w : World)
        (raw : list byte) (secret : string) (msg : MessageRequest.t)
        (limit offset : Z) (order : list (string * Z) -> list (string * Z)) :
  db_fault env = None ->
  body req = Some raw ->
  Settings.WEBHOOK_SECRET settings = Some secret ->
  headers_get "X-Signature" (headers req)
  = Some (Sha256.hmac_hexdigest (Py.encode secret) raw) ->
  MessageRequest.parse (json_body req) = inl msg ->
  ~ In (MessageRequest.message_id msg) (map Message.message_id (db w)) ->
  let w' := snd (Webhook.webhook settings env req w) in
  let listing :=
    fst (Messages.get_messages env' limit offset
           (Some (MessageRequest.from_field msg)) (Some (MessageRequest.ts msg)) None w') in
  In (row_of msg (utcnow_row env))
     (Messages.filtered (Some (MessageRequest.from_field msg))
        (Some (MessageRequest.ts msg)) None (db w'))
  /\ (1 <= Messages.total listing)%Z
  /\ Stats.total_messages (fst (Stats.get_stats order env' w'))
     = (Stats.total_messages (fst (Stats.get_stats order env' w)) + 1)%Z.
Proof.
  intros Hf Hb Hs Hh Hp Hn. cbn zeta.
  destruct (first_delivery_creates settings env req w raw secret msg Hf Hb Hs Hh Hp Hn)
    as (_ & Hdb & _).
  fold (row_of msg (utcnow_row env)) in Hdb. rewrite Hdb.
  assert (Hin : In (row_of msg (utcnow_row env))
                  (Messages.filtered (Some (MessageRequest.from_field msg))
                     (Some (MessageRequest.ts msg)) None
                     (db w ++ [row_of msg (utcnow_row env)]))).
  { unfold Messages.filtered. apply apply_filter_keeps; [|discriminate].
    apply apply_filter_keeps.
    - apply apply_filter_keeps.
      + apply in_or_app. right. left. reflexivity.
      + intros v E. inversion E; subst. unfold Messages.from_matches, row_of. cbn.
        apply String.eqb_refl.
    - intros v E. inversion E; subst. unfold Messages.since_matches, row_of. cbn.
      apply le_refl. }
  split; [exact Hin|]. split.
  - unfold Messages.get_messages. cbn [fst Messages.total db]. rewrite Hdb.
    destruct (Messages.filtered _ _ _ _) as [|x l]; [destruct Hin|]. cbn [List.length]. lia.
  - unfold Stats.get_stats. cbn [fst Stats.total_messages db]. rewrite Hdb.
    rewrite length_app. cbn [List.length]. lia.
Qed.

Lemma created_message_witness :
  let w' := snd (Webhook.webhook Sample.settings Sample.env1 Sample.post_m1
                   Sample.empty_world) in
  (1 <= Messages.total
          (fst (Messages.get_messages Sample.env2 50 0 (Some "+1000000001"%string)
                  (Some "2025-01-15T10:00:00Z"%string) None w')))%Z.
Proof.
  intros w'.
  destruct (created_message_is_listed Sample.settings Sample.env1 Sample.env2
              Sample.post_m1 Sample.empty_world Sample.body_m1 "testsecret" Sample.msg_m1
              50 0 Stats.order_a)
    as (_ & H & _);
    [reflexivity | reflexivity | reflexivity | reflexivity | reflexivity | intros [] |].
  exact H.
Defined.

(* ================================================================= *)
(** ** Further properties of the statistics *)

Lemma zsum_app a b : zsum (a ++ b) = (zsum a + zsum b)%Z.
Proof.
  unfold zsum. induction a as [|x a IH]; cbn [app fold_right]; [reflexivity | rewrite IH; lia].
Qed.

Lemma zsum_perm a b : Permutation a b -> zsum a = zsum b.
Proof. unfold zsum. induction 1; cbn [fold_right]; lia. Qed.

Lemma zsum_nonneg l : Forall (fun x => 0 <= x)%Z l -> (0 <= zsum l)%Z.
Proof. unfold zsum. induction 1; cbn [fold_right]; lia. Qed.

Lemma zsum_map_add {A} (f g : A -> Z) l :
  zsum (map (fun x => f x + g x)%Z l) = (zsum (map f l) + zsum (map g l))%Z.
Proof.
  unfold zsum. induction l as [|x l IH]; cbn [map fold_right]; [reflexivity | rewrite IH; lia].
Qed.

Lemma zsum_cons x l : zsum (x :: l) = (x + zsum l)%Z.
Proof. reflexivity. Qed.

Lemma zsum_indicator_absent (s : string) l :
  ~ In s l -> zsum (map (fun x => if String.eqb s x then 1 else 0)%Z l) = 0%Z.
Proof.
  induction l as [|y l IH]; intros Hn; [reflexivity|]. cbn [map]. rewrite zsum_cons.
  destruct (String.eqb s y) eqn:E.
  - apply String.eqb_eq in E. exfalso. apply Hn. left. congruence.
  - rewrite IH; [reflexivity|]. intros H. apply Hn. right. exact H.
Qed.

Lemma zsum_indicator (s : string) l :
  NoDup l -> In s l -> zsum (map (fun x => if String.eqb s x then 1 else 0)%Z l) = 1%Z.
Proof.
  induction 1 as [|y l Hn Hd IH]; intros Hin; [destruct Hin|]. cbn [map]. rewrite zsum_cons.
  destruct (String.eqb s y) eqn:E.
  - apply String.eqb_eq in E. subst y. rewrite zsum_indicator_absent by exact Hn. reflexivity.
  - destruct Hin as [->|Hin]; [rewrite String.eqb_refl in E; discriminate E|].
    rewrite IH by exact Hin. reflexivity.
Qed.

(** Each row is counted under exactly one sender. *)
Lemma counts_add_up (senders : list string) : forall tb : Message.table,
  NoDup senders ->
  (forall r, In r tb -> In (Message.from_msisdn r) senders) ->
  zsum (map (fun s => Sql.count_from s tb) senders) = Z.of_nat (List.length tb).
Proof.
  intros tb Hn. induction tb as [|r tb IH]; intros Hcov.
  - unfold Sql.count_from. cbn [filter List.length Z.of_nat].
    clear Hn Hcov. induction senders as [|s l IHl]; [reflexivity|].
    cbn [map]. rewrite zsum_cons, IHl. reflexivity.
  - assert (E : forall s, Sql.count_from s (r :: tb)
                          = ((if String.eqb (Message.from_msisdn r) s then 1 else 0)
                             + Sql.count_from s tb)%Z).
    { intros s. unfold Sql.count_from. cbn [filter].
      destruct (String.eqb (Message.from_msisdn r) s); cbn [List.length]; lia. }
    rewrite (map_ext _ _ E), zsum_map_add.
    rewrite zsum_indicator; [|exact Hn|apply Hcov; left; reflexivity].
    rewrite IH; [cbn [List.length]; lia|].
    intros x Hx. apply Hcov. right. exact Hx.
Qed.

Lemma group_counts_add_up tb :
  zsum (map snd (Sql.group_by_sender tb)) = Z.of_nat (List.length tb).
Proof.
  unfold Sql.group_by_sender. rewrite map_map. cbn [snd].
  apply counts_add_up; [apply distinct_NoDup|].
  intros r Hr. apply senders_spec. eauto.
Qed.

Lemma zsum_firstn_le n : forall l,
  Forall (fun x => 0 <= x)%Z l -> (zsum (firstn n l) <= zsum l)%Z.
Proof.
  intros l H. rewrite <- (firstn_skipn n l) at 2. rewrite zsum_app.
  assert (0 <= zsum (skipn n l))%Z; [|lia].
  apply zsum_nonneg. rewrite <- (firstn_skipn n l) in H. apply Forall_app in H. apply H.
Qed.

(** X20. The counts listed in [messages_per_sender] never add up to
    more than [total_messages], and each is at least 1.  With at most
    ten distinct senders the list names every sender and its counts
    add up to [total_messages] exactly; with more than ten it has
    exactly ten entries. *)
Theorem sender_counts_add_up (order : list (string * Z) -> list (string * Z))
        (env : Env) (w : World) :
  Sql.orders_by_count_desc order ->
  let r := fst (Stats.get_stats order env w) in
  (sum_counts (Stats.messages_per_sender r) <= Stats.total_messages r)%Z
  /\ (forall e, In e (Stats.messages_per_sender r) -> (1 <= Stats.count e)%Z)
  /\ ((Stats.senders_count r <= 10)%Z ->
      Z.of_nat (List.length (Stats.messages_per_sender r)) = Stats.senders_count r
      /\ sum_counts (Stats.messages_per_sender r) = Stats.total_messages r
      /\ forall x, In x (db w) ->
           In (Message.from_msisdn x)
              (map Stats.from_msisdn (Stats.messages_per_sender r)))
  /\ ((10 < Stats.senders_count r)%Z ->
      List.length (Stats.messages_per_sender r) = 10%nat).
Proof.
  intros Hord. cbn zeta. unfold Stats.get_stats, sum_counts.
  cbn [fst Stats.messages_per_sender Stats.total_messages Stats.senders_count].
  unfold Stats.top_senders. rewrite !map_map. cbn [Stats.count Stats.from_msisdn].
  destruct (Hord (Sql.group_by_sender (db w))) as [Hp Hs].
  set (groups := Sql.group_by_sender (db w)) in *.
  assert (Hlen : List.length (order groups) = List.length (Sql.senders (db w))).
  { rewrite <- (Permutation_length Hp). unfold groups, Sql.group_by_sender.
    apply length_map. }
  assert (Hsum : zsum (map snd (order groups)) = Z.of_nat (List.length (db w))).
  { rewrite <- (zsum_perm _ _ (Permutation_map snd Hp)). apply group_counts_add_up. }
  assert (Hpos : forall g, In g (order groups) -> (1 <= snd g)%Z).
  { intros g Hg. apply (Permutation_in g (Permutation_sym Hp)) in Hg.
    apply group_by_sender_in in Hg. destruct Hg as [Hin ->].
    apply senders_spec in Hin. destruct Hin as (x & Hx & E).
    unfold Sql.count_from.
    assert (Hf : In x (filter (fun r => String.eqb (Message.from_msisdn r) (fst g)) (db w))).
    { apply filter_In. split; [exact Hx|]. apply String.eqb_eq. exact E. }
    destruct (filter _ (db w)); [destruct Hf|]. cbn [List.length]. lia. }
  split; [|split; [|split]].
  - rewrite <- Hsum, <- firstn_map. apply zsum_firstn_le.
    rewrite Forall_forall. intros z Hz. apply in_map_iff in Hz.
    destruct Hz as (g & <- & Hg). specialize (Hpos g Hg). lia.
  - intros e He. apply in_map_iff in He. destruct He as (g & <- & Hg). cbn.
    apply Hpos. rewrite <- (firstn_skipn 10 (order groups)). apply in_or_app. left. exact Hg.
  - intros Hle. rewrite firstn_all2 by lia.
    split; [rewrite length_map; lia|]. split; [exact Hsum|].
    intros x Hx. apply (Permutation_in _ (Permutation_map fst Hp)).
    unfold groups. rewrite group_by_sender_keys. apply senders_spec. eauto.
  - intros Hgt. rewrite length_map, length_firstn. lia.
Qed.

Lemma sender_counts_witness :
  let tb := [ Sample.row "m1" "+1000000001" "2025-01-15T10:00:00Z" None;
              Sample.row "m2" "+1000000003" "2025-01-15T09:00:00Z" None;
              Sample.row "m3" "+1000000001" "2025-01-16T08:30:00Z" None ] in
  let r := fst (Stats.get_stats Stats.order_b Sample.env1 (MkWorld tb Metrics.init [])) in
  sum_counts (Stats.messages_per_sender r) = 3%Z.
Proof.
  intros tb r.
  destruct (sender_counts_add_up Stats.order_b Sample.env1 (MkWorld tb Metrics.init [])
              order_b_contract) as (_ & _ & H & _).
  destruct H as (_ & Hsum & _); [vm_compute; discriminate|]. exact Hsum.
Defined.

(* ================================================================= *)
(** ** Further properties of the metrics collector *)

Lemma counter_of_incr_same key d :
  counter_of key (Metrics.incr key d) = (counter_of key d + 1)%Z.
Proof.
  induction d as [|[k v] d IH]; cbn [Metrics.incr counter_of].
  - rewrite String.eqb_refl. reflexivity.
  - destruct (String.eqb k key) eqn:E; cbn [counter_of]; rewrite E; [reflexivity | exact IH].
Qed.

Lemma counter_of_incr_other key key' d :
  key' <> key -> counter_of key' (Metrics.incr key d) = counter_of key' d.
Proof.
  intros Hne. induction d as [|[k v] d IH]; cbn [Metrics.incr counter_of].
  - apply String.eqb_neq in Hne. rewrite String.eqb_sym, Hne. reflexivity.
  - destruct (String.eqb k key) eqn:E; cbn [counter_of].
    + apply String.eqb_eq in E. subst k.
      apply String.eqb_neq in Hne. rewrite String.eqb_sym, Hne. reflexivity.
    + rewrite IH. reflexivity.
Qed.

Lemma incr_keys_in key d k :
  In k (map fst (Metrics.incr key d)) <-> k = key \/ In k (map fst d).
Proof.
  induction d as [|[k0 v] d IH]; cbn [Metrics.incr map fst In].
  - split; [intros [H|[]]; auto | intros [H|[]]; auto].
  - destruct (String.eqb k0 key) eqn:E; cbn [map fst In].
    + apply String.eqb_eq in E. subst k0. intuition (subst; auto).
    + rewrite IH. intuition (subst; auto).
Qed.

Lemma incr_keys_NoDup key d :
  NoDup (map fst d) -> NoDup (map fst (Metrics.incr key d)).
Proof.
  induction d as [|[k v] d IH]; intros H; cbn [Metrics.incr map fst].
  - constructor; [intros []|constructor].
  - cbn [map fst] in H. inversion H as [|? ? Hn Hd]; subst.
    destruct (String.eqb k key) eqn:E; cbn [map fst].
    + constructor; assumption.
    + constructor; [|apply IH, Hd]. rewrite incr_keys_in. intros [->|Hin].
      * rewrite String.eqb_refl in E. discriminate E.
      * contradiction.
Qed.


(** X21. Recording a request adds exactly one to the counter of its own
    path and status and leaves every other counter, the webhook
    counters and the latencies as they were; recording a webhook outcome
    does the same for the outcome's counter; recording a latency appends
    it and touches no counter.  The keys of a counter dict stay
    distinct. *)
Theorem recording_counts_once (m : Metrics.MetricsCollector)
        (path result other : string) (status : Z) (latency : Q) :
  let m1 := Metrics.record_http_request path status m in
  let m2 := Metrics.record_webhook_result result m in
  let m3 := Metrics.record_latency latency m in
  counter_of (Metrics.http_key path status) (Metrics.http_requests_total m1)
  = (counter_of (Metrics.http_key path status) (Metrics.http_requests_total m) + 1)%Z
  /\ (other <> Metrics.http_key path status ->
      counter_of other (Metrics.http_requests_total m1)
      = counter_of other (Metrics.http_requests_total m))
  /\ Metrics.webhook_requests_total m1 = Metrics.webhook_requests_total m
  /\ Metrics.request_latencies m1 = Metrics.request_latencies m
  /\ counter_of (Metrics.webhook_key result) (Metrics.webhook_requests_total m2)
     = (counter_of (Metrics.webhook_key result) (Metrics.webhook_requests_total m) + 1)%Z
  /\ (other <> Metrics.webhook_key result ->
      counter_of other (Metrics.webhook_requests_total m2)
      = counter_of other (Metrics.webhook_requests_total m))
  /\ Metrics.http_requests_total m2 = Metrics.http_requests_total m
  /\ Metrics.request_latencies m2 = Metrics.request_latencies m
  /\ Metrics.request_latencies m3 = (Metrics.request_latencies m ++ [latency])%list
  /\ Metrics.http_requests_total m3 = Metrics.http_requests_total m
  /\ Metrics.webhook_requests_total m3 = Metrics.webhook_requests_total m
  /\ (NoDup (map fst (Metrics.http_requests_total m)) ->
      NoDup (map fst (Metrics.http_requests_total m1)))
  /\ (NoDup (map fst (Metrics.webhook_requests_total m)) ->
      NoDup (map fst (Metrics.webhook_requests_total m2))).
Proof.
  cbn zeta.
  cbn [Metrics.record_http_request Metrics.record_webhook_result Metrics.record_latency
       Metrics.http_requests_total Metrics.webhook_requests_total Metrics.request_latencies].
  repeat split; try apply counter_of_incr_same; try apply counter_of_incr_other;
    try apply incr_keys_NoDup.
Qed.

Lemma counter_of_in key d :
  In key (map fst d) -> In (key, counter_of key d) d.
Proof.
  induction d as [|[k v] d IH]; intros H; [destruct H|]. cbn [counter_of].
  destruct (String.eqb k key) eqn:E.
  - apply String.eqb_eq in E. subst k. left. reflexivity.
  - right. apply IH. destruct H as [H|H]; [|exact H].
    cbn in H. subst k. rewrite String.eqb_refl in E. discriminate E.
Qed.

Lemma http_line_in_export m key :
  In key (map fst (Metrics.http_requests_total m)) ->
  In ("http_requests_total" ++ key ++ " "
        ++ Py.str_of_int (counter_of key (Metrics.http_requests_total m)))%string
     (Metrics.export_lines m).
Proof.
  intros H. unfold Metrics.export_lines, Metrics.counter_lines.
  apply in_or_app. left.
  apply (in_map (fun kc => ("http_requests_total" ++ fst kc ++ " "
                             ++ Py.str_of_int (snd kc))%string)
           _ (key, counter_of key (Metrics.http_requests_total m))).
  apply counter_of_in, H.
Qed.

Lemma webhook_line_in_export m key :
  In key (map fst (Metrics.webhook_requests_total m)) ->
  In ("webhook_requests_total" ++ key ++ " "
        ++ Py.str_of_int (counter_of key (Metrics.webhook_requests_total m)))%string
     (Metrics.export_lines m).
Proof.
  intros H. unfold Metrics.export_lines, Metrics.counter_lines.
  apply in_or_app. right. apply in_or_app. left.
  apply (in_map (fun kc => ("webhook_requests_total" ++ fst kc ++ " "
                             ++ Py.str_of_int (snd kc))%string)
           _ (key, counter_of key (Metrics.webhook_requests_total m))).
  apply counter_of_in, H.
Qed.

(** X22. What is recorded shows in the export: right after a request
    with a given path and status has been recorded, the metrics text
    holds the line of that counter with the count it had before plus
    one, and likewise for a webhook outcome. *)
Theorem recorded_request_shows_in_export (m : Metrics.MetricsCollector)
        (path result : string) (status : Z) :
  In ("http_requests_total" ++ Metrics.http_key path status ++ " "
        ++ Py.str_of_int (counter_of (Metrics.http_key path status)
                            (Metrics.http_requests_total m) + 1))%string
     (Metrics.export_lines (Metrics.record_http_request path status m))
  /\ In ("webhook_requests_total" ++ Metrics.webhook_key result ++ " "
           ++ Py.str_of_int (counter_of (Metrics.webhook_key result)
                               (Metrics.webhook_requests_total m) + 1))%string
        (Metrics.export_lines (Metrics.record_webhook_result result m)).
Proof.
  split.
  - rewrite <- counter_of_incr_same.
    apply (http_line_in_export (Metrics.record_http_request path status m)).
    cbn [Metrics.record_http_request Metrics.http_requests_total].
    apply incr_keys_in. left. reflexivity.
  - rewrite <- counter_of_incr_same.
    apply (webhook_line_in_export (Metrics.record_webhook_result result m)).
    cbn [Metrics.record_webhook_result Metrics.webhook_requests_total].
    apply incr_keys_in. left. reflexivity.
Qed.


Lemma histogram_absent l : Metrics.histogram_lines l = [] -> l = [].
Proof.
  destruct l as [|x l]; [reflexivity|].
  unfold Metrics.histogram_lines. cbv zeta. intros H. discriminate H.
Qed.

(** X24. The metrics text a call returns is drawn before the call counts
    itself, so a call never shows its own request; the next call does:
    its text holds the [/metrics] counter line with the earlier count
    plus one and is never empty. *)
Theorem metrics_text_precedes_own_count (env1 env2 : Env) (w : World) :
  let first := MetricsEndpoint.get_metrics env1 w in
  let second := MetricsEndpoint.get_metrics env2 (snd first) in
  fst first = Metrics.export_prometheus (metrics w)
  /\ fst second
     = Py.join Py.newline
         (Metrics.export_lines
            (Metrics.record_latency (latency_ms env1)
               (Metrics.record_http_request "/metrics" 200 (metrics w))))
  /\ In ("http_requests_total" ++ Metrics.http_key "/metrics" 200 ++ " "
           ++ Py.str_of_int (counter_of (Metrics.http_key "/metrics" 200)
                               (Metrics.http_requests_total (metrics w)) + 1))%string
        (Metrics.export_lines (metrics (snd first)))
  /\ Metrics.histogram_lines (Metrics.request_latencies (metrics (snd first))) <> [].
Proof.
  cbn zeta. unfold MetricsEndpoint.get_metrics. cbn [fst snd metrics].
  split; [reflexivity|]. split; [reflexivity|]. split.
  - rewrite <- counter_of_incr_same.
    apply (http_line_in_export
             (Metrics.record_latency (latency_ms env1)
                (Metrics.record_http_request "/metrics" 200 (metrics w)))).
    cbn [Metrics.record_latency Metrics.record_http_request Metrics.http_requests_total].
    apply incr_keys_in. left. reflexivity.
  - cbn [Metrics.record_latency Metrics.request_latencies].
    intros H. apply histogram_absent in H.
    apply app_eq_nil in H. destruct H as [_ H]. discriminate H.
Qed.

(* ================================================================= *)
(** ** The log line *)

Lemma dict_get_set_same k v d : dict_get k (Logging.dict_set k v d) = Some v.
Proof.
  induction d as [|[k0 v0] d IH]; cbn [Logging.dict_set dict_get].
  - rewrite String.eqb_refl. reflexivity.
  - destruct (String.eqb k0 k) eqn:E; cbn [dict_get]; rewrite E; [reflexivity | exact IH].
Qed.

Lemma dict_get_set_other k k' v d :
  k' <> k -> dict_get k' (Logging.dict_set k v d) = dict_get k' d.
Proof.
  intros Hne. induction d as [|[k0 v0] d IH]; cbn [Logging.dict_set dict_get].
  - apply String.eqb_neq in Hne. rewrite String.eqb_sym, Hne. reflexivity.
  - destruct (String.eqb k0 k) eqn:E; cbn [dict_get].
    + apply String.eqb_eq in E. subst k0.
      apply String.eqb_neq in Hne. rewrite String.eqb_sym, Hne. reflexivity.
    + rewrite IH. reflexivity.
Qed.

Lemma dict_update_untouched k extra : forall d,
  ~ In k (map fst extra) ->
  dict_get k (Logging.dict_update d extra) = dict_get k d.
Proof.
  unfold Logging.dict_update.
  induction extra as [|[k0 v0] extra IH]; intros d Hn; [reflexivity|].
  cbn [fold_left fst snd]. rewrite IH.
  - apply dict_get_set_other. intros E. apply Hn. left. cbn. congruence.
  - intros H. apply Hn. right. exact H.
Qed.

Lemma dict_update_taken k v extra : forall d,
  NoDup (map fst extra) -> In (k, v) extra ->
  dict_get k (Logging.dict_update d extra) = Some v.
Proof.
  induction extra as [|[k0 v0] extra IH]; intros d Hn Hin; [destruct Hin|].
  cbn [map fst] in Hn. inversion Hn as [|? ? Hnot Hn']; subst.
  destruct Hin as [E|Hin].
  - inversion E; subst.
    change (Logging.dict_update d ((k, v) :: extra))
      with (Logging.dict_update (Logging.dict_set k v d) extra).
    rewrite dict_update_untouched by exact Hnot. apply dict_get_set_same.
  - change (Logging.dict_update d ((k0, v0) :: extra))
      with (Logging.dict_update (Logging.dict_set k0 v0 d) extra).
    apply IH; assumption.
Qed.

(** X25. A log line carries the time, the level INFO, the request id,
    the method, the path, the status and the latency rounded to two
    decimals, each unless the extra fields name the same key, and every
    extra field with its value; an extra field named like a standard one
    replaces it. *)
Theorem log_line_fields (now request_id method path : string) (status : Z)
        (latency : Q) (extra : Logging.line) :
  NoDup (map fst extra) ->
  let line := Logging.log_request now request_id method path status latency extra in
  let kept (k : string) (v : json) :=
    ~ In k (map fst extra) -> dict_get k line = Some v in
  kept "ts"%string (JStr now)
  /\ kept "level"%string (JStr "INFO")
  /\ kept "request_id"%string (JStr request_id)
  /\ kept "method"%string (JStr method)
  /\ kept "path"%string (JStr path)
  /\ kept "status"%string (JInt status)
  /\ kept "latency_ms"%string (JFloat (Logging.round2 latency))
  /\ forall k v, In (k, v) extra -> dict_get k line = Some v.
Proof.
  intros Hn. cbn zeta. unfold Logging.log_request.
  repeat split; try (intros H; rewrite dict_update_untouched by exact H; reflexivity).
  intros k v Hin. apply dict_update_taken; assumption.
Qed.

Lemma log_line_fields_witness :
  let line := Logging.log_request "2025-01-15T10:00:01Z" "req-1" "POST" "/webhook" 200
                (1234567 # 1000)
                [ ("message_id", JStr "m1"); ("dup", JBool false);
                  ("result", JStr "created") ]%string in
  dict_get "status" line = Some (JInt 200)
  /\ dict_get "latency_ms" line = Some (JFloat (123457 # 100))
  /\ dict_get "dup" line = Some (JBool false).
Proof.
  intros line.
  destruct (log_line_fields "2025-01-15T10:00:01Z" "req-1" "POST" "/webhook" 200
              (1234567 # 1000)
              [ ("message_id", JStr "m1"); ("dup", JBool false);
                ("result", JStr "created") ]%string)
    as (_ & _ & _ & _ & _ & Hs & Hl & He).
  - cbn. repeat (constructor; [cbn; intuition discriminate|]). constructor.
  - split; [apply Hs; cbn; intuition discriminate|].
    split; [apply Hl; cbn; intuition discriminate|].
    apply He. right. left. reflexivity.
Defined.

(* ================================================================= *)
(** ** Validation comes before the store *)


